(** * Power Logger (src/app.py): a shallow embedding and its verified properties

    The program is one Streamlit script.  Every user interaction re-runs it
    from the top against the session state, whose single entry [df] refers to
    a pandas DataFrame with the columns "Date Time" and "Power".

    - Python objects (DataFrames) live in a heap of references, because the
      script aliases them ([df = st.session_state.df]) and mutates one in
      place ([df_plot["Date Time"] = ...]).
    - Exceptions are explicit: a computation returns [Ok] or [Raise], and
      keeps the state it reached when it raised.
    - What the page shows is the list of elements the script emitted.
    - pandas, numpy, plotly and the csv module are collaborators.  Their
      behaviour on this program's calls is written out below; the parts that
      depend on a collaborator's internals (date parsing, the sort routine,
      float printing, chart construction) are fields of the record
      [library], so that the theorems hold for every such collaborator. *)

From Stdlib Require Import ZArith QArith List String Ascii Lia.
From Stdlib Require Import SpecFloat DecimalString.
From Stdlib Require DecimalPos.
From Stdlib Require Import Sorting.Sorted Sorting.Permutation.
From stdpp Require Import gmap strings.

Close Scope Q_scope.
Local Open Scope string_scope.
Local Open Scope list_scope.

(** ** Python values *)

(** The exceptions the program can meet. *)
Inductive exn : Type :=
| ValueError
| TypeError
| OverflowError
| KeyError
| IndexError
| AttributeError
| OtherError.

(** A computation's result: a value, or a raised exception. *)
Inductive outcome (A : Type) : Type :=
| Ok (a : A)
| Raise (e : exn).
Arguments Ok {A} a.
Arguments Raise {A} e.

(** One cell of a DataFrame, as the Python object it holds.  The editor
    accepts anything, so a cell of either column may be missing ([None]),
    an integer, a binary64 float (NaN and the infinities included), or
    text.  [CTime] is a parsed date-time (nanoseconds since the epoch); only
    the chart's private copy ever holds one. *)
Inductive cell : Type :=
| CNone
| CInt (z : Z)
| CFloat (f : spec_float)
| CStr (s : string)
| CTime (ns : Z).

(** One row: the value of each of the two columns. *)
Record row : Type := mk_row { date_time : cell; power : cell }.

(** A DataFrame: its column labels and its rows, in order. *)
Record DataFrame : Type := mk_frame { columns : list string; rows : list row }.

(** [pd.DataFrame(columns=["Date Time", "Power"])] *)
Definition schema : list string := ["Date Time"; "Power"].
Definition empty_frame : DataFrame := mk_frame schema [].

(** [len(df)] *)
Definition len (df : DataFrame) : nat := length (rows df).

(** [df.empty]: some axis has length 0. *)
Definition empty (df : DataFrame) : bool :=
  (length (rows df) =? 0)%nat || (length (columns df) =? 0)%nat.

(** [df[label]]: the column's values, or [KeyError]. *)
Definition getitem (df : DataFrame) (label : string) : outcome (list cell) :=
  if bool_decide (label ∈ columns df) then
    if String.eqb label "Date Time" then Ok (map date_time (rows df))
    else if String.eqb label "Power" then Ok (map power (rows df))
    else Raise KeyError
  else Raise KeyError.

(** [series.iloc[-1]] *)
Definition iloc_last (s : list cell) : outcome cell :=
  match last s with
  | Some c => Ok c
  | None => Raise IndexError
  end.

(** [pd.concat([a, b], ignore_index=True)]: the rows of [a], then those of
    [b]; the labels of [a], then the labels only [b] has. *)
Definition concat (a b : DataFrame) : DataFrame :=
  mk_frame
    (columns a ++ List.filter (fun c => negb (bool_decide (c ∈ columns a))) (columns b))
    (rows a ++ rows b).

(** ** The clock: [datetime.now().strftime("%Y-%m-%d %H:%M:%S")] *)

Record datetime : Type := mk_datetime {
  year : nat; month : nat; day : nat;
  hour : nat; minute : nat; second : nat
}.

Definition digit (n : nat) : ascii := ascii_of_nat (48 + n mod 10).

Definition pad2 (n : nat) : string :=
  String (digit (n / 10)) (String (digit n) EmptyString).

Definition pad4 (n : nat) : string :=
  String (digit (n / 1000)) (String (digit (n / 100)) (pad2 n)).

Definition strftime (d : datetime) : string :=
  pad4 (year d) ++ "-" ++ pad2 (month d) ++ "-" ++ pad2 (day d) ++ " " ++
  pad2 (hour d) ++ ":" ++ pad2 (minute d) ++ ":" ++ pad2 (second d).

(** What [datetime.now()] can return: a calendar date-time of the years
    1000 to 9999 (below 1000 the width of [%Y] depends on the platform). *)
Definition valid_datetime (d : datetime) : Prop :=
  (1000 <= year d < 10 * 1000 /\ 1 <= month d <= 12 /\ 1 <= day d <= 31 /\
   hour d <= 23 /\ minute d <= 59 /\ second d <= 59)%nat.

(** ** The page and the session *)

Inductive chart_kind : Type := Line | Scatter | Bar.

(** A plotly figure: the kind, the marker option ([px.line] only) and the
    two series in the frame's row order. *)
Record figure : Type := mk_figure {
  fig_kind : chart_kind;
  fig_markers : option bool;
  fig_x : list cell;
  fig_y : list cell
}.

(** What a metric displays. *)
Inductive metric_value : Type :=
| MInt (z : Z)
| MText (s : string)
| MFloat (q : Q)
| MNaN
| MInf (negative : bool)
| MTime (ns : Z)
| MNaT.

(** The elements the script puts on the page. *)
Inductive element : Type :=
| Metric (label : string) (value : metric_value)
| Success (now : string) (p : Z)
| WarningCleared
| WarningNotParsed
| InfoNothingToPlot
| InfoNothingToSave
| DataEditor (shown : DataFrame)
| PlotlyChart (fig : figure)
| ErrorChart (e : exn)
| DownloadButton (data : list Byte.byte) (file_name : string) (mime : string).

Definition loc : Type := positive.

(** The state a run works on: the heap of DataFrame objects, the session
    state (a dictionary from keys to references) and the page so far. *)
Record state : Type := mk_state {
  heap : gmap loc DataFrame;
  session_state : gmap string loc;
  page : list element
}.

(** The empty session a browser tab starts with. *)
Definition new_session : state := mk_state ∅ ∅ [].

(** ** Scripts: state and exceptions *)

Definition script (A : Type) : Type := state -> outcome A * state.

Definition ret {A} (a : A) : script A := fun s => (Ok a, s).

Definition bind {A B} (c : script A) (k : A -> script B) : script B :=
  fun s =>
    match c s with
    | (Ok a, s') => k a s'
    | (Raise e, s') => (Raise e, s')
    end.

Notation "x <- c ;; k" := (bind c (fun x => k))
  (at level 100, c at next level, right associativity).
Notation "c ;; k" := (bind c (fun _ => k))
  (at level 100, right associativity).

(** [raise e] *)
Definition raise {A} (e : exn) : script A := fun s => (Raise e, s).

(** A pure computation that may raise. *)
Definition lift {A} (o : outcome A) : script A := fun s => (o, s).

(** [try: body  except Exception: handler].  The handler starts from the
    state the body had reached. *)
Definition try_except {A} (body : script A) (handler : exn -> script A) : script A :=
  fun s =>
    match body s with
    | (Ok a, s') => (Ok a, s')
    | (Raise e, s') => handler e s'
    end.

(** The state a script ends in, and what it returned. *)
Definition exec {A} (c : script A) (s : state) : state := snd (c s).
Definition result {A} (c : script A) (s : state) : outcome A := fst (c s).

(** Put an element on the page. *)
Definition emit (e : element) : script unit :=
  fun s => (Ok tt, mk_state (heap s) (session_state s) (page s ++ [e])).

(** Create a new object. *)
Definition alloc (df : DataFrame) : script loc :=
  fun s =>
    let l := fresh (dom (heap s)) in
    (Ok l, mk_state (<[l := df]> (heap s)) (session_state s) (page s)).

(** Read the object behind a reference. *)
Definition deref (l : loc) : script DataFrame :=
  fun s =>
    match heap s !! l with
    | Some df => (Ok df, s)
    | None => (Raise OtherError, s)
    end.

(** Overwrite the object behind a reference (in-place mutation). *)
Definition store (l : loc) (df : DataFrame) : script unit :=
  fun s => (Ok tt, mk_state (<[l := df]> (heap s)) (session_state s) (page s)).

(** [st.session_state.df] *)
Definition get_df : script loc :=
  fun s =>
    match session_state s !! "df" with
    | Some l => (Ok l, s)
    | None => (Raise AttributeError, s)
    end.

(** [st.session_state.df = l] *)
Definition set_df (l : loc) : script unit :=
  fun s => (Ok tt, mk_state (heap s) (<["df" := l]> (session_state s)) (page s)).

(** The Table Store's content: the DataFrame [st.session_state.df] refers to. *)
Definition table (s : state) : option DataFrame :=
  match session_state s !! "df" with
  | Some l => heap s !! l
  | None => None
  end.

(** Lines 14-15: create the table on a session's first run. *)
Definition init : script unit :=
  fun s =>
    match session_state s !! "df" with
    | Some _ => (Ok tt, s)
    | None => (l <- alloc empty_frame ;; set_df l) s
    end.

(** ** Ingestion and the editor (tab 1) *)

(** Lines 84-96: the [if add_clicked:] block. *)
Definition add (clock : datetime) (power_value : Z) : script unit :=
  let now := strftime clock in
  new_row <- alloc (mk_frame schema [mk_row (CStr now) (CInt power_value)]) ;;
  old <- get_df ;;
  a <- deref old ;;
  b <- deref new_row ;;
  l <- alloc (concat a b) ;;
  set_df l ;;
  emit (Success now power_value).

(** Lines 98-100: the [if clear_clicked:] block. *)
Definition clear : script unit :=
  l <- alloc empty_frame ;;
  set_df l ;;
  emit WarningCleared.

(** Lines 105-111: the editor shows the table, returns the user's edited
    table as a new object, and the script stores it.  [editor] is what the
    widget returns for the table it is given (the identity when the user
    changed nothing). *)
Definition data_editor (editor : DataFrame -> DataFrame) : script unit :=
  l <- get_df ;;
  shown <- deref l ;;
  emit (DataEditor shown) ;;
  edited_df <- alloc (editor shown) ;;
  set_df edited_df.

(** The Editor's [apply(edited)]: the widget returned [edited]. *)
Definition apply (edited : DataFrame) : script unit :=
  data_editor (fun _ => edited).

(** ** Python's [int(x)] *)

Definition is_space (c : ascii) : bool :=
  let n := nat_of_ascii c in
  ((9 <=? n) && (n <=? 13))%nat || (n =? 32)%nat.

Definition digit_value (c : ascii) : option Z :=
  let n := nat_of_ascii c in
  if ((48 <=? n) && (n <=? 57))%nat then Some (Z.of_nat (n - 48)) else None.

Fixpoint lstrip (l : list ascii) : list ascii :=
  match l with
  | c :: l' => if is_space c then lstrip l' else l
  | [] => []
  end.

(** [s.strip()] *)
Definition strip (l : list ascii) : list ascii := rev (lstrip (rev (lstrip l))).

(** Decimal digits, single underscores allowed between two digits. *)
Fixpoint digits (acc : Z) (after_digit : bool) (l : list ascii) : option Z :=
  match l with
  | [] => if after_digit then Some acc else None
  | c :: l' =>
      match digit_value c with
      | Some d => digits (10 * acc + d)%Z true l'
      | None =>
          if Ascii.eqb c "_" && after_digit then digits acc false l' else None
      end
  end.

(** [int(s)] for text: blanks around an optionally signed decimal literal
    (ASCII digits). *)
Definition int_of_str (s : string) : option Z :=
  match strip (list_ascii_of_string s) with
  | [] => None
  | c :: l =>
      if Ascii.eqb c "-" then option_map Z.opp (digits 0 false l)
      else if Ascii.eqb c "+" then digits 0 false l
      else digits 0 false (c :: l)
  end.

(** [int(x)] for a float: the value truncated toward zero. *)
Definition int_of_float (f : spec_float) : outcome Z :=
  match f with
  | S754_zero _ => Ok 0%Z
  | S754_finite s m e =>
      let magnitude :=
        if (0 <=? e)%Z then (Zpos m * 2 ^ e)%Z else (Zpos m / 2 ^ (- e))%Z in
      Ok (if s then (- magnitude)%Z else magnitude)
  | S754_infinity _ => Raise OverflowError
  | S754_nan => Raise ValueError
  end.

(** [int(x)] for the object a cell holds. *)
Definition python_int (c : cell) : outcome Z :=
  match c with
  | CInt z => Ok z
  | CFloat f => int_of_float f
  | CStr s =>
      match int_of_str s with
      | Some z => Ok z
      | None => Raise ValueError
      end
  | CNone => Raise TypeError
  | CTime _ => Raise TypeError
  end.

(** ** Reading a date-time back

    The date-time a text of the exact form "YYYY-MM-DD HH:MM:SS" spells
    (digits and separators only; no check of the calendar). *)

(** The number a run of decimal digits spells. *)
Fixpoint number_of (acc : nat) (l : list ascii) : option nat :=
  match l with
  | [] => Some acc
  | c :: l' =>
      match digit_value c with
      | Some v => number_of (10 * acc + Z.to_nat v) l'
      | None => None
      end
  end.

Definition read_datetime (s : string) : option datetime :=
  match list_ascii_of_string s with
  | [y1; y2; y3; y4; s1; m1; m2; s2; d1; d2; s3; h1; h2; s4; n1; n2; s5; c1; c2] =>
      if Ascii.eqb s1 "-" && Ascii.eqb s2 "-" && Ascii.eqb s3 " " &&
         Ascii.eqb s4 ":" && Ascii.eqb s5 ":" then
        match number_of 0 [y1; y2; y3; y4], number_of 0 [m1; m2],
              number_of 0 [d1; d2], number_of 0 [h1; h2],
              number_of 0 [n1; n2], number_of 0 [c1; c2] with
        | Some y, Some m, Some d, Some h, Some mi, Some sec =>
            Some (mk_datetime y m d h mi sec)
        | _, _, _, _, _, _ => None
        end
      else None
  | _ => None
  end.

(** ** Float arithmetic, as far as the metrics need it *)

(** The exact value of a finite float. *)
Definition float_value (s : bool) (m : positive) (e : Z) : Q :=
  let n := if s then Zneg m else Zpos m in
  if (0 <=? e)%Z then inject_Z (n * 2 ^ e) else Qmake n (Z.to_pos (2 ^ (- e))).

(** A float result: the mean is computed on exact rationals; the rounding
    error of binary64 sums is outside this model. *)
Inductive number : Type :=
| Finite (q : Q)
| Infinite (negative : bool)
| NotANumber.

Definition number_add (a b : number) : number :=
  match a, b with
  | NotANumber, _ | _, NotANumber => NotANumber
  | Finite p, Finite q => Finite (Qred (Qplus p q))
  | Infinite s, Finite _ | Finite _, Infinite s => Infinite s
  | Infinite s, Infinite s' => if Bool.eqb s s' then Infinite s else NotANumber
  end.

(** The number a cell contributes to [Series.mean()]; [None] for a missing
    value, which [skipna=True] leaves out; text cannot be summed. *)
Definition cell_number (c : cell) : outcome (option number) :=
  match c with
  | CNone => Ok None
  | CInt z => Ok (Some (Finite (inject_Z z)))
  | CFloat S754_nan => Ok None
  | CFloat (S754_infinity s) => Ok (Some (Infinite s))
  | CFloat (S754_zero _) => Ok (Some (Finite 0%Q))
  | CFloat (S754_finite s m e) => Ok (Some (Finite (float_value s m e)))
  | CStr _ => Raise TypeError
  | CTime _ => Raise TypeError
  end.

(** Sum and count of the values present. *)
Fixpoint sum_count (col : list cell) (sum : number) (count : nat) : outcome (number * nat) :=
  match col with
  | [] => Ok (sum, count)
  | c :: col' =>
      match cell_number c with
      | Raise e => Raise e
      | Ok None => sum_count col' sum count
      | Ok (Some x) => sum_count col' (number_add sum x) (S count)
      end
  end.

(** [series.mean()] *)
Definition mean (col : list cell) : outcome number :=
  match sum_count col (Finite 0%Q) 0 with
  | Raise e => Raise e
  | Ok (_, O) => Ok NotANumber
  | Ok (Finite q, S n) => Ok (Finite (Qred (Qdiv q (inject_Z (Z.of_nat (S n))))))
  | Ok (x, _) => Ok x
  end.

(** [round(q, 2)]: the nearest multiple of 1/100, ties to even. *)
Definition round2 (q : Q) : Q :=
  let n := (Qnum q * 100)%Z in
  let d := Zpos (Qden q) in
  let lo := (n / d)%Z in
  let up :=
    match (2 * (n mod d) ?= d)%Z with
    | Lt => false
    | Gt => true
    | Eq => Z.odd lo
    end in
  Qmake (if up then lo + 1 else lo)%Z 100.

(** [round(x, 2)] as a metric shows it. *)
Definition round_metric (x : number) : metric_value :=
  match x with
  | Finite q => MFloat (round2 q)
  | Infinite s => MInf s
  | NotANumber => MNaN
  end.

(** ** The collaborators *)

(** What the program takes from pandas, numpy and plotly without this file
    fixing how they compute it:
    - [parse_datetime]: the date-time [pd.to_datetime] reads from a text or
      number cell, [None] when it cannot ([errors="raise"] then raises);
    - [argsort_datetime]: numpy's [argsort(kind="quicksort")] on a
      datetime64 array, as the positions in sorted order;
    - [argsort_object]: the same on an object array, where comparing two
      objects may raise;
    - [float_repr], [timestamp_repr]: [str] of a float and of a Timestamp;
    - [px_error]: the exception plotly express raises for a frame, if any. *)
Record library : Type := mk_library {
  parse_datetime : cell -> option Z;
  argsort_datetime : list Z -> list nat;
  argsort_object : list cell -> outcome (list nat);
  float_repr : spec_float -> string;
  timestamp_repr : Z -> string;
  px_error : chart_kind -> DataFrame -> option exn
}.

(** Sequencing of pure computations that may raise. *)
Definition and_then {A B} (o : outcome A) (k : A -> outcome B) : outcome B :=
  match o with
  | Ok a => k a
  | Raise e => Raise e
  end.

(** [pd.isna(x)] *)
Definition isna (c : cell) : bool :=
  match c with
  | CNone | CFloat S754_nan => true
  | _ => false
  end.

(** The positions (counted from [i]) of the cells that satisfy [keep]. *)
Fixpoint positions_from (i : nat) (keep : cell -> bool) (col : list cell) : list nat :=
  match col with
  | [] => []
  | c :: col' =>
      (if keep c then [i] else []) ++ positions_from (S i) keep col'
  end.

(** [values[indexer]] / [df.take(indexer)]: out of bounds raises. *)
Fixpoint take_at {A} (l : list A) (indexer : list nat) : outcome (list A) :=
  match indexer with
  | [] => Ok []
  | i :: rest =>
      match l !! i with
      | Some x => and_then (take_at l rest) (fun xs => Ok (x :: xs))
      | None => Raise IndexError
      end
  end.

(** The nanoseconds of a datetime64 array without NaT; [None] when some
    cell is not a date-time (the column is still an object column). *)
Fixpoint datetime_values (col : list cell) : option (list Z) :=
  match col with
  | [] => Some []
  | CTime t :: col' => option_map (cons t) (datetime_values col')
  | _ :: _ => None
  end.

(** [Series.min()] of a datetime64 column: the least date-time, NaT skipped. *)
Fixpoint min_time (col : list cell) : option Z :=
  match col with
  | [] => None
  | CTime t :: col' =>
      match min_time col' with
      | Some u => Some (Z.min t u)
      | None => Some t
      end
  | _ :: col' => min_time col'
  end.

(** [str(first_time)] as the metric shows it. *)
Definition time_metric (m : option Z) : metric_value :=
  match m with
  | Some t => MTime t
  | None => MNaT
  end.

(** ** CSV: [csv.writer] with pandas' dialect *)

Definition delimiter : ascii := ",".
Definition quotechar : ascii := "034".
(** [os.linesep] on POSIX. *)
Definition lineterminator : string := String "010" EmptyString.

(** A field is quoted ([QUOTE_MINIMAL]) when it holds one of these. *)
Definition special (c : ascii) : bool :=
  Ascii.eqb c delimiter || Ascii.eqb c quotechar ||
  existsb (Ascii.eqb c) (list_ascii_of_string lineterminator).

(** Every quote character doubled ([doublequote=True]). *)
Fixpoint escape (s : string) : string :=
  match s with
  | EmptyString => EmptyString
  | String c s' =>
      if Ascii.eqb c quotechar then String c (String c (escape s'))
      else String c (escape s')
  end.

Definition quoted (s : string) : string :=
  String quotechar (escape s ++ String quotechar EmptyString).

Definition quote_field (s : string) : string :=
  if existsb special (list_ascii_of_string s) then quoted s else s.

Fixpoint join (fields : list string) : string :=
  match fields with
  | [] => EmptyString
  | [f] => f
  | f :: rest => f ++ String delimiter (join rest)
  end.

(** [writer.writerow(fields)]; a record that is one empty field is written
    as an empty quoted field. *)
Definition writerow (fields : list string) : string :=
  match fields with
  | [EmptyString] => quoted EmptyString ++ lineterminator
  | _ => join (map quote_field fields) ++ lineterminator
  end.

(** [str(z)] for an integer. *)
Definition str_int (z : Z) : string := NilZero.string_of_int (Z.to_int z).

(** [bytes = text.encode("utf-8")].  Text is kept as the bytes of its UTF-8
    form (as the string literals of this file are), so encoding reads the
    bytes off and decoding puts them back. *)
Definition encode_utf8 (s : string) : list Byte.byte := list_byte_of_string s.

(** The texts [pd.to_datetime] reads as a missing date-time: the empty
    text and pandas' [nat_strings]. *)
Definition nat_strings : list string :=
  ["NaT"; "nat"; "NAT"; "nan"; "NaN"; "NAN"].

Definition is_nat_text (s : string) : bool :=
  String.eqb s EmptyString || existsb (String.eqb s) nat_strings.

Section Pandas.

Context (L : library).

(** The element conversion of [pd.to_datetime]: a missing value becomes
    NaT, and so does a text that stands for one; a date-time stays;
    anything else is parsed. *)
Definition to_datetime_cell (c : cell) : outcome cell :=
  match c with
  | CNone | CFloat S754_nan => Ok CNone
  | CTime t => Ok (CTime t)
  | CStr s =>
      if is_nat_text s then Ok CNone
      else
        match parse_datetime L c with
        | Some t => Ok (CTime t)
        | None => Raise ValueError
        end
  | _ =>
      match parse_datetime L c with
      | Some t => Ok (CTime t)
      | None => Raise ValueError
      end
  end.

(** [pd.to_datetime(series)]: every cell converted, or the first failure
    raised. *)
Fixpoint to_datetime (col : list cell) : outcome (list cell) :=
  match col with
  | [] => Ok []
  | c :: col' =>
      and_then (to_datetime_cell c) (fun t =>
      and_then (to_datetime col') (fun ts => Ok (t :: ts)))
  end.

(** pandas' [nargsort] with [na_position="last"]: the present values
    sorted by the collaborator, then the missing ones in their order. *)
Definition nargsort (col : list cell) : outcome (list nat) :=
  let non_nan_idx := positions_from 0 (fun c => negb (isna c)) col in
  let nan_idx := positions_from 0 isna col in
  let non_nans := List.filter (fun c => negb (isna c)) col in
  and_then
    (match datetime_values non_nans with
     | Some ts => Ok (argsort_datetime L ts)
     | None => argsort_object L non_nans
     end) (fun order =>
  and_then (take_at non_nan_idx order) (fun indexer =>
  Ok (indexer ++ nan_idx))).

(** The frame [df.sort_values("Date Time")] returns. *)
Definition sorted_frame (df : DataFrame) : outcome DataFrame :=
  and_then (getitem df "Date Time") (fun col =>
  and_then (nargsort col) (fun indexer =>
  and_then (take_at (rows df) indexer) (fun rs =>
  Ok (mk_frame (columns df) rs)))).

(** The text [to_csv] writes for a cell ([na_rep=""]). *)
Definition cell_text (c : cell) : string :=
  match c with
  | CNone | CFloat S754_nan => EmptyString
  | CInt z => str_int z
  | CFloat f => float_repr L f
  | CStr s => s
  | CTime t => timestamp_repr L t
  end.

(** The records of the body: one per row, led by the row's position when
    the index is written. *)
Fixpoint body_records (index : bool) (i : nat) (rs : list row) : list (list string) :=
  match rs with
  | [] => []
  | r :: rs' =>
      ((if index then [str_int (Z.of_nat i)] else []) ++
       [cell_text (date_time r); cell_text (power r)])
      :: body_records index (S i) rs'
  end.

(** [df.to_csv(index=...)]: the header record, then the body. *)
Definition to_csv (index : bool) (df : DataFrame) : string :=
  fold_left (fun (out : string) record => (out ++ writerow record)%string)
    (body_records index 0 (rows df))
    (writerow ((if index then [EmptyString] else []) ++ columns df)).

(** plotly express: [px.line], [px.scatter], [px.bar] with
    [x="Date Time", y="Power"]. *)
Definition px (kind : chart_kind) (markers : option bool) (df : DataFrame) : outcome figure :=
  match px_error L kind df with
  | Some e => Raise e
  | None =>
      and_then (getitem df "Date Time") (fun x =>
      and_then (getitem df "Power") (fun y =>
      Ok (mk_figure kind markers x y)))
  end.

Definition px_line (df : DataFrame) (markers : bool) := px Line (Some markers) df.
Definition px_scatter (df : DataFrame) := px Scatter None df.
Definition px_bar (df : DataFrame) := px Bar None df.

End Pandas.

(** ** The script *)

(** The sentinels the metrics show. *)
Definition no_data : string := "—".
Definition invalid_date : string := "Invalid Date".

(** One interaction: what the widgets return during the run it triggers. *)
Record interaction : Type := mk_interaction {
  clock : datetime;
  power_value : Z;
  add_clicked : bool;
  clear_clicked : bool;
  editor : DataFrame -> DataFrame;
  chart_type : chart_kind;
  show_markers : bool;
  sort_by_time : bool;
  file_name : string
}.

(** [df.copy()] *)
Definition copy (l : loc) : script loc :=
  df <- deref l ;;
  alloc df.

(** [df["Date Time"] = values]: the column is replaced in the object
    itself. *)
Definition setitem_date_time (l : loc) (values : list cell) : script unit :=
  df <- deref l ;;
  if (length values =? length (rows df))%nat then
    store l (mk_frame
               (if bool_decide ("Date Time" ∈ columns df) then columns df
                else columns df ++ ["Date Time"])
               (zip_with (fun v r => mk_row v (power r)) values (rows df)))
  else raise ValueError.

Section Script.

Context (L : library).

(** Line 36 *)
Definition metric_total_rows (df : loc) : script unit :=
  d <- deref df ;;
  emit (Metric "Total rows" (MInt (Z.of_nat (len d)))).

(** Lines 39-40 *)
Definition metric_latest_power (df : loc) : script unit :=
  d <- deref df ;;
  latest_power <-
    (if negb (empty d) then
       col <- lift (getitem d "Power") ;;
       x <- lift (iloc_last col) ;;
       n <- lift (python_int x) ;;
       ret (MInt n)
     else ret (MText no_data)) ;;
  emit (Metric "Latest Power" latest_power).

(** Lines 43-44 *)
Definition metric_average_power (df : loc) : script unit :=
  d <- deref df ;;
  avg_power <-
    (if negb (empty d) then
       col <- lift (getitem d "Power") ;;
       m <- lift (mean col) ;;
       ret (round_metric m)
     else ret (MText no_data)) ;;
  emit (Metric "Average Power" avg_power).

(** Lines 47-52 *)
Definition metric_start_time (df : loc) : script unit :=
  d <- deref df ;;
  if negb (empty d) then
    try_except
      (col <- lift (getitem d "Date Time") ;;
       ts <- lift (to_datetime L col) ;;
       let first_time := min_time ts in
       emit (Metric "Start time" (time_metric first_time)))
      (fun _ => emit (Metric "Start time" (MText invalid_date)))
  else ret tt.

(** Lines 31-52: the four metrics.  [df] is a second name for the object
    the session refers to. *)
Definition top_metrics : script unit :=
  df <- get_df ;;
  metric_total_rows df ;;
  metric_latest_power df ;;
  metric_average_power df ;;
  metric_start_time df.

(** Lines 62-111: the input tab. *)
Definition tab_input (i : interaction) : script unit :=
  (if add_clicked i then add (clock i) (power_value i) else ret tt) ;;
  (if clear_clicked i then clear else ret tt) ;;
  data_editor (editor i).

(** [df_plot.sort_values("Date Time")]: a new object. *)
Definition sort_values (l : loc) : script loc :=
  df <- deref l ;;
  sorted <- lift (sorted_frame L df) ;;
  alloc sorted.

(** Lines 117-142: the frame the chart is drawn from, [None] when there is
    nothing to plot. *)
Definition plot_frame (i : interaction) : script (option loc) :=
  src <- get_df ;;
  df_plot <- copy src ;;
  d <- deref df_plot ;;
  if empty d then
    emit InfoNothingToPlot ;;
    ret None
  else
    try_except
      (d <- deref df_plot ;;
       col <- lift (getitem d "Date Time") ;;
       ts <- lift (to_datetime L col) ;;
       setitem_date_time df_plot ts)
      (fun _ => emit WarningNotParsed) ;;
    df_plot <-
      (if sort_by_time i then
         try_except (sort_values df_plot) (fun _ => ret df_plot)
       else ret df_plot) ;;
    ret (Some df_plot).

(** Lines 148-174: the chart, any failure turned into an error element. *)
Definition build_chart (i : interaction) (df_plot : loc) : script unit :=
  try_except
    (d <- deref df_plot ;;
     fig <- lift (match chart_type i with
                  | Line => px_line L d (show_markers i)
                  | Scatter => px_scatter L d
                  | Bar => px_bar L d
                  end) ;;
     emit (PlotlyChart fig))
    (fun e => emit (ErrorChart e)).

(** Lines 114-174: the visualization tab. *)
Definition tab_plot (i : interaction) : script unit :=
  df_plot <- plot_frame i ;;
  match df_plot with
  | None => ret tt
  | Some l => build_chart i l
  end.

(** [serialize(table, filename)]: line 188. *)
Definition serialize (df : DataFrame) : list Byte.byte :=
  encode_utf8 (to_csv L false df).

(** Lines 177-198: the export tab. *)
Definition tab_export (i : interaction) : script unit :=
  l <- get_df ;;
  d <- deref l ;;
  if empty d then emit InfoNothingToSave
  else
    d <- deref l ;;
    emit (DownloadButton (serialize d) (file_name i) "text/csv").

(** One run of the whole script.  An exception no handler catches ends the
    run where it is raised. *)
Definition script_body (i : interaction) : script unit :=
  init ;;
  top_metrics ;;
  tab_input i ;;
  tab_plot i ;;
  tab_export i.

(** A run starts from an empty page and the session as the last run left it. *)
Definition run (i : interaction) (s : state) : outcome unit * state :=
  script_body i (mk_state (heap s) (session_state s) []).

End Script.

(** ** numpy's [argsort(kind="quicksort")]

    The routine pandas' [sort_values] reaches with its default [kind]: numpy's
    introsort on an array of positions [tosort], compared through the keys
    [v] (npysort/quicksort.cpp, [aquicksort_]).  Ranges of more than 16
    elements are partitioned around the median of three; shorter ones are
    insertion-sorted; a range that is reached after more than
    [2 * floor(log2 n)] partitions is heap-sorted ([aheapsort_]). *)
Module Numpy.

Section Keys.

(** The element type, its order ([Tag::less]) and the keys. *)
Context {K : Type} (lt : K -> K -> bool) (d : K) (v : list K).

(** [v[tosort[i]]] *)
Definition key (a : list nat) (i : nat) : K := nth (a !!! i) v d.

(** [INTP_SWAP(a[i], a[j])] *)
Definition swap (a : list nat) (i j : nat) : list nat :=
  <[j := a !!! i]> (<[i := a !!! j]> a).

(** The conditional swap of the median-of-three step: exchange when the
    key at [p] is less than the key at [q]. *)
Definition swap_if_less (a : list nat) (p q : nat) : list nat :=
  if lt (key a p) (key a q) then swap a p q else a.

(** [do ++pi; while (key at pi < vp)], entered with [pi] already advanced. *)
Fixpoint scan_up (fuel : nat) (a : list nat) (vp : K) (pi : nat) : nat :=
  match fuel with
  | O => pi
  | S fuel' => if lt (key a pi) vp then scan_up fuel' a vp (S pi) else pi
  end.

(** [do --pj; while (vp < key at pj)], entered with [pj] already lowered. *)
Fixpoint scan_down (fuel : nat) (a : list nat) (vp : K) (pj : nat) : nat :=
  match fuel with
  | O => pj
  | S fuel' => if lt vp (key a pj) then scan_down fuel' a vp (pred pj) else pj
  end.

(** The [for (;;)] loop of the partition; returns the array and [pi]. *)
Fixpoint partition_loop (fuel : nat) (a : list nat) (vp : K) (pi pj : nat) : list nat * nat :=
  match fuel with
  | O => (a, pi)
  | S fuel' =>
      let pi := scan_up (length a) a vp (S pi) in
      let pj := scan_down (length a) a vp (pred pj) in
      if (pj <=? pi)%nat then (a, pi)
      else partition_loop fuel' (swap a pi pj) vp pi pj
  end.

(** One partition of [pl..pr]: the array and the pivot's final place. *)
Definition partition (a : list nat) (pl pr : nat) : list nat * nat :=
  let pm := (pl + (pr - pl) / 2)%nat in
  let a := swap_if_less a pm pl in
  let a := swap_if_less a pr pm in
  let a := swap_if_less a pm pl in
  let vp := key a pm in
  let pj := (pr - 1)%nat in
  let a := swap a pm pj in
  let '(a, pi) := partition_loop (length a) a vp pl pj in
  (swap a pi (pr - 1)%nat, pi).

(** The inner [while] of one insertion: shift the larger elements up. *)
Fixpoint shift_up (fuel : nat) (a : list nat) (vp : K) (pl pj : nat) : list nat * nat :=
  match fuel with
  | O => (a, pj)
  | S fuel' =>
      if (pl <? pj)%nat && lt vp (key a (pred pj)) then
        shift_up fuel' (<[pj := a !!! pred pj]> a) vp pl (pred pj)
      else (a, pj)
  end.

(** The insertion sort of [pl..pr]; [count] elements remain to insert,
    starting at [pi]. *)
Fixpoint insertion (count : nat) (a : list nat) (pl pi : nat) : list nat :=
  match count with
  | O => a
  | S count' =>
      let vi := a !!! pi in
      let '(a', pj) := shift_up (length a) a (nth vi v d) pl pi in
      insertion count' (<[pj := vi]> a') pl (S pi)
  end.

Definition insertion_sort (a : list nat) (pl pr : nat) : list nat :=
  insertion (pr - pl) a pl (S pl).

(** Heap sort of the [n] elements from [pl]; the heap is indexed from 1,
    so heap index [k] is the array position [pl + k - 1]. *)
Definition heap_key (a : list nat) (pl k : nat) : K := key a (pl + k - 1).

(** The sift-down loop; returns the array and the hole [i]. *)
Fixpoint sift (fuel : nat) (a : list nat) (pl : nat) (tmp : nat) (i j n : nat) : list nat * nat :=
  match fuel with
  | O => (a, i)
  | S fuel' =>
      if (j <=? n)%nat then
        let j :=
          if (j <? n)%nat && lt (heap_key a pl j) (heap_key a pl (S j))
          then S j else j in
        if lt (nth tmp v d) (heap_key a pl j) then
          sift fuel' (<[(pl + i - 1)%nat := a !!! (pl + j - 1)%nat]> a) pl tmp j (j + j) n
        else (a, i)
      else (a, i)
  end.

Definition sift_from (a : list nat) (pl : nat) (tmp : nat) (i n : nat) : list nat :=
  let '(a', i') := sift (length a) a pl tmp i (2 * i) n in
  <[(pl + i' - 1)%nat := tmp]> a'.

(** [for (l = n >> 1; l > 0; --l)]: build the heap. *)
Fixpoint heapify (l : nat) (a : list nat) (pl n : nat) : list nat :=
  match l with
  | O => a
  | S l' => heapify l' (sift_from a pl (a !!! (pl + l - 1)%nat) l n) pl n
  end.

(** [for (; n > 1;)]: move the maximum to the end and sift the rest. *)
Fixpoint extract (n : nat) (a : list nat) (pl : nat) : list nat :=
  match n with
  | O => a
  | S n' =>
      match n' with
      | O => a
      | S _ =>
          let tmp := a !!! (pl + n - 1)%nat in
          let a := <[(pl + n - 1)%nat := a !!! pl]> a in
          extract n' (sift_from a pl tmp 1 n') pl
      end
  end.

Definition heapsort (a : list nat) (pl n : nat) : list nat :=
  extract n (heapify (n / 2) a pl n) pl.

(** The inner [while ((pr - pl) > SMALL_QUICKSORT)], with [SMALL_QUICKSORT]
    15: partition, push the larger side with the lowered depth, continue on
    the smaller. *)
Fixpoint quick_loop (fuel : nat) (a : list nat) (pl pr : nat) (cdepth : Z)
    (stack : list (nat * nat * Z)) : list nat * nat * nat * list (nat * nat * Z) :=
  match fuel with
  | O => (a, pl, pr, stack)
  | S fuel' =>
      if (15 <? pr - pl)%nat then
        let '(a, pi) := partition a pl pr in
        let cdepth := (cdepth - 1)%Z in
        if (pi - pl <? pr - pi)%nat then
          quick_loop fuel' a pl (pi - 1) cdepth ((S pi, pr, cdepth) :: stack)
        else
          quick_loop fuel' a (S pi) pr cdepth ((pl, (pi - 1)%nat, cdepth) :: stack)
      else (a, pl, pr, stack)
  end.

(** The outer [while (1)] with its stack of pending ranges. *)
Fixpoint sort_loop (fuel : nat) (a : list nat) (pl pr : nat) (cdepth : Z)
    (stack : list (nat * nat * Z)) : list nat :=
  match fuel with
  | O => a
  | S fuel' =>
      let '(a, stack) :=
        if (cdepth <? 0)%Z then (heapsort a pl (pr - pl + 1), stack)
        else
          let '(a, pl, pr, stack) := quick_loop (length a) a pl pr cdepth stack in
          (insertion_sort a pl pr, stack) in
      match stack with
      | [] => a
      | (pl, pr, cdepth) :: stack => sort_loop fuel' a pl pr cdepth stack
      end
  end.

(** [np.argsort(v, kind="quicksort")] *)
Definition argsort : list nat :=
  let num := length v in
  sort_loop (S num) (seq 0 num) 0 (num - 1) (2 * Z.log2 (Z.of_nat num)) [].

End Keys.

End Numpy.

(** ** Reference collaborators

    An executable instance of [library], for running the script on concrete
    tables.  It reads and prints the text format the program itself writes
    ("%Y-%m-%d %H:%M:%S", which pandas parses) and sorts with numpy's
    routine.  pandas reads more formats than this instance and also reads
    numbers; the theorems below do not depend on the instance. *)
Module Reference.

(** Days from 1970-01-01 to a civil date (proleptic Gregorian calendar). *)
Definition days_from_civil (y m d : Z) : Z :=
  let y := if (m <=? 2)%Z then (y - 1)%Z else y in
  let era := (y / 400)%Z in
  let yoe := (y - era * 400)%Z in
  let mp := if (2 <? m)%Z then (m - 3)%Z else (m + 9)%Z in
  let doy := ((153 * mp + 2) / 5 + d - 1)%Z in
  let doe := (yoe * 365 + yoe / 4 - yoe / 100 + doy)%Z in
  (era * 146097 + doe - 719468)%Z.

(** The civil date of a day number. *)
Definition civil_from_days (z : Z) : Z * Z * Z :=
  let z := (z + 719468)%Z in
  let era := (z / 146097)%Z in
  let doe := (z - era * 146097)%Z in
  let yoe := ((doe - doe / 1460 + doe / 36524 - doe / 146096) / 365)%Z in
  let doy := (doe - (365 * yoe + yoe / 4 - yoe / 100))%Z in
  let mp := ((5 * doy + 2) / 153)%Z in
  let d := (doy - (153 * mp + 2) / 5 + 1)%Z in
  let m := if (mp <? 10)%Z then (mp + 3)%Z else (mp - 9)%Z in
  let y := (yoe + era * 400)%Z in
  ((if (m <=? 2)%Z then y + 1 else y)%Z, m, d).

Definition leap (y : Z) : bool :=
  ((y mod 4 =? 0) && negb (y mod 100 =? 0) || (y mod 400 =? 0))%Z.

Definition days_in_month (y m : Z) : Z :=
  if (m =? 2)%Z then (if leap y then 29 else 28)%Z
  else if ((m =? 4) || (m =? 6) || (m =? 9) || (m =? 11))%Z then 30%Z
  else 31%Z.

Definition nanoseconds (dy h mi s : Z) : Z :=
  ((((dy * 24 + h) * 60 + mi) * 60 + s) * 1000000000)%Z.

(** The instant of a calendar date-time (no time zone), in nanoseconds
    since 1970-01-01 00:00:00. *)
Definition instant (t : datetime) : option Z :=
  let y := Z.of_nat (year t) in
  let m := Z.of_nat (month t) in
  let d := Z.of_nat (day t) in
  if ((1 <=? m) && (m <=? 12) && (1 <=? d) && (d <=? days_in_month y m))%Z &&
     ((hour t <=? 23) && (minute t <=? 59) && (second t <=? 59))%nat
  then Some (nanoseconds (days_from_civil y m d) (Z.of_nat (hour t))
               (Z.of_nat (minute t)) (Z.of_nat (second t)))
  else None.

(** Read "YYYY-MM-DD HH:MM:SS". *)
Definition parse_iso (s : string) : option Z :=
  match read_datetime s with
  | Some t => instant t
  | None => None
  end.

Definition parse (c : cell) : option Z :=
  match c with
  | CStr s => parse_iso s
  | _ => None
  end.

(** [str(Timestamp)] for a whole second. *)
Definition timestamp_str (ns : Z) : string :=
  let secs := (ns / 1000000000)%Z in
  let '(y, m, d) := civil_from_days (secs / 86400) in
  let r := (secs mod 86400)%Z in
  strftime (mk_datetime (Z.to_nat y) (Z.to_nat m) (Z.to_nat d)
              (Z.to_nat (r / 3600)) (Z.to_nat (r / 60 mod 60)) (Z.to_nat (r mod 60))).

(** The decimal digits of a fraction [n / 2^k] ([n < 2^k]), most
    significant first, without the zeros at the end. *)
Fixpoint fraction_digits (k : nat) (n : Z) (scale : Z) : string :=
  match k with
  | O => EmptyString
  | S k' =>
      if (n =? 0)%Z then EmptyString
      else String (ascii_of_nat (48 + Z.to_nat (10 * n / scale)))
                  (fraction_digits k' (10 * n mod scale) scale)
  end.

(** The exact decimal expansion of a float: what [str] prints for the
    floats whose expansion is short (2.5, 50.0, -0.75). *)
Definition float_str (f : spec_float) : string :=
  match f with
  | S754_nan => "nan"
  | S754_infinity s => if s then "-inf" else "inf"
  | S754_zero s => if s then "-0.0" else "0.0"
  | S754_finite s m e =>
      let sign := if s then "-" else EmptyString in
      if (0 <=? e)%Z then sign ++ str_int (Zpos m * 2 ^ e) ++ ".0"
      else
        let scale := (2 ^ (- e))%Z in
        let frac := fraction_digits (Z.to_nat (- e)) (Zpos m mod scale) scale in
        sign ++ str_int (Zpos m / scale) ++ "." ++
        (if String.eqb frac EmptyString then "0" else frac)
  end.

Fixpoint texts (col : list cell) : option (list string) :=
  match col with
  | [] => Some []
  | CStr s :: col' => option_map (cons s) (texts col')
  | _ :: _ => None
  end.

(** Sorting an object array: texts compare by code point; a number next to
    a text cannot be compared. *)
Definition argsort_cells (col : list cell) : outcome (list nat) :=
  match texts col with
  | Some ss => Ok (Numpy.argsort String.ltb EmptyString ss)
  | None => Raise TypeError
  end.

Definition lib : library :=
  mk_library parse (Numpy.argsort Z.ltb 0%Z) argsort_cells float_str timestamp_str
    (fun _ _ => None).

End Reference.

(** * Notions the properties are stated with *)

(** [s] extends [s0]: the session dictionary is the same, and every object
    of [s0] is still there, unchanged. *)
Definition extends (s0 s : state) : Prop :=
  session_state s = session_state s0 /\ heap s0 ⊆ heap s.

(** A script that only reads what [s0] holds: started in an extension of
    [s0] it ends in one, and what it returns satisfies [Q]. *)
Definition reads (s0 : state) {A} (c : script A) (Q : A -> Prop) : Prop :=
  forall s, extends s0 s ->
    extends s0 (exec c s) /\ forall a, result c s = Ok a -> Q a.

(** A reference that [s0] does not hold: the script's own object. *)
Definition private (s0 : state) (l : loc) : Prop := heap s0 !! l = None.

(** A view leaves the store as it found it: the session entry, every
    object the session could reach, and so the table. *)
Definition store_unchanged_by (view : script unit) (s : state) : Prop :=
  session_state (exec view s) = session_state s /\
  (forall l df, heap s !! l = Some df -> heap (exec view s) !! l = Some df) /\
  (forall T, table s = Some T -> table (exec view s) = Some T).

(** The values the metrics with a given label show on a page. *)
Fixpoint shown (label : string) (p : list element) : list metric_value :=
  match p with
  | [] => []
  | Metric l v :: p' =>
      if String.eqb l label then v :: shown label p' else shown label p'
  | _ :: p' => shown label p'
  end.

(** A page with the elements [es] added. *)
Definition added (s : state) (es : list element) : state :=
  mk_state (heap s) (session_state s) (page s ++ es).

(** The date-time [pd.to_datetime] reads from a cell, when it reads one. *)
Definition parsed (L : library) (c : cell) (t : Z) : Prop :=
  to_datetime_cell L c = Ok (CTime t).

(** [t] is the least date-time read from the cells of a column. *)
Definition least_time (L : library) (col : list cell) (t : Z) : Prop :=
  (exists c, In c col /\ parsed L c t) /\
  (forall c u, In c col -> parsed L c u -> (t <= u)%Z).

(** The integer part of a rational: rounding toward zero. *)
Definition truncate (q : Q) : Z := Z.quot (Qnum q) (Zpos (Qden q)).



(** A text without delimiter, quote or line end: CSV writes it as it is. *)
Definition plain (s : string) : bool :=
  negb (existsb special (list_ascii_of_string s)).

(** The CSV line of a row: its two cells, quoted where needed. *)
Definition row_line (L : library) (r : row) : string :=
  quote_field (cell_text L (date_time r)) ++ String delimiter
    (quote_field (cell_text L (power r)) ++ lineterminator).

(** The line feed character, as text. *)
Definition LF : string := String "010" EmptyString.

(** Keys in non-decreasing order. *)
Fixpoint nondecreasing (l : list Z) : bool :=
  match l with
  | a :: (b :: _) as l' => (a <=? b)%Z && nondecreasing l'
  | _ => true
  end.

(** The sort routine did its work on the keys [v]: the positions it
    returns are every position of [v] once, in an order that makes the keys
    non-decreasing.  (What numpy promises of [argsort]; it promises no
    order among equal keys for [kind="quicksort"].) *)
Definition sorts (argsort : list Z -> list nat) (v : list Z) : bool :=
  let order := argsort v in
  (length order =? length v)%nat &&
  forallb (fun i => existsb (Nat.eqb i) order) (seq 0 (length v)) &&
  nondecreasing (map (fun i => nth i v 0%Z) order).

(** The rows with their date-times parsed: what the chart's copy holds
    after line 124. *)
Definition parsed_rows (times : list Z) (rs : list row) : list row :=
  zip_with (fun t r => mk_row (CTime t) (power r)) times rs.

(** The date-time of a parsed row. *)
Definition time_of (r : row) : Z :=
  match date_time r with
  | CTime t => t
  | _ => 0%Z
  end.

(** The figures a page shows. *)
Fixpoint charts (p : list element) : list figure :=
  match p with
  | [] => []
  | PlotlyChart fig :: p' => fig :: charts p'
  | _ :: p' => charts p'
  end.

(** The marker option the chart type passes on. *)
Definition markers_of (i : interaction) : option bool :=
  match chart_type i with
  | Line => Some (show_markers i)
  | _ => None
  end.

(** ** Notions for the sort routine *)

(** [b] is [a] with the elements at the positions [l..r] rearranged among
    themselves: nothing moves in or out of the range. *)
Definition rearranged (l r : nat) (a b : list nat) : Prop :=
  length b = length a /\
  (forall x, (x < l \/ r < x)%nat -> b !!! x = a !!! x) /\
  (forall y, (l <= y <= r)%nat -> exists y', (l <= y' <= r)%nat /\ b !!! y = a !!! y') /\
  (forall y', (l <= y' <= r)%nat -> exists y, (l <= y <= r)%nat /\ b !!! y = a !!! y').

(** The keys at the positions [l..r] of the array are in non-decreasing
    order. *)
Definition sorted_range (v : list Z) (a : list nat) (l r : nat) : Prop :=
  forall x y, (l <= x)%nat -> (x <= y)%nat -> (y <= r)%nat ->
    (Numpy.key 0%Z v a x <= Numpy.key 0%Z v a y)%Z.

(** The keys at the positions [l..r] are in non-decreasing order and,
    where two of them are equal, the elements (the positions the keys were
    read from) are in increasing order. *)
Definition stable_range (v : list Z) (a : list nat) (l r : nat) : Prop :=
  forall x y, (l <= x)%nat -> (x < y)%nat -> (y <= r)%nat ->
    (Numpy.key 0%Z v a x < Numpy.key 0%Z v a y)%Z \/
    (Numpy.key 0%Z v a x = Numpy.key 0%Z v a y /\ (a !!! x < a !!! y)%nat).

(** In the heap of the [n] elements from [pl] (heap index [k] at the
    position [pl + k - 1]), the node [k] is not less than its children. *)
Definition heap_at (v : list Z) (a : list nat) (pl n k : nat) : Prop :=
  forall c, (c = 2 * k \/ c = 2 * k + 1)%nat -> (c <= n)%nat ->
    (Numpy.heap_key 0%Z v a pl c <= Numpy.heap_key 0%Z v a pl k)%Z.

(** Two ranges of positions that do not overlap. *)
Definition apart (p q : nat * nat) : Prop :=
  (snd p < fst q)%nat \/ (snd q < fst p)%nat.

Fixpoint disjoint (R : list (nat * nat)) : Prop :=
  match R with
  | [] => True
  | p :: R' => Forall (apart p) R' /\ disjoint R'
  end.

(** The state of the sort between two steps: the ranges [R] are still to
    be sorted; they lie inside the array and do not overlap; and any two
    positions that are not in one range together already are in order. *)
Definition pending_ok (v : list Z) (a : list nat) (R : list (nat * nat)) : Prop :=
  Forall (fun p => (fst p <= snd p < length a)%nat) R /\
  disjoint R /\
  (forall x y, (x < y)%nat -> (y < length a)%nat ->
     (Numpy.key 0%Z v a x <= Numpy.key 0%Z v a y)%Z \/
     Exists (fun p => (fst p <= x)%nat /\ (y <= snd p)%nat) R).

(** The number of positions still to be sorted. *)
Fixpoint weight (R : list (nat * nat)) : nat :=
  match R with
  | [] => 0
  | p :: R' => (snd p - fst p + 1) + weight R'
  end.

(** ** Notions for whole runs *)

(** The row the Add button appends. *)
Definition new_row_of (i : interaction) : row :=
  mk_row (CStr (strftime (clock i))) (CInt (power_value i)).

(** The table the editor is shown: the table of the last run after the
    buttons pressed in this one. *)
Definition after_buttons (i : interaction) (T : DataFrame) : DataFrame :=
  if clear_clicked i then empty_frame
  else if add_clicked i then concat T (mk_frame schema [new_row_of i])
  else T.

(** The messages of the buttons pressed in this run. *)
Definition button_messages (i : interaction) : list element :=
  (if add_clicked i then [Success (strftime (clock i)) (power_value i)] else []) ++
  (if clear_clicked i then [WarningCleared] else []).

(** The table a run leaves in the store: what the editor returned. *)
Definition edited_table (i : interaction) (T : DataFrame) : DataFrame :=
  editor i (after_buttons i T).

(** What the export tab shows for a table. *)
Definition export_element (L : library) (i : interaction) (T : DataFrame) : element :=
  if empty T then InfoNothingToSave
  else DownloadButton (serialize L T) (file_name i) "text/csv".

(** The chart's copy after line 124: the Date Time column converted when
    every cell converts, the table's rows as they are otherwise. *)
Definition converted (L : library) (T : DataFrame) : outcome (list cell) :=
  and_then (getitem T "Date Time") (to_datetime L).

Definition plot_copy (L : library) (T : DataFrame) : DataFrame :=
  match converted L T with
  | Ok ts => mk_frame (columns T) (zip_with (fun v r => mk_row v (power r)) ts (rows T))
  | Raise _ => T
  end.

(** The frame the chart is drawn from, after lines 138-142. *)
Definition plotted (L : library) (i : interaction) (T : DataFrame) : DataFrame :=
  if sort_by_time i then
    match sorted_frame L (plot_copy L T) with
    | Ok d => d
    | Raise _ => plot_copy L T
    end
  else plot_copy L T.

(** What the visualization tab shows for a table. *)
Definition chart_elements (L : library) (i : interaction) (T : DataFrame) : list element :=
  if empty T then [InfoNothingToPlot]
  else
    (match converted L T with Ok _ => [] | Raise _ => [WarningNotParsed] end) ++
    [match px L (chart_type i) (markers_of i) (plotted L i T) with
     | Ok fig => PlotlyChart fig
     | Raise e => ErrorChart e
     end].

(** The session after a sequence of interactions, one run each. *)
Definition session_runs (L : library) (js : list interaction) (s : state) : state :=
  fold_left (fun st j => snd (run L j st)) js s.

(** A run starts on an empty page. *)
Definition fresh_page (s : state) : state :=
  mk_state (heap s) (session_state s) [].

(** A script that changes nothing but the page, where it only adds
    metrics. *)
Definition is_metric (e : element) : Prop :=
  match e with
  | Metric _ _ => True
  | _ => False
  end.

Definition shows_metrics_only {A} (c : script A) : Prop :=
  forall s,
    heap (exec c s) = heap s /\
    session_state (exec c s) = session_state s /\
    exists ms, page (exec c s) = page s ++ ms /\ Forall is_metric ms.

(** An interaction in which the user at most presses Add: no Clear, and
    the editor returns the table it was shown. *)
Definition only_adds (j : interaction) : Prop :=
  clear_clicked j = false /\ forall d, editor j d = d.

(** A row as the Add button writes it: a text and an integer power. *)
Definition added_row (r : row) : Prop :=
  exists t p, r = mk_row (CStr t) (CInt p).

(** ** A reader for the lines the export writes

    Used to show that the export loses nothing: the text of every cell can
    be read back from the file. *)

(** A field that is not quoted ends before the next delimiter, quote or
    line end. *)
Fixpoint read_plain (s : string) : string * string :=
  match s with
  | EmptyString => (EmptyString, EmptyString)
  | String c s' =>
      if special c then (EmptyString, s)
      else let '(f, rest) := read_plain s' in (String c f, rest)
  end.

(** A quoted field, from after its opening quote: a doubled quote is one
    quote, a single one ends the field; the rest starts after it. *)
Fixpoint read_quoted_rest (s : string) : option (string * string) :=
  match s with
  | EmptyString => None
  | String c s' =>
      if Ascii.eqb c quotechar then
        match s' with
        | EmptyString => Some (EmptyString, EmptyString)
        | String c' s'' =>
            if Ascii.eqb c' quotechar
            then option_map (fun fr => (String quotechar (fst fr), snd fr))
                   (read_quoted_rest s'')
            else Some (EmptyString, s')
        end
      else option_map (fun fr => (String c (fst fr), snd fr)) (read_quoted_rest s')
  end.

(** One field and what follows it. *)
Definition read_field (s : string) : option (string * string) :=
  match s with
  | EmptyString => Some (EmptyString, EmptyString)
  | String c s' =>
      if Ascii.eqb c quotechar then read_quoted_rest s' else Some (read_plain s)
  end.

(** One line of two fields and what follows it. *)
Definition read_line (s : string) : option (string * string * string) :=
  match read_field s with
  | Some (a, String c s1) =>
      if Ascii.eqb c delimiter then
        match read_field s1 with
        | Some (b, String c' s2) =>
            if Ascii.eqb c' "010" then Some (a, b, s2) else None
        | _ => None
        end
      else None
  | _ => None
  end.

(** The texts of a row's two cells, as the export writes them. *)
Definition row_texts (L : library) (r : row) : string * string :=
  (cell_text L (date_time r), cell_text L (power r)).

(** ** The order of date-times *)

(** The first comparison decides, the second breaks a tie. *)
Definition then_compare (c d : comparison) : comparison :=
  match c with
  | Eq => d
  | _ => c
  end.

(** Earlier or later: by year, then month, day, hour, minute, second. *)
Definition datetime_compare (a b : datetime) : comparison :=
  then_compare (year a ?= year b)%nat
    (then_compare (month a ?= month b)%nat
       (then_compare (day a ?= day b)%nat
          (then_compare (hour a ?= hour b)%nat
             (then_compare (minute a ?= minute b)%nat
                (second a ?= second b)%nat)))).

(** ** What the export writes for a cell

    Stated without the writer's own functions, so that the export can be
    checked against it. *)






(** * Properties *)

(** ** The heap *)

Lemma fresh_unallocated (h : gmap loc DataFrame) : h !! fresh (dom h) = None.
Proof. apply not_elem_of_dom, is_fresh. Qed.

Lemma table_lookup (s : state) (T : DataFrame) :
  table s = Some T ->
  exists l, session_state s !! "df" = Some l /\ heap s !! l = Some T.
Proof.
  unfold table. destruct (session_state s !! "df") as [l|] eqn:E; [|discriminate].
  intros H. exists l. split; [reflexivity | exact H].
Qed.

(** An object that exists is not the one [alloc] creates next. *)
Lemma allocated_not_fresh (h : gmap loc DataFrame) (l : loc) (df : DataFrame) :
  h !! l = Some df -> fresh (dom h) <> l.
Proof.
  intros H E. rewrite <- E, fresh_unallocated in H. discriminate.
Qed.

(** Unfold a script down to the state it builds. *)
Ltac run_script :=
  unfold exec, result, table, bind, ret, lift, raise, alloc, deref, store,
    get_df, set_df, emit; simpl.

(** ** Clear (C9) *)

(** C9: whatever the session held, [clear] succeeds and leaves the Table
    Store referring to a table of zero rows with the two columns
    "Date Time" and "Power", in that order; the page shows the warning. *)
Theorem clear_yields_empty_table (s : state) :
  result clear s = Ok tt /\
  table (exec clear s) = Some (mk_frame ["Date Time"; "Power"] []) /\
  page (exec clear s) = page s ++ [WarningCleared].
Proof.
  unfold clear. run_script.
  split; [reflexivity|]. split; [|reflexivity].
  rewrite lookup_insert_eq. simpl. apply lookup_insert_eq.
Qed.

(** ** The editor (C8) *)

Lemma apply_sets_table (edited : DataFrame) (s : state) (T : DataFrame) :
  table s = Some T ->
  result (apply edited) s = Ok tt /\ table (exec (apply edited) s) = Some edited.
Proof.
  intros H. apply table_lookup in H as (l & Hs & Hh).
  unfold apply, data_editor. run_script. rewrite Hs. simpl. rewrite Hh. simpl.
  split; [reflexivity|].
  rewrite lookup_insert_eq. simpl. apply lookup_insert_eq.
Qed.

Lemma apply_without_table (edited : DataFrame) (s : state) :
  table s = None -> exec (apply edited) s = s.
Proof.
  unfold apply, data_editor. run_script.
  destruct (session_state s !! "df") as [l|]; simpl; [|reflexivity].
  intros H. rewrite H. reflexivity.
Qed.

(** C8: applying the same edited table twice leaves the Table Store with
    the same table as applying it once; when the session has a table, that
    table is the edited one, whatever was stored before. *)
Theorem apply_idempotent (edited : DataFrame) (s : state) :
  table (exec (apply edited) (exec (apply edited) s)) = table (exec (apply edited) s) /\
  (is_Some (table s) -> table (exec (apply edited) s) = Some edited).
Proof.
  destruct (table s) as [T|] eqn:E.
  - destruct (apply_sets_table edited s T E) as [_ H1].
    destruct (apply_sets_table edited _ edited H1) as [_ H2].
    rewrite H2, H1. split; [reflexivity | intros _; reflexivity].
  - rewrite !(apply_without_table edited s E).
    split; [reflexivity|]. rewrite E. intros [x Hx]. discriminate.
Qed.

(** ** The clock's text *)

Lemma digit_value_digit (n : nat) :
  digit_value (digit n) = Some (Z.of_nat (n mod 10)).
Proof.
  unfold digit.
  assert (H : (n mod 10 < 10)%nat) by (apply Nat.mod_upper_bound; lia).
  destruct (n mod 10)%nat as [|[|[|[|[|[|[|[|[|[|k]]]]]]]]]]; try reflexivity; lia.
Qed.

Lemma number_of_cons (acc n : nat) (l : list ascii) :
  number_of acc (digit n :: l) = number_of (10 * acc + n mod 10) l.
Proof.
  cbn [number_of]. rewrite digit_value_digit, Nat2Z.id. reflexivity.
Qed.

Lemma number_of_pad2 (n : nat) :
  (n < 100)%nat -> number_of 0 [digit (n / 10); digit n] = Some n.
Proof.
  intros H. rewrite !number_of_cons. cbn [number_of]. f_equal.
  pose proof (Nat.div_mod_eq n 10).
  assert (n / 10 < 10)%nat by (apply Nat.Div0.div_lt_upper_bound; lia).
  rewrite (Nat.mod_small (n / 10) 10) by lia. lia.
Qed.

Lemma number_of_pad4 (n : nat) :
  (n < 10 * 1000)%nat ->
  number_of 0 [digit (n / 1000); digit (n / 100); digit (n / 10); digit n] = Some n.
Proof.
  intros H. rewrite !number_of_cons. cbn [number_of]. f_equal.
  assert (E1 : (n / 10 = 10 * (n / 100) + (n / 10) mod 10)%nat).
  { replace 100%nat with (10 * 10)%nat by reflexivity.
    rewrite <- Nat.Div0.div_div. apply Nat.div_mod_eq. }
  assert (E2 : (n / 100 = 10 * (n / 1000) + (n / 100) mod 10)%nat).
  { replace 1000%nat with (100 * 10)%nat at 1 by reflexivity.
    rewrite <- Nat.Div0.div_div. apply Nat.div_mod_eq. }
  pose proof (Nat.div_mod_eq n 10).
  assert (n / 1000 < 10)%nat by (apply Nat.Div0.div_lt_upper_bound; lia).
  rewrite (Nat.mod_small (n / 1000) 10) by lia. lia.
Qed.

(** The text [strftime] writes has the form YYYY-MM-DD HH:MM:SS and spells
    the clock's date-time to the second. *)
Lemma read_strftime (d : datetime) :
  valid_datetime d -> read_datetime (strftime d) = Some d.
Proof.
  intros (Hy & Hm & Hd & Hh & Hmi & Hs).
  destruct d as [y m dd h mi sec]. simpl in *.
  unfold read_datetime, strftime, pad4, pad2.
  cbv [String.append list_ascii_of_string year month day hour minute second].
  cbv [Ascii.eqb Bool.eqb andb].
  rewrite number_of_pad4 by lia.
  rewrite !number_of_pad2 by lia. reflexivity.
Qed.

Lemma length_strftime (d : datetime) : String.length (strftime d) = 19%nat.
Proof. reflexivity. Qed.

(** ** Ingestion (C1) *)

(** C1: for every table T and every power p in [-100000, 100000], [add]
    succeeds; the Table Store then holds a table whose first len(T) rows are
    the rows of T, unchanged and in order, and whose last row is the clock's
    time, written as YYYY-MM-DD HH:MM:SS to the second, with the power p. *)
Theorem add_appends_row (s : state) (T : DataFrame) (now : datetime) (p : Z) :
  table s = Some T ->
  (-100000 <= p <= 100000)%Z ->
  valid_datetime now ->
  let new_row := mk_row (CStr (strftime now)) (CInt p) in
  result (add now p) s = Ok tt /\
  (exists T',
     table (exec (add now p) s) = Some T' /\
     rows T' = rows T ++ [new_row] /\
     firstn (len T) (rows T') = rows T /\
     nth_error (rows T') (len T) = Some new_row /\
     len T' = S (len T) /\
     (columns T = schema -> columns T' = schema)) /\
  String.length (strftime now) = 19%nat /\
  read_datetime (strftime now) = Some now /\
  page (exec (add now p) s) = page s ++ [Success (strftime now) p].
Proof.
  intros HT _ Hnow new_row.
  apply table_lookup in HT as (l & Hs & Hh).
  pose proof (allocated_not_fresh _ _ _ Hh) as Hne.
  unfold add. run_script. rewrite Hs. simpl.
  rewrite lookup_insert_ne by exact Hne. rewrite Hh. simpl.
  rewrite lookup_insert_eq. simpl.
  split; [reflexivity|]. split.
  - exists (concat T (mk_frame schema [new_row])).
    rewrite lookup_insert_eq. simpl. rewrite lookup_insert_eq.
    split; [reflexivity|]. split; [reflexivity|]. unfold len. simpl.
    split; [apply take_app_length|].
    split. { rewrite nth_error_app2 by lia. rewrite Nat.sub_diag. reflexivity. }
    split. { rewrite length_app. simpl. lia. }
    intros ->. reflexivity.
  - split; [reflexivity|]. split; [apply read_strftime; exact Hnow | reflexivity].
Qed.

(** ** Views leave the Table Store alone (C6) *)

Lemma extends_refl (s : state) : extends s s.
Proof. split; reflexivity. Qed.

Lemma extends_table (s0 s : state) : extends s0 s -> is_Some (table s0) -> table s = table s0.
Proof.
  intros [Hs Hh] [T HT]. unfold table in *. rewrite Hs.
  destruct (session_state s0 !! "df") as [l|]; [|discriminate].
  rewrite HT. eapply lookup_weaken; eauto.
Qed.

Lemma reads_ret (s0 : state) {A} (a : A) (Q : A -> Prop) :
  Q a -> reads s0 (ret a) Q.
Proof. intros H s Hs. split; [exact Hs|]. intros b [= <-]. exact H. Qed.

Lemma reads_lift (s0 : state) {A} (o : outcome A) : reads s0 (lift o) (fun _ => True).
Proof. intros s Hs. split; [exact Hs | trivial]. Qed.

Lemma reads_raise (s0 : state) {A} (e : exn) (Q : A -> Prop) : reads s0 (raise e) Q.
Proof. intros s Hs. split; [exact Hs | discriminate]. Qed.

Lemma reads_emit (s0 : state) (e : element) : reads s0 (emit e) (fun _ => True).
Proof. intros s Hs. split; [exact Hs | trivial]. Qed.

Lemma reads_get_df (s0 : state) : reads s0 get_df (fun _ => True).
Proof.
  intros s Hs. split; [|trivial].
  unfold exec, get_df. destruct (session_state s !! "df"); exact Hs.
Qed.

Lemma reads_deref (s0 : state) (l : loc) : reads s0 (deref l) (fun _ => True).
Proof.
  intros s Hs. split; [|trivial].
  unfold exec, deref. destruct (heap s !! l); exact Hs.
Qed.

Lemma reads_alloc (s0 : state) (df : DataFrame) : reads s0 (alloc df) (private s0).
Proof.
  intros s [Hs Hh]. split.
  - split; [exact Hs|]. unfold exec, alloc. simpl.
    etransitivity; [exact Hh|]. apply insert_subseteq, fresh_unallocated.
  - intros l [= <-]. unfold private.
    eapply lookup_weaken_None; [apply fresh_unallocated | exact Hh].
Qed.

Lemma reads_store (s0 : state) (l : loc) (df : DataFrame) :
  private s0 l -> reads s0 (store l df) (fun _ => True).
Proof.
  intros Hl s [Hs Hh]. split; [|trivial].
  split; [exact Hs|]. unfold exec, store. simpl.
  apply insert_subseteq_r; assumption.
Qed.

Lemma reads_bind (s0 : state) {A B} (c : script A) (k : A -> script B)
    (Q : A -> Prop) (R : B -> Prop) :
  reads s0 c Q -> (forall a, Q a -> reads s0 (k a) R) -> reads s0 (bind c k) R.
Proof.
  intros Hc Hk s Hs. destruct (Hc s Hs) as [H1 H2].
  unfold exec, result, bind in *.
  destruct (c s) as [[a|e] s'] eqn:E; simpl in *.
  - apply (Hk a (H2 a eq_refl) s' H1).
  - split; [exact H1 | discriminate].
Qed.

Lemma reads_try_except (s0 : state) {A} (c : script A) (h : exn -> script A)
    (Q : A -> Prop) :
  reads s0 c Q -> (forall e, reads s0 (h e) Q) -> reads s0 (try_except c h) Q.
Proof.
  intros Hc Hh s Hs. destruct (Hc s Hs) as [H1 H2].
  unfold exec, result, try_except in *.
  destruct (c s) as [[a|e] s'] eqn:E; simpl in *.
  - split; [exact H1|]. intros b [= <-]. apply H2. reflexivity.
  - apply (Hh e s' H1).
Qed.

Lemma reads_weaken (s0 : state) {A} (c : script A) (Q R : A -> Prop) :
  reads s0 c Q -> (forall a, Q a -> R a) -> reads s0 c R.
Proof.
  intros Hc HQR s Hs. destruct (Hc s Hs) as [H1 H2].
  split; [exact H1|]. intros a Ha. apply HQR, H2, Ha.
Qed.

(** Chain the rules through a script whose steps return nothing that
    matters for the store. *)
Ltac reads_step :=
  lazymatch goal with
  | |- reads _ (bind ?c ?k) _ =>
      apply (reads_bind _ c k (fun _ => True)); [| intros ? _]
  | |- reads _ (try_except _ _) _ => apply reads_try_except; [| intros ?]
  | |- reads _ (if ?b then _ else _) _ => destruct b
  | |- reads _ (match ?x with Line => _ | _ => _ end) _ => destruct x
  | |- reads _ (ret _) _ => apply reads_ret; exact I
  | |- reads _ (lift _) _ => apply reads_lift
  | |- reads _ (raise _) _ => apply reads_raise
  | |- reads _ (emit _) _ => apply reads_emit
  | |- reads _ get_df _ => apply reads_get_df
  | |- reads _ (deref _) _ => apply reads_deref
  | |- reads _ (alloc _) (fun _ => True) =>
      eapply reads_weaken; [apply reads_alloc | trivial]
  | |- reads _ (store _ _) _ => apply reads_store; assumption
  end.

Section Frame.

Context (L : library) (s0 : state).

Lemma reads_top_metrics : reads s0 (top_metrics L) (fun _ => True).
Proof.
  unfold top_metrics, metric_total_rows, metric_latest_power,
    metric_average_power, metric_start_time.
  repeat reads_step.
Qed.

Lemma reads_tab_export (i : interaction) : reads s0 (tab_export L i) (fun _ => True).
Proof. unfold tab_export. repeat reads_step. Qed.

Lemma reads_copy (l : loc) : reads s0 (copy l) (private s0).
Proof.
  unfold copy. eapply reads_bind; [apply reads_deref | intros d _].
  apply reads_alloc.
Qed.

Lemma reads_setitem (l : loc) (values : list cell) :
  private s0 l -> reads s0 (setitem_date_time l values) (fun _ => True).
Proof. intros Hl. unfold setitem_date_time. repeat reads_step. Qed.

Lemma reads_sort_values (l : loc) : reads s0 (sort_values L l) (private s0).
Proof.
  unfold sort_values. eapply reads_bind; [apply reads_deref | intros d _].
  eapply reads_bind; [apply reads_lift | intros sorted _].
  apply reads_alloc.
Qed.

Lemma reads_plot_frame (i : interaction) :
  reads s0 (plot_frame L i) (fun r => forall l, r = Some l -> private s0 l).
Proof.
  unfold plot_frame.
  eapply reads_bind; [apply reads_get_df | intros src _].
  eapply reads_bind; [apply reads_copy | intros df_plot Hp].
  eapply reads_bind; [apply reads_deref | intros d _].
  destruct (empty d).
  - eapply reads_bind; [apply reads_emit | intros _ _].
    apply reads_ret. discriminate.
  - eapply reads_bind with (Q := fun _ => True).
    + apply reads_try_except; [| intros e; apply reads_emit].
      eapply reads_bind; [apply reads_deref | intros d' _].
      eapply reads_bind; [apply reads_lift | intros col _].
      eapply reads_bind; [apply reads_lift | intros ts _].
      apply reads_setitem, Hp.
    + intros _ _.
      eapply reads_bind with (Q := private s0).
      * destruct (sort_by_time i).
        -- apply reads_try_except; [apply reads_sort_values|].
           intros e. apply reads_ret, Hp.
        -- apply reads_ret, Hp.
      * intros l Hl. apply reads_ret. intros l' [= <-]. exact Hl.
Qed.

Lemma reads_tab_plot (i : interaction) : reads s0 (tab_plot L i) (fun _ => True).
Proof.
  unfold tab_plot.
  eapply reads_bind; [apply reads_plot_frame | intros [l|] Hl].
  - unfold build_chart. repeat reads_step.
  - apply reads_ret. exact I.
Qed.

End Frame.

Lemma reads_unchanged (view : script unit) (s : state) :
  reads s view (fun _ => True) -> store_unchanged_by view s.
Proof.
  intros H. destruct (H s (extends_refl s)) as [[Hs Hh] _].
  split; [exact Hs|]. split.
  - intros l df Hl. eapply lookup_weaken; eauto.
  - intros T HT. rewrite <- HT. apply extends_table; [split; assumption|].
    rewrite HT. eexists. reflexivity.
Qed.

(** ** The metrics on an empty table (C2) *)

Lemma added_nil (s : state) : added s [] = s.
Proof. destruct s. unfold added. simpl. rewrite app_nil_r. reflexivity. Qed.

Lemma added_added (s : state) (es fs : list element) :
  added (added s es) fs = added s (es ++ fs).
Proof. unfold added. simpl. rewrite <- app_assoc. reflexivity. Qed.

Lemma bind_ok {A B} (c : script A) (k : A -> script B) (s s' : state) (a : A) :
  c s = (Ok a, s') -> bind c k s = k a s'.
Proof. intros H. unfold bind. rewrite H. reflexivity. Qed.

Lemma bind_raise {A B} (c : script A) (k : A -> script B) (s s' : state) (e : exn) :
  c s = (Raise e, s') -> bind c k s = (Raise e, s').
Proof. intros H. unfold bind. rewrite H. reflexivity. Qed.

Lemma empty_no_rows (T : DataFrame) : rows T = [] -> empty T = true.
Proof. unfold empty. intros ->. reflexivity. Qed.

Section Metrics.

Context (L : library).

Lemma total_rows_run (s : state) (df : loc) (T : DataFrame) :
  heap s !! df = Some T ->
  metric_total_rows df s =
    (Ok tt, added s [Metric "Total rows" (MInt (Z.of_nat (len T)))]).
Proof. intros H. unfold metric_total_rows. run_script. rewrite H. reflexivity. Qed.

Lemma latest_power_empty (s : state) (df : loc) (T : DataFrame) :
  heap s !! df = Some T -> empty T = true ->
  metric_latest_power df s = (Ok tt, added s [Metric "Latest Power" (MText no_data)]).
Proof.
  intros H E. unfold metric_latest_power. run_script. rewrite H. simpl.
  rewrite E. reflexivity.
Qed.

Lemma average_power_empty (s : state) (df : loc) (T : DataFrame) :
  heap s !! df = Some T -> empty T = true ->
  metric_average_power df s = (Ok tt, added s [Metric "Average Power" (MText no_data)]).
Proof.
  intros H E. unfold metric_average_power. run_script. rewrite H. simpl.
  rewrite E. reflexivity.
Qed.

Lemma start_time_empty (s : state) (df : loc) (T : DataFrame) :
  heap s !! df = Some T -> empty T = true ->
  metric_start_time L df s = (Ok tt, s).
Proof.
  intros H E. unfold metric_start_time. run_script. rewrite H. simpl.
  rewrite E. reflexivity.
Qed.

End Metrics.

(** C2, as the code has it: on a table without rows the metrics block
    succeeds and shows Total rows 0, Latest Power "—" and Average Power "—";
    it puts no Start time metric on the page at all. *)
Theorem metrics_on_empty_table (L : library) (s : state) (T : DataFrame) :
  table s = Some T ->
  rows T = [] ->
  result (top_metrics L) s = Ok tt /\
  page (exec (top_metrics L) s) =
    page s ++ [Metric "Total rows" (MInt 0);
               Metric "Latest Power" (MText no_data);
               Metric "Average Power" (MText no_data)] /\
  shown "Start time" (page (exec (top_metrics L) s)) = shown "Start time" (page s).
Proof.
  intros HT Hrows. apply table_lookup in HT as (l & Hs & Hh).
  pose proof (empty_no_rows T Hrows) as E.
  assert (R : top_metrics L s =
              (Ok tt, added s [Metric "Total rows" (MInt 0);
                               Metric "Latest Power" (MText no_data);
                               Metric "Average Power" (MText no_data)])).
  { unfold top_metrics.
    erewrite bind_ok by (unfold get_df; rewrite Hs; reflexivity).
    erewrite bind_ok by (apply total_rows_run; exact Hh).
    erewrite bind_ok by (apply latest_power_empty with (T := T); [exact Hh | exact E]).
    erewrite bind_ok by (apply average_power_empty with (T := T); [exact Hh | exact E]).
    erewrite start_time_empty by (try exact Hh; exact E).
    rewrite !added_added. unfold len. rewrite Hrows. reflexivity. }
  unfold result, exec. rewrite R. simpl.
  split; [reflexivity|]. split; [reflexivity|].
  induction (page s) as [|e p IH]; [reflexivity|].
  simpl. destruct e; try exact IH.
  destruct (String.eqb label "Start time"); [f_equal|]; exact IH.
Qed.

Lemma metrics_on_empty_table_witness :
  table (exec init new_session) = Some empty_frame /\
  page (exec (top_metrics Reference.lib) (exec init new_session)) =
    [Metric "Total rows" (MInt 0);
     Metric "Latest Power" (MText no_data);
     Metric "Average Power" (MText no_data)].
Proof.
  split; [reflexivity|].
  apply (metrics_on_empty_table Reference.lib (exec init new_session) empty_frame);
    reflexivity.
Defined.

(** C2 as stated fails: on the empty table a new session starts with, no
    Start time metric is shown, so it does not show the "no data" sentinel. *)
Lemma start_time_not_shown_on_empty_table :
  table (exec init new_session) = Some empty_frame /\
  shown "Start time" (page (exec (top_metrics Reference.lib) (exec init new_session))) = [] /\
  shown "Latest Power" (page (exec (top_metrics Reference.lib) (exec init new_session)))
    = [MText no_data].
Proof. vm_compute. repeat split. Qed.

(** ** The Start time metric (C5) *)

Lemma forall2_in_l {A B} (P : A -> B -> Prop) (l : list A) (k : list B) (x : A) :
  Forall2 P l k -> In x l -> exists y, In y k /\ P x y.
Proof.
  induction 1 as [|a b l k Hab _ IH]; intros Hin; [destruct Hin|].
  destruct Hin as [->|Hin].
  - exists b. split; [left; reflexivity | exact Hab].
  - destruct (IH Hin) as (y & Hy & HP). exists y. split; [right; exact Hy | exact HP].
Qed.

Lemma forall2_in_r {A B} (P : A -> B -> Prop) (l : list A) (k : list B) (y : B) :
  Forall2 P l k -> In y k -> exists x, In x l /\ P x y.
Proof.
  induction 1 as [|a b l k Hab _ IH]; intros Hin; [destruct Hin|].
  destruct Hin as [->|Hin].
  - exists a. split; [left; reflexivity | exact Hab].
  - destruct (IH Hin) as (x & Hx & HP). exists x. split; [right; exact Hx | exact HP].
Qed.

Section StartTime.

Context (L : library).

Lemma to_datetime_cell_cases (c t : cell) :
  to_datetime_cell L c = Ok t -> t = CNone \/ exists u, t = CTime u.
Proof.
  unfold to_datetime_cell.
  destruct c as [|z|f|x|u]; try destruct f; try destruct (is_nat_text x);
    try destruct (parse_datetime L _); intros [= <-]; eauto.
Qed.

Lemma to_datetime_cons (c : cell) (col : list cell) :
  to_datetime L (c :: col) =
    and_then (to_datetime_cell L c) (fun t =>
    and_then (to_datetime L col) (fun ts => Ok (t :: ts))).
Proof. reflexivity. Qed.

(** The column converts when every cell does, cell by cell. *)
Lemma to_datetime_ok (col ts : list cell) :
  to_datetime L col = Ok ts <-> Forall2 (fun c t => to_datetime_cell L c = Ok t) col ts.
Proof.
  revert ts. induction col as [|c col IH]; intros ts.
  - simpl. split.
    + intros [= <-]. constructor.
    + intros H. inversion H. reflexivity.
  - rewrite to_datetime_cons. split.
    + destruct (to_datetime_cell L c) as [t|e] eqn:Ec; simpl; [|discriminate].
      destruct (to_datetime L col) as [ts'|e] eqn:Ecol; simpl; [|discriminate].
      intros [= <-]. constructor; [exact Ec | apply IH; reflexivity].
    + intros H. inversion H as [|? t ? ts' Hc Hcol]; subst.
      rewrite Hc. simpl. apply IH in Hcol. rewrite Hcol. reflexivity.
Qed.

(** One cell that does not convert makes the whole conversion raise. *)
Lemma to_datetime_raises (col : list cell) (c : cell) (e : exn) :
  In c col -> to_datetime_cell L c = Raise e -> exists e', to_datetime L col = Raise e'.
Proof.
  induction col as [|c' col IH]; intros Hin Hc; [destruct Hin|].
  rewrite to_datetime_cons.
  destruct (to_datetime_cell L c') as [t|e1] eqn:E1; simpl; [|eauto].
  destruct Hin as [->|Hin]; [congruence|].
  destruct (IH Hin Hc) as [e' ->]. simpl. eauto.
Qed.

Lemma to_datetime_all (col : list cell) :
  (forall c, In c col -> exists t, to_datetime_cell L c = Ok t) ->
  exists ts, to_datetime L col = Ok ts.
Proof.
  induction col as [|c col IH]; intros Hall; [exists []; reflexivity|].
  rewrite to_datetime_cons.
  destruct (Hall c (or_introl eq_refl)) as [t ->].
  destruct IH as [ts ->]; [intros c' Hin; apply Hall; right; exact Hin|].
  simpl. eauto.
Qed.

Lemma min_time_none (ts : list cell) :
  min_time ts = None -> forall u, ~ In (CTime u) ts.
Proof.
  induction ts as [|c ts IH]; intros H u Hin; [destruct Hin|].
  destruct c; simpl in H;
    try (destruct Hin as [Hc|Hin]; [discriminate | exact (IH H u Hin)]).
  destruct (min_time ts); discriminate.
Qed.

Lemma min_time_least (ts : list cell) (t : Z) :
  min_time ts = Some t ->
  In (CTime t) ts /\ forall u, In (CTime u) ts -> (t <= u)%Z.
Proof.
  revert t. induction ts as [|c ts IH]; intros t H; [discriminate|].
  destruct c as [|z|f|x|v]; simpl in H;
    try (destruct (IH t H) as [H1 H2]; split;
         [right; exact H1 | intros u [Hc|Hin]; [discriminate | exact (H2 u Hin)]]).
  destruct (min_time ts) as [w|] eqn:E.
  - destruct (IH w eq_refl) as [H1 H2]. injection H as <-. split.
    + destruct (Z.min_spec v w) as [[_ ->]|[_ ->]]; [left; reflexivity | right; exact H1].
    + intros u [[= <-]|Hin]; [apply Z.le_min_l|].
      etransitivity; [apply Z.le_min_r | exact (H2 u Hin)].
  - injection H as <-. split; [left; reflexivity|].
    intros u [[= <-]|Hin]; [reflexivity|].
    exfalso. exact (min_time_none ts E u Hin).
Qed.

Lemma start_time_run (s : state) (df : loc) (T : DataFrame) :
  heap s !! df = Some T -> empty T = false -> "Date Time" ∈ columns T ->
  metric_start_time L df s =
    (Ok tt,
     added s [Metric "Start time"
                (match to_datetime L (map date_time (rows T)) with
                 | Ok ts => time_metric (min_time ts)
                 | Raise _ => MText invalid_date
                 end)]).
Proof.
  intros H E Hc. unfold metric_start_time. run_script. rewrite H. simpl.
  rewrite E. simpl. unfold try_except, getitem. rewrite bool_decide_eq_true_2 by exact Hc.
  simpl. destruct (to_datetime L (map date_time (rows T))); reflexivity.
Qed.

End StartTime.

(** C5, as the code has it: for a table with rows, when every Date Time
    cell converts, Start time shows the least date-time read from the
    column, or NaT when no cell holds one; when one cell does not convert,
    Start time shows "Invalid Date", whatever the other cells hold.  A
    missing cell converts to NaT and is skipped, and so does a text that
    stands for a missing date-time (the empty text, "NaT", "nan", ...),
    whatever the library reads from other texts. *)
Theorem start_time_metric (L : library) (s : state) (df : loc) (T : DataFrame) :
  heap s !! df = Some T ->
  empty T = false ->
  "Date Time" ∈ columns T ->
  let col := map date_time (rows T) in
  result (metric_start_time L df) s = Ok tt /\
  ((forall c, In c col -> exists t, to_datetime_cell L c = Ok t) ->
   exists v,
     page (exec (metric_start_time L df) s) = page s ++ [Metric "Start time" v] /\
     ((v = MNaT /\ forall c, In c col -> to_datetime_cell L c = Ok CNone) \/
      (exists t, v = MTime t /\ least_time L col t))) /\
  (forall c e, In c col -> to_datetime_cell L c = Raise e ->
   page (exec (metric_start_time L df) s) =
     page s ++ [Metric "Start time" (MText invalid_date)]) /\
  (forall c,
     isna c = true \/ (exists x, c = CStr x /\ is_nat_text x = true) ->
     to_datetime_cell L c = Ok CNone).
Proof.
  intros H E Hc col. unfold result, exec.
  rewrite (start_time_run L s df T H E Hc). simpl. fold col.
  split; [reflexivity|]. split; [|split].
  3:{ intros c [Hna|(x & -> & Hx)].
      - destruct c as [|z|f|x|u]; try discriminate; [reflexivity|].
        destruct f; try discriminate. reflexivity.
      - cbn [to_datetime_cell]. rewrite Hx. reflexivity. }
  - intros Hall.
    destruct (to_datetime_all L col Hall) as [ts Ets]. rewrite Ets.
    apply to_datetime_ok in Ets.
    eexists. split; [reflexivity|].
    destruct (min_time ts) as [t|] eqn:Emin; simpl.
    + right. exists t. split; [reflexivity|].
      destruct (min_time_least ts t Emin) as [Hin Hle]. split.
      * destruct (forall2_in_r _ _ _ _ Ets Hin) as (c & Hc1 & Hc2). eauto.
      * intros c u Hin' Hp.
        destruct (forall2_in_l _ _ _ _ Ets Hin') as (y & Hy1 & Hy2).
        unfold parsed in Hp. rewrite Hp in Hy2. injection Hy2 as <-.
        apply Hle, Hy1.
    + left. split; [reflexivity|]. intros c Hin.
      destruct (forall2_in_l _ _ _ _ Ets Hin) as (y & Hy1 & Hy2).
      destruct (to_datetime_cell_cases L c y Hy2) as [->|[u ->]]; [exact Hy2|].
      exfalso. exact (min_time_none ts Emin u Hy1).
  - intros c e Hin Hraise.
    destruct (to_datetime_raises L col c e Hin Hraise) as [e' ->]. reflexivity.
Qed.

Lemma start_time_metric_witness :
  let T := mk_frame schema [mk_row (CStr "2024-01-05 09:03:07") (CInt 50);
                            mk_row (CStr EmptyString) (CInt 45);
                            mk_row (CStr "2024-01-05 09:03:02") (CInt 40)] in
  let s := mk_state {[ 1%positive := T ]} {[ "df" := 1%positive ]} [] in
  result (metric_start_time Reference.lib 1%positive) s = Ok tt /\
  page (exec (metric_start_time Reference.lib 1%positive) s) =
    [Metric "Start time" (MTime 1704445382000000000)].
Proof.
  intros T s. split; [|vm_compute; reflexivity].
  apply (start_time_metric Reference.lib s 1%positive T);
    [reflexivity | reflexivity | constructor].
Defined.

(** C5 as stated fails: with one text that is no date-time next to a
    date-time that parses, Start time shows "Invalid Date", not the
    date-time that parses. *)
Lemma start_time_invalid_when_mixed :
  let T := mk_frame schema [mk_row (CStr "2024-01-05 09:03:07") (CInt 50);
                            mk_row (CStr "not a date") (CInt 40)] in
  let s := mk_state {[ 1%positive := T ]} {[ "df" := 1%positive ]} [] in
  Reference.parse (CStr "2024-01-05 09:03:07") = Some 1704445387000000000%Z /\
  Reference.parse (CStr "not a date") = None /\
  shown "Start time" (page (exec (metric_start_time Reference.lib 1%positive) s))
    = [MText invalid_date].
Proof. vm_compute. repeat split. Qed.

(** ** Latest Power (C10) and text in the power column (C4) *)

Lemma last_map {A B} (f : A -> B) (l : list A) (x : A) :
  last l = Some x -> last (map f l) = Some (f x).
Proof.
  induction l as [|a [|b l] IH]; intros H; [discriminate| |].
  - injection H as <-. reflexivity.
  - apply IH in H. exact H.
Qed.

(** [int(v)] of a finite float is its exact value rounded toward zero. *)
Lemma int_of_float_truncates (sg : bool) (m : positive) (e : Z) :
  int_of_float (S754_finite sg m e) = Ok (truncate (float_value sg m e)).
Proof.
  unfold int_of_float, float_value, truncate. f_equal.
  destruct (0 <=? e)%Z eqn:E.
  - simpl. rewrite Z.quot_1_r. destruct sg; [|reflexivity].
    rewrite <- Pos2Z.opp_pos. lia.
  - simpl. apply Z.leb_gt in E.
    assert (Hpos : (0 < 2 ^ (- e))%Z) by (apply Z.pow_pos_nonneg; lia).
    rewrite Z2Pos.id by exact Hpos.
    destruct sg.
    + rewrite <- Pos2Z.opp_pos, Z.quot_opp_l by lia.
      rewrite Z.quot_div_nonneg by lia. reflexivity.
    + rewrite Z.quot_div_nonneg by lia. reflexivity.
Qed.

(** Rounding toward zero: the integer between 0 and [q] nearest to [q]. *)
Lemma truncate_toward_zero (q : Q) :
  ((0 <= q)%Q -> (inject_Z (truncate q) <= q)%Q /\ (q < inject_Z (truncate q) + 1)%Q) /\
  ((q <= 0)%Q -> (q <= inject_Z (truncate q))%Q /\ (inject_Z (truncate q) - 1 < q)%Q).
Proof.
  destruct q as [n d]. unfold truncate, Qle, Qlt. simpl.
  assert (Hd : (0 < Zpos d)%Z) by reflexivity.
  split; intros H.
  - assert (Hn : (0 <= n)%Z) by lia.
    rewrite Z.quot_div_nonneg by lia.
    pose proof (Z.mul_div_le n (Zpos d) Hd).
    pose proof (Z.mul_succ_div_gt n (Zpos d) Hd). lia.
  - assert (Hn : (0 <= - n)%Z) by lia.
    replace n with (- - n)%Z by lia.
    rewrite Z.quot_opp_l by lia. rewrite Z.quot_div_nonneg by lia.
    pose proof (Z.mul_div_le (- n) (Zpos d) Hd).
    pose proof (Z.mul_succ_div_gt (- n) (Zpos d) Hd). lia.
Qed.

Lemma latest_power_run (s : state) (df : loc) (T : DataFrame) (r : row) :
  heap s !! df = Some T ->
  "Power" ∈ columns T ->
  last (rows T) = Some r ->
  metric_latest_power df s =
    match python_int (power r) with
    | Ok n => (Ok tt, added s [Metric "Latest Power" (MInt n)])
    | Raise e => (Raise e, s)
    end.
Proof.
  intros H Hc Hl. unfold metric_latest_power. run_script. rewrite H. simpl.
  assert (E : empty T = false).
  { unfold empty. destruct (rows T); [discriminate|].
    destruct (columns T); [inversion Hc | reflexivity]. }
  rewrite E. simpl. unfold getitem. rewrite bool_decide_eq_true_2 by exact Hc.
  simpl. unfold iloc_last. rewrite (last_map power _ r Hl).
  destruct (python_int (power r)); destruct s; reflexivity.
Qed.

(** C10: when the last row's power cell holds a finite float v that is not
    an integer, Latest Power shows the integer int(v), which is v rounded
    toward zero, and not v itself. *)
Theorem latest_power_truncates (s : state) (df : loc) (T : DataFrame) (r : row)
    (sg : bool) (m : positive) (e : Z) :
  heap s !! df = Some T ->
  "Power" ∈ columns T ->
  last (rows T) = Some r ->
  power r = CFloat (S754_finite sg m e) ->
  let v := float_value sg m e in
  (forall k : Z, ~ (v == inject_Z k)%Q) ->
  let z := truncate v in
  result (metric_latest_power df) s = Ok tt /\
  page (exec (metric_latest_power df) s) = page s ++ [Metric "Latest Power" (MInt z)] /\
  ~ (inject_Z z == v)%Q /\
  ((0 <= v)%Q -> (inject_Z z < v)%Q /\ (v < inject_Z z + 1)%Q) /\
  ((v <= 0)%Q -> (v < inject_Z z)%Q /\ (inject_Z z - 1 < v)%Q).
Proof.
  intros H Hc Hl Hp v Hv z. unfold result, exec.
  rewrite (latest_power_run s df T r H Hc Hl), Hp.
  unfold python_int. rewrite int_of_float_truncates. fold v z. simpl.
  assert (Hne : ~ (inject_Z z == v)%Q).
  { intros Heq. apply (Hv z). symmetry. exact Heq. }
  split; [reflexivity|]. split; [reflexivity|]. split; [exact Hne|].
  destruct (truncate_toward_zero v) as [Hpos Hneg]. fold z in Hpos, Hneg.
  split; intros H0.
  - destruct (Hpos H0) as [H1 H2]. split; [|exact H2].
    apply Qle_lteq in H1. destruct H1 as [H1|H1]; [exact H1 | contradiction].
  - destruct (Hneg H0) as [H1 H2]. split; [|exact H2].
    apply Qle_lteq in H1. destruct H1 as [H1|H1]; [exact H1|].
    exfalso. apply Hne. symmetry. exact H1.
Qed.

Lemma not_half_integer (k : Z) : ~ (float_value false 5 (-1) == inject_Z k)%Q.
Proof. unfold float_value, Qeq. simpl. lia. Qed.

Lemma latest_power_truncates_witness :
  let T := mk_frame schema [mk_row (CStr "2024-01-05 09:03:07") (CFloat (S754_finite false 5 (-1)))] in
  let s := mk_state {[ 1%positive := T ]} {[ "df" := 1%positive ]} [] in
  page (exec (metric_latest_power 1%positive) s) = [Metric "Latest Power" (MInt 2)].
Proof.
  intros T s.
  apply (latest_power_truncates s 1%positive T
           (mk_row (CStr "2024-01-05 09:03:07") (CFloat (S754_finite false 5 (-1))))
           false 5 (-1));
    [reflexivity | right; left | reflexivity | reflexivity | exact not_half_integer].
Defined.

(** Summing a column that holds text raises. *)
Lemma sum_count_text (col : list cell) (x : string) :
  In (CStr x) col -> forall sum n, sum_count col sum n = Raise TypeError.
Proof.
  induction col as [|c col IH]; intros Hin sum n; [destruct Hin|].
  destruct c as [|z|f|y|t]; simpl;
    try (destruct Hin as [Hc|Hin]; [discriminate | apply IH, Hin]);
    try reflexivity.
  destruct f; destruct Hin as [Hc|Hin]; try discriminate; apply IH, Hin.
Qed.

Lemma mean_text (col : list cell) (x : string) :
  In (CStr x) col -> mean col = Raise TypeError.
Proof. intros H. unfold mean. rewrite (sum_count_text col x H). reflexivity. Qed.

(** Text anywhere in the power column makes the metrics block end in an
    exception: nothing catches what [int] and [mean] raise. *)
Lemma metrics_raise_on_text (L : library) (s : state) (T : DataFrame) (x : string) :
  table s = Some T ->
  "Power" ∈ columns T ->
  In (CStr x) (map power (rows T)) ->
  exists e, result (top_metrics L) s = Raise e.
Proof.
  intros HT Hc Hin. apply table_lookup in HT as (l & Hs & Hh).
  assert (Hrows : exists r, last (rows T) = Some r).
  { destruct (rows T) as [|r0 rs] eqn:E; [destruct Hin|].
    destruct (last (r0 :: rs)) eqn:El; [eauto|].
    apply last_None in El. discriminate. }
  destruct Hrows as [r Hr].
  assert (E : empty T = false).
  { unfold empty. destruct (rows T); [discriminate|].
    destruct (columns T); [inversion Hc | reflexivity]. }
  unfold result, top_metrics.
  erewrite bind_ok by (unfold get_df; rewrite Hs; reflexivity).
  erewrite bind_ok by (apply total_rows_run; exact Hh).
  destruct (python_int (power r)) as [n|e] eqn:Ep.
  - erewrite bind_ok
      by (erewrite latest_power_run by (try exact Hh; eassumption); rewrite Ep; reflexivity).
    exists TypeError. erewrite bind_raise; [reflexivity|].
    unfold metric_average_power. run_script. rewrite Hh. simpl. rewrite E. simpl.
    unfold getitem. rewrite bool_decide_eq_true_2 by exact Hc. simpl.
    rewrite (mean_text _ x Hin). reflexivity.
  - erewrite bind_raise
      by (erewrite latest_power_run by (try exact Hh; eassumption); rewrite Ep; reflexivity).
    exists e. reflexivity.
Qed.

(** C4 fails on the code.  After the user types "abc" into the power cell
    of the last row, the next run ends in ValueError at [int(...)]: the
    page stops after Total rows, and neither the editor nor the download
    button is drawn.  With the text in an earlier row, the run ends in
    TypeError at [mean()], after Latest Power. *)
Example metrics_crash_on_text_power :
  let t := CStr "2024-01-05 09:03:07" in
  let typed (edited : DataFrame) :=
    mk_interaction (mk_datetime 2024 1 5 9 3 7) 50 false false (fun _ => edited)
      Line true true "power_data.csv" in
  let last_row := mk_frame schema [mk_row t (CStr "abc")] in
  let first_row := mk_frame schema [mk_row t (CStr "abc"); mk_row t (CInt 40)] in
  let s1 := snd (run Reference.lib (typed last_row) new_session) in
  let s2 := snd (run Reference.lib (typed first_row) new_session) in
  (table s1 = Some last_row /\
   fst (run Reference.lib (typed last_row) s1) = Raise ValueError /\
   page (snd (run Reference.lib (typed last_row) s1)) = [Metric "Total rows" (MInt 1)]) /\
  (table s2 = Some first_row /\
   fst (run Reference.lib (typed first_row) s2) = Raise TypeError /\
   page (snd (run Reference.lib (typed first_row) s2)) =
     [Metric "Total rows" (MInt 2); Metric "Latest Power" (MInt 40)]).
Proof. vm_compute. repeat split. Qed.

(** ** Export (C7) *)

Lemma append_cons (c : ascii) (s t : string) :
  (String c s ++ t)%string = String c (s ++ t)%string.
Proof. reflexivity. Qed.

Lemma append_nil_r (s : string) : (s ++ EmptyString)%string = s.
Proof.
  induction s as [|c s IH]; [reflexivity|]. rewrite append_cons, IH. reflexivity.
Qed.

Lemma append_assoc (s t u : string) :
  ((s ++ t) ++ u)%string = (s ++ (t ++ u))%string.
Proof.
  induction s as [|c s IH]; [reflexivity|]. rewrite !append_cons, IH. reflexivity.
Qed.




Section CsvExport.

Context (L : library).

Lemma writerow_pair (a b : string) :
  writerow [a; b] = (quote_field a ++ String delimiter (quote_field b ++ lineterminator))%string.
Proof.
  unfold writerow. destruct a; cbn [map join];
    rewrite append_assoc, append_cons; reflexivity.
Qed.

Lemma fold_writerow (records : list (list string)) (out : string) :
  fold_left (fun (o : string) record => (o ++ writerow record)%string) records out
  = (out ++ String.concat EmptyString (map writerow records))%string.
Proof.
  revert out. induction records as [|r rs IH]; intros out.
  - simpl. rewrite append_nil_r. reflexivity.
  - cbn [fold_left map]. rewrite IH.
    rewrite append_assoc. f_equal.
    destruct rs; cbn [String.concat map]; [|reflexivity].
    rewrite append_nil_r. reflexivity.
Qed.

Lemma body_records_lines (i : nat) (rs : list row) :
  map writerow (body_records L false i rs) = map (row_line L) rs.
Proof.
  revert i. induction rs as [|r rs IH]; intros i; [reflexivity|].
  cbn [body_records map]. rewrite IH. f_equal.
  cbn [app]. apply writerow_pair.
Qed.

(** The text of the export: the header line, then the rows' lines. *)
Lemma to_csv_lines (T : DataFrame) :
  columns T = schema ->
  to_csv L false T =
    ("Date Time,Power" ++ LF ++ String.concat EmptyString (map (row_line L) (rows T)))%string.
Proof.
  intros Hc. unfold to_csv. rewrite fold_writerow, body_records_lines, Hc.
  reflexivity.
Qed.

End CsvExport.

(** *** The numeral of an integer *)


















Lemma add_appends_row_witness :
  let T := mk_frame schema [mk_row (CStr "2024-01-05 09:03:02") (CInt 40)] in
  let s := mk_state {[ 1%positive := T ]} {[ "df" := 1%positive ]} [] in
  result (add (mk_datetime 2024 1 5 9 3 7) 50) s = Ok tt.
Proof.
  intros T s.
  apply (add_appends_row s T (mk_datetime 2024 1 5 9 3 7) 50);
    [reflexivity | lia | unfold valid_datetime; simpl; lia].
Defined.

(** ** The chart's row order (C3) *)

Lemma nondecreasing_sorted (l : list Z) :
  nondecreasing l = true -> StronglySorted Z.le l.
Proof.
  intros H. apply Sorted_StronglySorted; [intros x y z; apply Z.le_trans|].
  induction l as [|a [|b l] IH]; [constructor | repeat constructor |].
  cbn [nondecreasing] in H. apply andb_prop in H as [Hab Hl].
  constructor; [apply IH, Hl|]. constructor. apply Z.leb_le, Hab.
Qed.

(** The positions a sort returned are a rearrangement of all positions. *)
Lemma sorts_permutation (argsort : list Z -> list nat) (v : list Z) :
  sorts argsort v = true -> Permutation (argsort v) (seq 0 (length v)).
Proof.
  unfold sorts. intros H.
  apply andb_prop in H as [H _]. apply andb_prop in H as [Hlen Hall].
  apply Nat.eqb_eq in Hlen. symmetry.
  apply NoDup_Permutation_bis; [apply seq_NoDup | rewrite length_seq; lia |].
  intros k Hk. rewrite forallb_forall in Hall. specialize (Hall k Hk).
  apply existsb_exists in Hall as (j & Hj & E). apply Nat.eqb_eq in E. subst j. exact Hj.
Qed.

Lemma sorts_in_range (argsort : list Z -> list nat) (v : list Z) :
  sorts argsort v = true -> Forall (fun k => (k < length v)%nat) (argsort v).
Proof.
  intros H. apply List.Forall_forall. intros k Hk.
  apply (Permutation_in _ (sorts_permutation _ _ H)) in Hk.
  apply in_seq in Hk. lia.
Qed.

Lemma take_at_nth {A} (l : list A) (d : A) (indexer : list nat) :
  Forall (fun k => (k < length l)%nat) indexer ->
  take_at l indexer = Ok (map (fun k => nth k l d) indexer).
Proof.
  induction 1 as [|k ks Hk _ IH]; [reflexivity|].
  cbn [take_at map]. rewrite IH.
  destruct (l !! k) as [x|] eqn:E.
  - simpl. do 2 f_equal. symmetry. apply nth_lookup_Some with (d := d) in E. exact E.
  - apply lookup_ge_None in E. lia.
Qed.

Lemma take_at_seq (n : nat) (indexer : list nat) :
  Forall (fun k => (k < n)%nat) indexer -> take_at (seq 0 n) indexer = Ok indexer.
Proof.
  intros H. rewrite (take_at_nth _ 0%nat) by (rewrite length_seq; exact H).
  f_equal. induction H as [|k ks Hk _ IH]; [reflexivity|].
  cbn [map]. rewrite IH, seq_nth by exact Hk. reflexivity.
Qed.

Lemma map_nth_seq {A} (l : list A) (d : A) :
  map (fun k => nth k l d) (seq 0 (length l)) = l.
Proof.
  induction l as [|a l IH]; [reflexivity|].
  cbn [length seq map nth]. f_equal.
  rewrite <- seq_shift, map_map. exact IH.
Qed.

Lemma positions_present (times : list Z) (i : nat) :
  positions_from i (fun c => negb (isna c)) (map CTime times) = seq i (length times).
Proof.
  revert i. induction times as [|t ts IH]; intros i; [reflexivity|].
  cbn [map positions_from isna negb length seq app]. rewrite IH. reflexivity.
Qed.

Lemma positions_missing (times : list Z) (i : nat) :
  positions_from i isna (map CTime times) = [].
Proof.
  revert i. induction times as [|t ts IH]; intros i; [reflexivity|].
  cbn [map positions_from isna app]. apply IH.
Qed.

Lemma filter_present (times : list Z) :
  List.filter (fun c => negb (isna c)) (map CTime times) = map CTime times.
Proof.
  induction times as [|t ts IH]; [reflexivity|].
  cbn [map List.filter isna negb]. rewrite IH. reflexivity.
Qed.

Lemma datetime_values_times (times : list Z) :
  datetime_values (map CTime times) = Some times.
Proof.
  induction times as [|t ts IH]; [reflexivity|].
  cbn [map datetime_values]. rewrite IH. reflexivity.
Qed.

Lemma length_parsed_rows (times : list Z) (rs : list row) :
  length times = length rs -> length (parsed_rows times rs) = length times.
Proof.
  revert rs. induction times as [|t ts IH]; intros [|r rs] H; try discriminate; [reflexivity|].
  cbn. f_equal. apply IH. injection H as H. exact H.
Qed.

Lemma date_time_parsed_rows (times : list Z) (rs : list row) :
  length times = length rs ->
  map date_time (parsed_rows times rs) = map CTime times.
Proof.
  revert rs. induction times as [|t ts IH]; intros [|r rs] H; try discriminate; [reflexivity|].
  cbn. f_equal. apply IH. injection H as H. exact H.
Qed.

Lemma time_of_parsed_rows (times : list Z) (rs : list row) :
  length times = length rs ->
  map time_of (parsed_rows times rs) = times.
Proof.
  revert rs. induction times as [|t ts IH]; intros [|r rs] H; try discriminate; [reflexivity|].
  cbn. f_equal. apply IH. injection H as H. exact H.
Qed.

Lemma zip_with_parsed (times : list Z) (rs : list row) :
  zip_with (fun v r => mk_row v (power r)) (map CTime times) rs = parsed_rows times rs.
Proof.
  revert rs. induction times as [|t ts IH]; intros [|r rs]; try reflexivity.
  cbn. f_equal. apply IH.
Qed.

(** The conversion of a column whose cells all hold a date-time text. *)
Lemma to_datetime_parsed (L : library) (rs : list row) (times : list Z) :
  Forall2 (fun r t => parsed L (date_time r) t) rs times ->
  to_datetime L (map date_time rs) = Ok (map CTime times).
Proof.
  induction 1 as [|r t rs ts Hp _ IH]; [reflexivity|].
  cbn [map]. rewrite to_datetime_cons, Hp. simpl. rewrite IH. reflexivity.
Qed.


(** ** numpy's quicksort sorts *)

Lemma rearranged_refl (l r : nat) (a : list nat) : rearranged l r a a.
Proof. repeat split; eauto. Qed.

Lemma rearranged_trans (l r : nat) (a b c : list nat) :
  rearranged l r a b -> rearranged l r b c -> rearranged l r a c.
Proof.
  intros (L1 & O1 & F1 & B1) (L2 & O2 & F2 & B2). repeat split.
  - congruence.
  - intros x Hx. rewrite O2, O1 by exact Hx. reflexivity.
  - intros y Hy. destruct (F2 y Hy) as (y1 & Hy1 & E1).
    destruct (F1 y1 Hy1) as (y2 & Hy2 & E2). exists y2. split; [exact Hy2 | congruence].
  - intros y Hy. destruct (B1 y Hy) as (y1 & Hy1 & E1).
    destruct (B2 y1 Hy1) as (y2 & Hy2 & E2). exists y2. split; [exact Hy2 | congruence].
Qed.

Lemma rearranged_widen (l r l' r' : nat) (a b : list nat) :
  (l' <= l)%nat -> (r <= r')%nat -> rearranged l r a b -> rearranged l' r' a b.
Proof.
  intros Hl Hr (L1 & O1 & F1 & B1). repeat split.
  - exact L1.
  - intros x Hx. apply O1. lia.
  - intros y Hy. destruct (decide (l <= y <= r)%nat) as [Hin|Hout].
    + destruct (F1 y Hin) as (y' & Hy' & E). exists y'. split; [lia | exact E].
    + exists y. split; [exact Hy | apply O1; lia].
  - intros y Hy. destruct (decide (l <= y <= r)%nat) as [Hin|Hout].
    + destruct (B1 y Hin) as (y' & Hy' & E). exists y'. split; [lia | exact E].
    + exists y. split; [exact Hy | apply O1; lia].
Qed.

(** Two positions exchanged. *)
Lemma rearranged_exchange (l r : nat) (a b : list nat) (i j : nat) :
  (l <= i <= r)%nat -> (l <= j <= r)%nat ->
  length b = length a ->
  b !!! i = a !!! j -> b !!! j = a !!! i ->
  (forall x, x <> i -> x <> j -> b !!! x = a !!! x) ->
  rearranged l r a b.
Proof.
  intros Hi Hj Hlen Ei Ej Hx. repeat split.
  - exact Hlen.
  - intros x Hout. apply Hx; lia.
  - intros y Hy. destruct (decide (y = i)) as [->|Ni]; [exists j; auto|].
    destruct (decide (y = j)) as [->|Nj]; [exists i; auto|].
    exists y. split; [exact Hy | apply Hx; assumption].
  - intros y Hy. destruct (decide (y = i)) as [->|Ni]; [exists j; auto|].
    destruct (decide (y = j)) as [->|Nj]; [exists i; auto|].
    exists y. split; [exact Hy | apply Hx; assumption].
Qed.

Lemma swap_length (a : list nat) (i j : nat) : length (Numpy.swap a i j) = length a.
Proof. unfold Numpy.swap. rewrite !length_insert. reflexivity. Qed.

Lemma swap_lookup (a : list nat) (i j x : nat) :
  (i < length a)%nat -> (j < length a)%nat ->
  Numpy.swap a i j !!! x =
    if decide (x = j) then a !!! i else if decide (x = i) then a !!! j else a !!! x.
Proof.
  intros Hi Hj. unfold Numpy.swap.
  destruct (decide (x = j)) as [->|Nj].
  - apply list_lookup_total_insert_eq. rewrite length_insert. exact Hj.
  - rewrite list_lookup_total_insert_ne by congruence.
    destruct (decide (x = i)) as [->|Ni].
    + apply list_lookup_total_insert_eq. exact Hi.
    + apply list_lookup_total_insert_ne. congruence.
Qed.

Lemma swap_rearranged (l r : nat) (a : list nat) (i j : nat) :
  (l <= i <= r)%nat -> (l <= j <= r)%nat -> (r < length a)%nat ->
  rearranged l r a (Numpy.swap a i j).
Proof.
  intros Hi Hj Hr.
  destruct (decide (i = j)) as [->|Nij].
  - apply rearranged_exchange with (i := j) (j := j); try assumption.
    + apply swap_length.
    + rewrite swap_lookup by lia. rewrite decide_True by reflexivity. reflexivity.
    + rewrite swap_lookup by lia. rewrite decide_True by reflexivity. reflexivity.
    + intros x N1 N2. rewrite swap_lookup by lia.
      rewrite !decide_False by assumption. reflexivity.
  - apply rearranged_exchange with (i := i) (j := j); try assumption.
    + apply swap_length.
    + rewrite swap_lookup by lia. rewrite decide_False by exact Nij.
      rewrite decide_True by reflexivity. reflexivity.
    + rewrite swap_lookup by lia. rewrite decide_True by reflexivity. reflexivity.
    + intros x N1 N2. rewrite swap_lookup by lia.
      rewrite !decide_False by assumption. reflexivity.
Qed.

Section NumpySorts.

Variable v : list Z.

Local Abbreviation key := (Numpy.key 0%Z v).

Lemma key_eq (a b : list nat) (x y : nat) : a !!! x = b !!! y -> key a x = key b y.
Proof. unfold Numpy.key. intros ->. reflexivity. Qed.

(** *** Insertion sort *)

Lemma shift_up_spec (vp : Z) (pl : nat) (fuel : nat) :
  forall (a : list nat) (pj : nat),
    (pl <= pj)%nat -> (pj < length a)%nat -> (pj - pl <= fuel)%nat ->
    exists a1 pj1,
      Numpy.shift_up Z.ltb 0%Z v fuel a vp pl pj = (a1, pj1) /\
      (pl <= pj1 <= pj)%nat /\
      length a1 = length a /\
      (forall x, (x <= pj1 \/ pj < x)%nat -> a1 !!! x = a !!! x) /\
      (forall x, (pj1 <= x < pj)%nat -> a1 !!! (S x) = a !!! x) /\
      (forall x, (pj1 <= x < pj)%nat -> (vp < key a x)%Z) /\
      (pj1 = pl \/ (key a (pj1 - 1) <= vp)%Z).
Proof.
  induction fuel as [|fuel IH]; intros a pj Hl Hj Hf.
  - exists a, pj. assert (pj = pl) by lia. subst pj.
    repeat split; auto; try lia; intros; lia.
  - cbn [Numpy.shift_up].
    destruct ((pl <? pj)%nat && (vp <? key a (pred pj))%Z) eqn:E.
    + apply andb_prop in E as [E1 E2]. apply Nat.ltb_lt in E1. apply Z.ltb_lt in E2.
      set (a' := <[pj := a !!! pred pj]> a).
      assert (Hlen' : length a' = length a) by apply length_insert.
      destruct (IH a' (pred pj)) as (a1 & pj1 & Hrun & Hrange & Hlen & Hsame & Hshift & Hgt & Hstop);
        [lia | rewrite Hlen'; lia | lia |].
      assert (Hold : forall x, x <> pj -> a' !!! x = a !!! x).
      { intros x Hx. apply list_lookup_total_insert_ne. congruence. }
      exists a1, pj1. split; [exact Hrun|]. split; [lia|]. split; [congruence|].
      split; [|split; [|split]].
      * intros x Hx. rewrite Hsame by lia. apply Hold. lia.
      * intros x Hx. destruct (decide (x = pred pj)) as [->|Nx].
        -- replace (S (pred pj)) with pj by lia. rewrite Hsame by lia.
           apply list_lookup_total_insert_eq. exact Hj.
        -- rewrite Hshift by lia. apply Hold. lia.
      * intros x Hx. destruct (decide (x = pred pj)) as [->|Nx]; [exact E2|].
        rewrite <- (key_eq a' a x x) by (apply Hold; lia). apply Hgt. lia.
      * destruct Hstop as [->|Hstop]; [left; reflexivity|]. right.
        rewrite <- (key_eq a' a (pj1 - 1) (pj1 - 1)) by (apply Hold; lia). exact Hstop.
    + exists a, pj. split; [reflexivity|]. split; [lia|]. split; [reflexivity|].
      split; [reflexivity|]. split; [intros; lia|]. split; [intros; lia|].
      apply andb_false_iff in E as [E|E].
      * apply Nat.ltb_ge in E. left. lia.
      * apply Z.ltb_ge in E. right. replace (pj - 1)%nat with (pred pj) by lia. exact E.
Qed.

(** One insertion: the element at [pi] goes to its place among the sorted
    elements before it. *)
Lemma insert_one_spec (a : list nat) (pl pi : nat) :
  (pl < pi)%nat -> (pi < length a)%nat -> sorted_range v a pl (pi - 1) ->
  exists a1 pj,
    Numpy.shift_up Z.ltb 0%Z v (length a) a (nth (a !!! pi) v 0%Z) pl pi = (a1, pj) /\
    rearranged pl pi a (<[pj := a !!! pi]> a1) /\
    sorted_range v (<[pj := a !!! pi]> a1) pl pi.
Proof.
  intros Hl Hi Hsorted.
  destruct (shift_up_spec (nth (a !!! pi) v 0%Z) pl (length a) a pi)
    as (a1 & pj & Hrun & Hrange & Hlen & Hsame & Hshift & Hgt & Hstop); try lia.
  exists a1, pj. split; [exact Hrun|].
  set (F := <[pj := a !!! pi]> a1).
  assert (HF1 : forall x, (x < pj \/ pi < x)%nat -> F !!! x = a !!! x).
  { intros x Hx. unfold F. rewrite list_lookup_total_insert_ne by lia. apply Hsame. lia. }
  assert (HF2 : F !!! pj = a !!! pi).
  { unfold F. apply list_lookup_total_insert_eq. lia. }
  assert (HF3 : forall x, (pj <= x < pi)%nat -> F !!! (S x) = a !!! x).
  { intros x Hx. unfold F. rewrite list_lookup_total_insert_ne by lia. apply Hshift. lia. }
  assert (HFlen : length F = length a) by (unfold F; rewrite length_insert; exact Hlen).
  split.
  - repeat split.
    + exact HFlen.
    + intros x Hx. apply HF1. lia.
    + intros y Hy. destruct (decide (y < pj)%nat) as [H1|H1].
      * exists y. split; [lia | apply HF1; lia].
      * destruct (decide (y = pj)) as [->|H2]; [exists pi; split; [lia | exact HF2]|].
        exists (y - 1)%nat. split; [lia|].
        replace y with (S (y - 1)) at 1 by lia. apply HF3. lia.
    + intros y Hy. destruct (decide (y < pj)%nat) as [H1|H1].
      * exists y. split; [lia | apply HF1; lia].
      * destruct (decide (y = pi)) as [->|H2]; [exists pj; split; [lia | exact HF2]|].
        exists (S y). split; [lia | apply HF3; lia].
  - (* sortedness *)
    assert (Kpj : key F pj = nth (a !!! pi) v 0%Z).
    { unfold Numpy.key. rewrite HF2. reflexivity. }
    assert (Klow : forall x, (x < pj)%nat -> key F x = key a x).
    { intros x Hx. apply key_eq, HF1. lia. }
    assert (Khigh : forall x, (pj < x <= pi)%nat -> key F x = key a (x - 1)).
    { intros x Hx. apply key_eq. replace x with (S (x - 1)) at 1 by lia. apply HF3. lia. }
    intros x y Hx Hxy Hy.
    destruct (decide (x = y)) as [->|Nxy]; [lia|].
    destruct (decide (y < pj)%nat) as [Hy1|Hy1].
    { rewrite !Klow by lia. apply Hsorted; lia. }
    destruct (decide (y = pj)) as [->|Hy2].
    { rewrite Klow by lia. rewrite Kpj.
      destruct Hstop as [->|Hstop]; [lia|].
      etransitivity; [|exact Hstop]. apply Hsorted; lia. }
    rewrite (Khigh y) by lia.
    destruct (decide (x < pj)%nat) as [Hx1|Hx1].
    { rewrite Klow by lia. apply Hsorted; lia. }
    destruct (decide (x = pj)) as [->|Hx2].
    { rewrite Kpj. apply Z.lt_le_incl, Hgt. lia. }
    rewrite (Khigh x) by lia. apply Hsorted; lia.
Qed.

Lemma insertion_spec (pl : nat) (count : nat) :
  forall (a : list nat) (pi : nat),
    (pl < pi)%nat -> (pi + count <= length a)%nat -> sorted_range v a pl (pi - 1) ->
    rearranged pl (pi + count - 1) a (Numpy.insertion Z.ltb 0%Z v count a pl pi) /\
    sorted_range v (Numpy.insertion Z.ltb 0%Z v count a pl pi) pl (pi + count - 1).
Proof.
  induction count as [|count IH]; intros a pi Hl Hlen Hsorted.
  - cbn [Numpy.insertion]. rewrite Nat.add_0_r. split; [apply rearranged_refl | exact Hsorted].
  - cbn [Numpy.insertion].
    destruct (insert_one_spec a pl pi Hl ltac:(lia) Hsorted) as (a1 & pj & Hrun & Hre & Hso).
    rewrite Hrun.
    set (F := <[pj := a !!! pi]> a1) in *.
    assert (HFlen : length F = length a) by (destruct Hre as [H _]; exact H).
    destruct (IH F (S pi)) as [Hre' Hso'];
      [lia | rewrite HFlen; lia | replace (S pi - 1)%nat with pi by lia; exact Hso|].
    replace (pi + S count - 1)%nat with (S pi + count - 1)%nat by lia.
    split; [|exact Hso'].
    eapply rearranged_trans; [|exact Hre'].
    eapply rearranged_widen; [| |exact Hre]; lia.
Qed.

Lemma insertion_sort_spec (a : list nat) (pl pr : nat) :
  (pl <= pr)%nat -> (pr < length a)%nat ->
  rearranged pl pr a (Numpy.insertion_sort Z.ltb 0%Z v a pl pr) /\
  sorted_range v (Numpy.insertion_sort Z.ltb 0%Z v a pl pr) pl pr.
Proof.
  intros Hl Hr. unfold Numpy.insertion_sort.
  destruct (insertion_spec pl (pr - pl) a (S pl)) as [H1 H2]; [lia | lia | |].
  - intros x y Hx Hxy Hy. assert (x = y) by lia. subst. lia.
  - replace (S pl + (pr - pl) - 1)%nat with pr in * by lia. split; assumption.
Qed.

(** *** Partition *)

Lemma swap_key (a : list nat) (i j x : nat) :
  (i < length a)%nat -> (j < length a)%nat ->
  key (Numpy.swap a i j) x =
    if decide (x = j) then key a i else if decide (x = i) then key a j else key a x.
Proof.
  intros Hi Hj. unfold Numpy.key. rewrite swap_lookup by assumption.
  repeat case_decide; reflexivity.
Qed.

(** The conditional swap leaves the smaller key at [q]. *)
Lemma swap_if_less_spec (l r : nat) (a : list nat) (p q : nat) :
  (l <= p <= r)%nat -> (l <= q <= r)%nat -> p <> q -> (r < length a)%nat ->
  let b := Numpy.swap_if_less Z.ltb 0%Z v a p q in
  rearranged l r a b /\
  key b q = Z.min (key a p) (key a q) /\
  key b p = Z.max (key a p) (key a q) /\
  (forall x, x <> p -> x <> q -> key b x = key a x).
Proof.
  intros Hp Hq Hpq Hr b. unfold b, Numpy.swap_if_less.
  destruct (key a p <? key a q)%Z eqn:E.
  - apply Z.ltb_lt in E. split; [apply swap_rearranged; assumption|].
    split; [|split].
    + rewrite swap_key by lia. rewrite decide_True by reflexivity. lia.
    + rewrite swap_key by lia. rewrite decide_False by exact Hpq.
      rewrite decide_True by reflexivity. lia.
    + intros x N1 N2. rewrite swap_key by lia. rewrite !decide_False by assumption.
      reflexivity.
  - apply Z.ltb_ge in E. split; [apply rearranged_refl|].
    split; [lia|]. split; [lia|]. reflexivity.
Qed.

Lemma scan_up_spec (a : list nat) (vp : Z) (s : nat) (fuel : nat) :
  forall pi, (pi <= s)%nat -> (vp <= key a s)%Z -> (s - pi < fuel)%nat ->
    let p := Numpy.scan_up Z.ltb 0%Z v fuel a vp pi in
    (pi <= p <= s)%nat /\ (vp <= key a p)%Z /\
    (forall x, (pi <= x < p)%nat -> (key a x < vp)%Z).
Proof.
  induction fuel as [|fuel IH]; intros pi Hs Hk Hf p; [lia|].
  unfold p. cbn [Numpy.scan_up].
  destruct (key a pi <? vp)%Z eqn:E.
  - apply Z.ltb_lt in E.
    assert (pi <> s) by (intros ->; lia).
    destruct (IH (S pi)) as (H1 & H2 & H3); [lia | exact Hk | lia |].
    split; [lia|]. split; [exact H2|].
    intros x Hx. destruct (decide (x = pi)) as [->|N]; [exact E | apply H3; lia].
  - apply Z.ltb_ge in E. split; [lia|]. split; [exact E | intros; lia].
Qed.

Lemma scan_down_spec (a : list nat) (vp : Z) (s : nat) (fuel : nat) :
  forall pj, (s <= pj)%nat -> (key a s <= vp)%Z -> (pj - s < fuel)%nat ->
    let p := Numpy.scan_down Z.ltb 0%Z v fuel a vp pj in
    (s <= p <= pj)%nat /\ (key a p <= vp)%Z /\
    (forall x, (p < x <= pj)%nat -> (vp < key a x)%Z).
Proof.
  induction fuel as [|fuel IH]; intros pj Hs Hk Hf p; [lia|].
  unfold p. cbn [Numpy.scan_down].
  destruct (vp <? key a pj)%Z eqn:E.
  - apply Z.ltb_lt in E.
    assert (pj <> s) by (intros ->; lia).
    destruct (IH (pred pj)) as (H1 & H2 & H3); [lia | exact Hk | lia |].
    split; [lia|]. split; [exact H2|].
    intros x Hx. destruct (decide (x = pj)) as [->|N]; [exact E | apply H3; lia].
  - apply Z.ltb_ge in E. split; [lia|]. split; [exact E | intros; lia].
Qed.

Lemma partition_loop_spec (vp : Z) (pl pr : nat) (fuel : nat) :
  forall (a : list nat) (pi pj : nat),
    (pl <= pi)%nat -> (pi < pj)%nat -> (pj < pr)%nat -> (pr < length a)%nat ->
    (pj - pi <= fuel)%nat ->
    (forall x, (pl <= x <= pi)%nat -> (key a x <= vp)%Z) ->
    (forall y, (pj <= y <= pr)%nat -> (vp <= key a y)%Z) ->
    exists a' pi',
      Numpy.partition_loop Z.ltb 0%Z v fuel a vp pi pj = (a', pi') /\
      (pl < pi' < pr)%nat /\
      rearranged pl (pr - 2) a a' /\
      (forall x, (pl <= x < pi')%nat -> (key a' x <= vp)%Z) /\
      (forall y, (pi' <= y <= pr)%nat -> (vp <= key a' y)%Z).
Proof.
  induction fuel as [|fuel IH]; intros a pi pj Hl Hij Hj Hr Hf Hlow Hhigh; [lia|].
  cbn [Numpy.partition_loop].
  destruct (scan_up_spec a vp pj (length a) (S pi)) as (U1 & U2 & U3);
    [lia | apply Hhigh; lia | lia |].
  destruct (scan_down_spec a vp pi (length a) (pred pj)) as (D1 & D2 & D3);
    [lia | apply Hlow; lia | lia |].
  set (pi' := Numpy.scan_up Z.ltb 0%Z v (length a) a vp (S pi)) in *.
  set (pj' := Numpy.scan_down Z.ltb 0%Z v (length a) a vp (pred pj)) in *.
  destruct (pj' <=? pi')%nat eqn:E.
  - apply Nat.leb_le in E. exists a, pi'. split; [reflexivity|]. split; [lia|].
    split; [apply rearranged_refl|]. split.
    + intros x Hx. destruct (decide (x <= pi)%nat); [apply Hlow; lia|].
      apply Z.lt_le_incl, U3. lia.
    + intros y Hy. destruct (decide (y = pi')) as [->|N]; [exact U2|].
      destruct (decide (y < pj)%nat); [|apply Hhigh; lia].
      apply Z.lt_le_incl, D3. lia.
  - apply Nat.leb_gt in E.
    destruct (IH (Numpy.swap a pi' pj') pi' pj') as (a' & p & Hrun & Hp & Hre & Hlo & Hhi);
      try lia.
    + rewrite swap_length. lia.
    + intros x Hx. rewrite swap_key by lia.
      destruct (decide (x = pj')); [lia|].
      destruct (decide (x = pi')); [exact D2|].
      destruct (decide (x <= pi)%nat); [apply Hlow; lia|].
      apply Z.lt_le_incl, U3. lia.
    + intros y Hy. rewrite swap_key by lia.
      destruct (decide (y = pj')); [exact U2|].
      destruct (decide (y = pi')); [lia|].
      destruct (decide (y < pj)%nat); [|apply Hhigh; lia].
      apply Z.lt_le_incl, D3. lia.
    + exists a', p. split; [exact Hrun|]. split; [lia|]. split; [|split; assumption].
      eapply rearranged_trans; [|exact Hre].
      apply swap_rearranged; lia.
Qed.

(** One partition: the pivot ends at [pi], nothing larger before it and
    nothing smaller after it. *)
Lemma partition_spec (a : list nat) (pl pr : nat) :
  (15 < pr - pl)%nat -> (pr < length a)%nat ->
  exists a' pi,
    Numpy.partition Z.ltb 0%Z v a pl pr = (a', pi) /\
    (pl < pi < pr)%nat /\
    rearranged pl pr a a' /\
    (forall x, (pl <= x < pi)%nat -> (key a' x <= key a' pi)%Z) /\
    (forall y, (pi < y <= pr)%nat -> (key a' pi <= key a' y)%Z).
Proof.
  intros Hsize Hr. unfold Numpy.partition.
  set (pm := (pl + (pr - pl) / 2)%nat).
  assert (Hpm : (pl < pm < pr - 1)%nat).
  { unfold pm. pose proof (Nat.div_mod_eq (pr - pl) 2).
    pose proof (Nat.mod_upper_bound (pr - pl) 2). lia. }
  clearbody pm.
  destruct (swap_if_less_spec pl pr a pm pl) as (R1 & A1 & B1 & C1); try lia.
  set (a1 := Numpy.swap_if_less Z.ltb 0%Z v a pm pl) in *.
  assert (L1 : length a1 = length a) by (destruct R1 as [H _]; exact H).
  destruct (swap_if_less_spec pl pr a1 pr pm) as (R2 & A2 & B2 & C2); try lia.
  set (a2 := Numpy.swap_if_less Z.ltb 0%Z v a1 pr pm) in *.
  assert (L2 : length a2 = length a) by (destruct R2 as [H _]; lia).
  destruct (swap_if_less_spec pl pr a2 pm pl) as (R3 & A3 & B3 & C3); try lia.
  set (a3 := Numpy.swap_if_less Z.ltb 0%Z v a2 pm pl) in *.
  assert (L3 : length a3 = length a) by (destruct R3 as [H _]; lia).
  clearbody a1 a2 a3.
  assert (Hmed : (key a3 pl <= key a3 pm <= key a3 pr)%Z).
  { pose proof (C3 pr ltac:(lia) ltac:(lia)) as E3.
    pose proof (C2 pl ltac:(lia) ltac:(lia)) as E2.
    lia. }
  set (vp := key a3 pm) in *.
  set (a4 := Numpy.swap a3 pm (pr - 1)).
  assert (L4 : length a4 = length a) by (unfold a4; rewrite swap_length; exact L3).
  rewrite L4.
  destruct (partition_loop_spec vp pl pr (length a) a4 pl (pr - 1))
    as (a5 & pi & Hrun & Hpi & R5 & Hlo & Hhi); try lia.
  - intros x Hx. assert (x = pl) by lia. subst x. unfold a4.
    rewrite swap_key by lia. rewrite !decide_False by lia. lia.
  - intros y Hy. unfold a4. rewrite swap_key by lia.
    destruct (decide (y = (pr - 1)%nat)); [unfold vp; lia|].
    rewrite decide_False by lia. assert (y = pr) by lia. subst y. lia.
  - rewrite Hrun.
    assert (L5 : length a5 = length a) by (destruct R5 as [H _]; lia).
    assert (Kpivot : key a5 (pr - 1) = vp).
    { destruct R5 as (_ & O5 & _). rewrite (key_eq a5 a4 (pr - 1) (pr - 1)) by (apply O5; lia).
      unfold a4. rewrite swap_key by lia. rewrite decide_True by reflexivity. reflexivity. }
    exists (Numpy.swap a5 pi (pr - 1)), pi. split; [reflexivity|]. split; [lia|].
    split; [|split].
    + eapply rearranged_trans; [exact R1|]. eapply rearranged_trans; [exact R2|].
      eapply rearranged_trans; [exact R3|].
      eapply rearranged_trans; [apply (swap_rearranged pl pr a3 pm (pr - 1)); lia|].
      eapply rearranged_trans; [eapply rearranged_widen; [| |exact R5]; lia|].
      apply swap_rearranged; lia.
    + intros x Hx. rewrite !swap_key by lia.
      rewrite (decide_False (P := x = (pr - 1)%nat)) by lia.
      rewrite (decide_False (P := x = pi)) by lia.
      destruct (decide (pi = (pr - 1)%nat)) as [E|N].
      * rewrite E, Kpivot in *. apply Hlo. lia.
      * rewrite decide_True by reflexivity. rewrite Kpivot. apply Hlo. lia.
    + intros y Hy. rewrite !swap_key by lia.
      assert (Kpi : (if decide (pi = (pr - 1)%nat) then key a5 pi
                     else if decide (pi = pi) then key a5 (pr - 1) else key a5 pi) = vp).
      { destruct (decide (pi = (pr - 1)%nat)) as [E|N]; [rewrite E; exact Kpivot|].
        rewrite decide_True by reflexivity. exact Kpivot. }
      rewrite Kpi.
      destruct (decide (y = (pr - 1)%nat)); [apply Hhi; lia|].
      rewrite decide_False by lia. apply Hhi. lia.
Qed.

(** *** Heap sort *)

Lemma half_child (c k : nat) : (c = 2 * k \/ c = 2 * k + 1)%nat -> (c / 2 = k)%nat.
Proof.
  intros [-> | ->]; symmetry.
  - apply (Nat.div_unique _ 2 k 0); lia.
  - apply (Nat.div_unique _ 2 k 1); lia.
Qed.

Section Heap.

Variables (pl n : nat).

Local Abbreviation H := (fun a k => Numpy.heap_key 0%Z v a pl k).
Local Abbreviation pos := (fun k => (pl + k - 1)%nat).

Lemma heap_key_insert_ne (a : list nat) (k k' x : nat) :
  (1 <= k)%nat -> (1 <= k')%nat -> k <> k' ->
  Numpy.heap_key 0%Z v (<[pos k := x]> a) pl k' = Numpy.heap_key 0%Z v a pl k'.
Proof.
  intros H1 H2 N. unfold Numpy.heap_key. apply key_eq.
  apply list_lookup_total_insert_ne. lia.
Qed.

Lemma heap_key_insert_eq (a : list nat) (k x : nat) :
  (pos k < length a)%nat ->
  Numpy.heap_key 0%Z v (<[pos k := x]> a) pl k = nth x v 0%Z.
Proof.
  intros Hk. unfold Numpy.heap_key, Numpy.key.
  rewrite list_lookup_total_insert_eq by exact Hk. reflexivity.
Qed.

(** Filling the hole at [i] with an element that is less than the parent
    and not less than the children completes the heap. *)
Lemma fill_hole (a : list nat) (tmp i0 i : nat) :
  (1 <= i0 <= i)%nat -> (i <= n)%nat -> (pl + n <= length a)%nat ->
  (forall k, (i0 <= k <= n)%nat -> k <> i -> heap_at v a pl n k) ->
  (i <> i0 -> (i0 <= i / 2)%nat /\ (nth tmp v 0 < H a (i / 2)%nat)%Z) ->
  (forall c, (c = 2 * i \/ c = 2 * i + 1)%nat -> (c <= n)%nat -> (H a c <= nth tmp v 0)%Z) ->
  forall k, (i0 <= k <= n)%nat -> heap_at v (<[pos i := tmp]> a) pl n k.
Proof.
  intros Hi Hn Hlen Hheap Hparent Hchildren k Hk c Hc Hcn.
  destruct (decide (k = i)) as [->|Nk].
  - rewrite heap_key_insert_eq by lia.
    rewrite heap_key_insert_ne by lia. apply Hchildren; assumption.
  - rewrite (heap_key_insert_ne a i k) by lia.
    destruct (decide (c = i)) as [->|Nc].
    + rewrite heap_key_insert_eq by lia.
      assert (Hdiv : (i / 2 = k)%nat) by (apply half_child; exact Hc).
      destruct Hparent as [_ Hp]; [lia|]. rewrite Hdiv in Hp. lia.
    + rewrite heap_key_insert_ne by lia. apply (Hheap k Hk Nk c Hc Hcn).
Qed.

Lemma sift_spec (tmp i0 : nat) (fuel : nat) :
  forall (a : list nat) (i j : nat),
    j = (2 * i)%nat ->
    (1 <= i0 <= i)%nat -> (i <= n)%nat -> (pl + n <= length a)%nat ->
    (n - i < fuel)%nat ->
    (forall k, (i0 <= k <= n)%nat -> (k <> i0 \/ i <> i0) -> heap_at v a pl n k) ->
    (i <> i0 -> (i0 <= i / 2)%nat /\ (nth tmp v 0 < H a (i / 2)%nat)%Z) ->
    exists a' i',
      Numpy.sift Z.ltb 0%Z v fuel a pl tmp i j n = (a', i') /\
      (i <= i' <= n)%nat /\
      length a' = length a /\
      rearranged (pos i0) (pos n) (<[pos i := tmp]> a) (<[pos i' := tmp]> a') /\
      (forall k, (i0 <= k <= n)%nat -> heap_at v (<[pos i' := tmp]> a') pl n k).
Proof.
  induction fuel as [|fuel IH]; intros a i j Hj Hi Hn Hlen Hf Hheap Hparent; [lia|].
  assert (Hother : forall k, (i0 <= k <= n)%nat -> k <> i -> heap_at v a pl n k).
  { intros k Hk Nk. apply Hheap; [exact Hk|].
    destruct (decide (k = i0)); [right; congruence | left; assumption]. }
  cbn [Numpy.sift]. destruct (j <=? n)%nat eqn:Ejn.
  - apply Nat.leb_le in Ejn.
    set (j' := if (j <? n)%nat && (H a j <? H a (S j))%Z then S j else j).
    assert (Hj' : (j' = 2 * i \/ j' = 2 * i + 1)%nat /\ (j' <= n)%nat /\
                  (H a j <= H a j')%Z /\ ((S j <= n)%nat -> (H a (S j) <= H a j')%Z)).
    { unfold j'. destruct ((j <? n)%nat && (H a j <? H a (S j))%Z) eqn:E.
      - apply andb_prop in E as [E1 E2]. apply Nat.ltb_lt in E1. apply Z.ltb_lt in E2.
        repeat split; try lia.
      - split; [lia|]. split; [lia|]. split; [lia|]. intros Hs.
        apply andb_false_iff in E as [E|E].
        + apply Nat.ltb_ge in E. lia.
        + apply Z.ltb_ge in E. exact E. }
    destruct Hj' as (Hj'1 & Hj'2 & Hj'3 & Hj'4).
    assert (Hlarger : forall c, (c = 2 * i \/ c = 2 * i + 1)%nat -> (c <= n)%nat ->
                        (H a c <= H a j')%Z).
    { intros c [-> | ->] Hc.
      - rewrite <- Hj. exact Hj'3.
      - replace (2 * i + 1)%nat with (S j) in * by lia. apply Hj'4. exact Hc. }
    clearbody j'.
    destruct (nth tmp v 0 <? H a j')%Z eqn:Elt.
    + apply Z.ltb_lt in Elt.
      set (a1 := <[pos i := a !!! pos j']> a).
      assert (La1 : length a1 = length a) by apply length_insert.
      assert (Ka1 : forall k, (1 <= k)%nat -> k <> i -> H a1 k = H a k).
      { intros k Hk Nk. apply heap_key_insert_ne; lia. }
      assert (Ka1i : H a1 i = H a j').
      { unfold Numpy.heap_key, Numpy.key, a1.
        rewrite list_lookup_total_insert_eq by lia. reflexivity. }
      assert (Hdiv : (j' / 2 = i)%nat) by (apply half_child; exact Hj'1).
      destruct (IH a1 j' (j' + j')%nat) as (a' & i' & Hrun & Hi' & Hlen' & Hre & Hhp);
        try lia.
      * intros k Hk _ c Hc Hcn.
        destruct (decide (k = i)) as [->|Nk].
        -- rewrite Ka1i. rewrite Ka1 by lia. apply Hlarger; assumption.
        -- rewrite (Ka1 k) by lia.
           destruct (decide (c = i)) as [->|Nc].
           ++ rewrite Ka1i.
              assert (Ni0 : i <> i0) by lia.
              etransitivity; [apply (Hheap i ltac:(lia) (or_intror Ni0) j' Hj'1 Hj'2)|].
              apply (Hother k Hk Nk i Hc Hcn).
           ++ rewrite Ka1 by lia. apply (Hother k Hk Nk c Hc Hcn).
      * intros _. rewrite Hdiv. split; [lia|]. rewrite Ka1i. exact Elt.
      * exists a', i'. split; [exact Hrun|]. split; [lia|]. split; [lia|].
        split; [|exact Hhp].
        eapply rearranged_trans; [|exact Hre].
        apply rearranged_exchange with (i := pos i) (j := pos j'); try lia.
        -- rewrite !length_insert. exact La1.
        -- rewrite list_lookup_total_insert_ne by lia.
           unfold a1. rewrite list_lookup_total_insert_eq by lia.
           rewrite list_lookup_total_insert_ne by lia. reflexivity.
        -- rewrite list_lookup_total_insert_eq by (rewrite La1; lia).
           rewrite list_lookup_total_insert_eq by lia. reflexivity.
        -- intros x N1 N2. rewrite !list_lookup_total_insert_ne by lia.
           unfold a1. rewrite list_lookup_total_insert_ne by lia. reflexivity.
    + apply Z.ltb_ge in Elt. exists a, i. split; [reflexivity|]. split; [lia|].
      split; [reflexivity|]. split; [apply rearranged_refl|].
      apply fill_hole; try assumption.
      intros c Hc Hcn. etransitivity; [apply Hlarger; assumption | exact Elt].
  - apply Nat.leb_gt in Ejn. exists a, i. split; [reflexivity|]. split; [lia|].
    split; [reflexivity|]. split; [apply rearranged_refl|].
    apply fill_hole; try assumption.
    intros c Hc Hcn. lia.
Qed.

Lemma sift_from_spec (a : list nat) (tmp i : nat) :
  (1 <= i <= n)%nat -> (pl + n <= length a)%nat ->
  (forall k, (i < k <= n)%nat -> heap_at v a pl n k) ->
  let b := Numpy.sift_from Z.ltb 0%Z v a pl tmp i n in
  rearranged (pos i) (pos n) (<[pos i := tmp]> a) b /\
  (forall k, (i <= k <= n)%nat -> heap_at v b pl n k).
Proof.
  intros Hi Hlen Hheap b. unfold b, Numpy.sift_from.
  destruct (sift_spec tmp i (length a) a i (2 * i)%nat)
    as (a' & i' & Hrun & Hi' & Hlen' & Hre & Hhp); try lia.
  - intros k Hk [N|N]; [|congruence]. apply Hheap. lia.
  - rewrite Hrun. split; assumption.
Qed.

Lemma heapify_spec (l : nat) :
  forall a : list nat,
    (l <= n)%nat -> (pl + n <= length a)%nat ->
    (forall k, (l < k <= n)%nat -> heap_at v a pl n k) ->
    let b := Numpy.heapify Z.ltb 0%Z v l a pl n in
    rearranged (pos 1) (pos n) a b /\
    (forall k, (1 <= k <= n)%nat -> heap_at v b pl n k).
Proof.
  induction l as [|l IH]; intros a Hl Hlen Hheap b.
  - unfold b. cbn [Numpy.heapify]. split; [apply rearranged_refl|].
    intros k Hk. apply Hheap. lia.
  - unfold b. cbn [Numpy.heapify].
    destruct (sift_from_spec a (a !!! pos (S l)) (S l)) as [Hre Hhp]; try lia.
    + intros k Hk. apply Hheap. lia.
    + rewrite list_insert_id in Hre by (apply list_lookup_lookup_total_lt; lia).
      set (a1 := Numpy.sift_from Z.ltb 0%Z v a pl (a !!! (pl + S l - 1)%nat) (S l) n) in *.
      assert (La1 : length a1 = length a) by (destruct Hre as [E _]; exact E).
      destruct (IH a1) as [Hre' Hhp']; try lia.
      * intros k Hk. apply Hhp. lia.
      * split; [|exact Hhp'].
        eapply rearranged_trans; [|exact Hre'].
        eapply rearranged_widen; [| |exact Hre]; lia.
Qed.

(** The root of a heap holds the largest key. *)
Lemma heap_root_max (a : list nat) (m : nat) :
  (forall k, (1 <= k <= m)%nat -> heap_at v a pl m k) ->
  forall k, (1 <= k <= m)%nat -> (H a k <= H a 1%nat)%Z.
Proof.
  intros Hheap k. induction k as [k IH] using lt_wf_ind. intros Hk.
  destruct (decide (k = 1)) as [->|N]; [lia|].
  assert (Hp : (1 <= k / 2 < k)%nat).
  { split; [apply Nat.div_le_lower_bound; lia | apply Nat.div_lt; lia]. }
  etransitivity; [|apply (IH (k / 2)%nat); lia].
  apply (Hheap (k / 2)%nat); [lia| |lia].
  pose proof (Nat.div_mod_eq k 2). pose proof (Nat.mod_upper_bound k 2). lia.
Qed.

End Heap.

Lemma extract_spec (pl N : nat) (n : nat) :
  forall a : list nat,
    (n <= N)%nat -> (pl + N <= length a)%nat ->
    (forall k, (1 <= k <= n)%nat -> heap_at v a pl n k) ->
    sorted_range v a (pl + n) (pl + N - 1) ->
    (forall k x, (1 <= k <= n)%nat -> (pl + n <= x <= pl + N - 1)%nat ->
       (Numpy.heap_key 0%Z v a pl k <= key a x)%Z) ->
    let b := Numpy.extract Z.ltb 0%Z v n a pl in
    rearranged pl (pl + N - 1) a b /\ sorted_range v b pl (pl + N - 1).
Proof.
  induction n as [|n' IH]; intros a Hn Hlen Hheap Hsorted Hless b.
  - unfold b. cbn [Numpy.extract]. split; [apply rearranged_refl|].
    replace (pl + 0)%nat with pl in Hsorted by lia. exact Hsorted.
  - unfold b. cbn [Numpy.extract]. destruct n' as [|m].
    + split; [apply rearranged_refl|].
      intros x y Hx Hxy Hy.
      destruct (decide (x = y)) as [->|Nxy]; [lia|].
      destruct (decide (x = pl)) as [->|Nx].
      * specialize (Hless 1%nat y ltac:(lia) ltac:(lia)).
        unfold Numpy.heap_key in Hless. replace (pl + 1 - 1)%nat with pl in Hless by lia.
        exact Hless.
      * apply Hsorted; lia.
    + set (n' := S m) in *. set (n := S n') in *.
      set (tmp := a !!! (pl + n - 1)%nat).
      set (a1 := <[(pl + n - 1)%nat := a !!! pl]> a).
      assert (La1 : length a1 = length a) by apply length_insert.
      assert (Ka1 : forall x, x <> (pl + n - 1)%nat -> a1 !!! x = a !!! x).
      { intros x Nx. apply list_lookup_total_insert_ne. congruence. }
      assert (Ka1n : a1 !!! (pl + n - 1)%nat = a !!! pl).
      { apply list_lookup_total_insert_eq. lia. }
      destruct (sift_from_spec pl n' a1 tmp 1) as [Hre Hhp]; [lia | lia | |].
      { intros k Hk c Hc Hcn. unfold Numpy.heap_key.
        rewrite (key_eq a1 a (pl + c - 1) (pl + c - 1)) by (apply Ka1; lia).
        rewrite (key_eq a1 a (pl + k - 1) (pl + k - 1)) by (apply Ka1; lia).
        apply (Hheap k ltac:(lia) c Hc ltac:(lia)). }
      set (b1 := Numpy.sift_from Z.ltb 0%Z v a1 pl tmp 1 n') in *.
      replace (pl + 1 - 1)%nat with pl in Hre by lia.
      set (V := <[pl := tmp]> a1) in *.
      assert (LV : length V = length a) by (unfold V; rewrite length_insert; exact La1).
      assert (KVpl : V !!! pl = a !!! (pl + n - 1)%nat).
      { unfold V. apply list_lookup_total_insert_eq. lia. }
      assert (KVn : V !!! (pl + n - 1)%nat = a !!! pl).
      { unfold V. rewrite list_lookup_total_insert_ne by lia. exact Ka1n. }
      assert (KV : forall x, x <> pl -> x <> (pl + n - 1)%nat -> V !!! x = a !!! x).
      { intros x N1 N2. unfold V. rewrite list_lookup_total_insert_ne by lia.
        apply Ka1. exact N2. }
      assert (RV : rearranged pl (pl + N - 1) a V).
      { apply rearranged_exchange with (i := pl) (j := (pl + n - 1)%nat);
          try lia; assumption. }
      destruct Hre as (Lb1 & Ob1 & Fb1 & Bb1).
      assert (Rb1 : rearranged pl (pl + N - 1) V b1).
      { eapply rearranged_widen with (l := pl) (r := (pl + n' - 1)%nat); [lia | lia |].
        repeat split; assumption. }
      assert (Hroot : forall k, (1 <= k <= n)%nat ->
                (Numpy.heap_key 0%Z v a pl k <= key a pl)%Z).
      { intros k Hk. pose proof (heap_root_max pl a n Hheap k Hk) as Hm.
        unfold Numpy.heap_key in Hm at 2. replace (pl + 1 - 1)%nat with pl in Hm by lia.
        exact Hm. }
      assert (Hfrom : forall y, (pl <= y <= pl + n' - 1)%nat ->
                exists k, (1 <= k <= n)%nat /\ key b1 y = Numpy.heap_key 0%Z v a pl k).
      { intros y Hy. destruct (Fb1 y Hy) as (y' & Hy' & E).
        destruct (decide (y' = pl)) as [->|Ny'].
        - exists n. split; [lia|]. unfold Numpy.heap_key. apply key_eq. congruence.
        - exists (y' - pl + 1)%nat. split; [lia|]. unfold Numpy.heap_key. apply key_eq.
          rewrite E, KV by lia. f_equal. lia. }
      assert (Kb1n : key b1 (pl + n')%nat = key a pl).
      { apply key_eq. rewrite Ob1 by lia. replace (pl + n')%nat with (pl + n - 1)%nat by lia.
        exact KVn. }
      assert (Kb1x : forall x, (pl + n <= x)%nat -> key b1 x = key a x).
      { intros x Hx. apply key_eq. rewrite Ob1 by lia. apply KV; lia. }
      destruct (IH b1) as [Hre' Hso']; try lia.
      * exact Hhp.
      * intros x y Hx Hxy Hy.
        destruct (decide (x = y)) as [->|Nxy]; [lia|].
        rewrite (Kb1x y) by lia.
        destruct (decide (x = (pl + n')%nat)) as [->|Nx].
        -- rewrite Kb1n. specialize (Hless 1%nat y ltac:(lia) ltac:(lia)).
           unfold Numpy.heap_key in Hless. replace (pl + 1 - 1)%nat with pl in Hless by lia.
           exact Hless.
        -- rewrite (Kb1x x) by lia. apply Hsorted; lia.
      * intros k x Hk Hx. unfold Numpy.heap_key.
        destruct (Hfrom (pl + k - 1)%nat ltac:(lia)) as (k' & Hk' & E). rewrite E.
        destruct (decide (x = (pl + n')%nat)) as [->|Nx].
        -- rewrite Kb1n. apply Hroot. exact Hk'.
        -- rewrite Kb1x by lia. apply Hless; lia.
      * split; [|exact Hso'].
        eapply rearranged_trans; [exact RV|]. eapply rearranged_trans; [exact Rb1|].
        exact Hre'.
Qed.

Lemma heapsort_spec (a : list nat) (pl n : nat) :
  (1 <= n)%nat -> (pl + n <= length a)%nat ->
  let b := Numpy.heapsort Z.ltb 0%Z v a pl n in
  rearranged pl (pl + n - 1) a b /\ sorted_range v b pl (pl + n - 1).
Proof.
  intros Hn Hlen b. unfold b, Numpy.heapsort.
  assert (Hhalf : (n / 2 <= n)%nat /\ (n < 2 * (n / 2 + 1))%nat).
  { pose proof (Nat.div_mod_eq n 2). pose proof (Nat.mod_upper_bound n 2). lia. }
  destruct (heapify_spec pl n (n / 2) a) as [Hre Hhp]; [lia | lia | |].
  { intros k Hk c Hc Hcn. lia. }
  set (a1 := Numpy.heapify Z.ltb 0%Z v (n / 2) a pl n) in *.
  assert (La1 : length a1 = length a) by (destruct Hre as [E _]; exact E).
  assert (S1 : sorted_range v a1 (pl + n) (pl + n - 1)) by (intros x y Hx Hxy Hy; lia).
  assert (S2 : forall k x, (1 <= k <= n)%nat -> (pl + n <= x <= pl + n - 1)%nat ->
                 (Numpy.heap_key 0%Z v a1 pl k <= key a1 x)%Z) by (intros; lia).
  destruct (extract_spec pl n n a1 ltac:(lia) ltac:(lia) Hhp S1 S2) as [Hre' Hso].
  split; [|exact Hso].
  eapply rearranged_trans; [|exact Hre'].
  eapply rearranged_widen; [| |exact Hre]; lia.
Qed.

(** *** The loop over the pending ranges *)

(** An element of a rearranged range has the key of an element that was
    in the range. *)
Lemma rearranged_key (l r : nat) (a b : list nat) (y : nat) :
  rearranged l r a b -> (l <= y <= r)%nat ->
  exists y', (l <= y' <= r)%nat /\ key b y = key a y'.
Proof.
  intros (_ & _ & F & _) Hy. destruct (F y Hy) as (y' & Hy' & E).
  exists y'. split; [exact Hy' | apply key_eq, E].
Qed.

Lemma rearranged_key_outside (l r : nat) (a b : list nat) (x : nat) :
  rearranged l r a b -> (x < l \/ r < x)%nat -> key b x = key a x.
Proof. intros (_ & O & _) Hx. apply key_eq, O, Hx. Qed.

(** Keys across the border of a pending range are in order, and stay so
    when the range is rearranged. *)
Lemma pending_border (a : list nat) (l r : nat) (R : list (nat * nat)) (x y : nat) :
  pending_ok v a ((l, r) :: R) ->
  (x < y)%nat -> (y < length a)%nat ->
  ((x < l)%nat /\ (l <= y <= r)%nat) \/ ((l <= x <= r)%nat /\ (r < y)%nat) ->
  (key a x <= key a y)%Z.
Proof.
  intros (W & [D _] & O) Hxy Hy Hside.
  destruct (O x y Hxy Hy) as [Hle|Hex]; [exact Hle|].
  apply Exists_cons in Hex as [[H1 H2]|Hex]; [simpl in *; lia|].
  apply Exists_exists in Hex as (p & Hp & H1 & H2).
  rewrite Forall_forall in D. specialize (D p Hp).
  unfold apart in D. simpl in D. lia.
Qed.

(** A pending range that has been sorted is no longer pending. *)
Lemma pending_sorted (a b : list nat) (l r : nat) (R : list (nat * nat)) :
  pending_ok v a ((l, r) :: R) ->
  rearranged l r a b -> sorted_range v b l r ->
  pending_ok v b R.
Proof.
  intros Hp Hre Hso. pose proof Hp as (W & [D1 D2] & O).
  assert (Hlen : length b = length a) by (destruct Hre as [E _]; exact E).
  apply Forall_cons in W as [Wlr W]. simpl in Wlr.
  split; [|split].
  - rewrite Hlen. exact W.
  - exact D2.
  - intros x y Hxy Hy. rewrite Hlen in Hy.
    destruct (decide (l <= x <= r)%nat) as [Hx|Hx];
      destruct (decide (l <= y <= r)%nat) as [Hy'|Hy'].
    + left. apply Hso; lia.
    + left. destruct (rearranged_key l r a b x Hre Hx) as (x' & Hx' & ->).
      rewrite (rearranged_key_outside l r a b y Hre) by lia.
      apply (pending_border a l r R x' y Hp); lia.
    + left. destruct (rearranged_key l r a b y Hre Hy') as (y' & Hy'' & ->).
      rewrite (rearranged_key_outside l r a b x Hre) by lia.
      apply (pending_border a l r R x y' Hp); lia.
    + rewrite (rearranged_key_outside l r a b x Hre) by lia.
      rewrite (rearranged_key_outside l r a b y Hre) by lia.
      destruct (O x y Hxy Hy) as [Hle|Hex]; [left; exact Hle|].
      apply Exists_cons in Hex as [[H1 H2]|Hex]; [simpl in *; lia|].
      right. exact Hex.
Qed.

(** A pending range that has been partitioned leaves its two sides pending. *)
Lemma pending_split (a b : list nat) (l r pi : nat) (R : list (nat * nat)) :
  pending_ok v a ((l, r) :: R) ->
  rearranged l r a b -> (l < pi < r)%nat ->
  (forall x, (l <= x < pi)%nat -> (key b x <= key b pi)%Z) ->
  (forall y, (pi < y <= r)%nat -> (key b pi <= key b y)%Z) ->
  pending_ok v b ((l, (pi - 1)%nat) :: (S pi, r) :: R).
Proof.
  intros Hp Hre Hpi Hlow Hhigh. pose proof Hp as (W & [D1 D2] & O).
  assert (Hlen : length b = length a) by (destruct Hre as [E _]; exact E).
  apply Forall_cons in W as [Wlr W]. simpl in Wlr.
  split; [|split].
  - rewrite Hlen. repeat (apply Forall_cons; split); simpl; try lia. exact W.
  - simpl. split; [|split; [|exact D2]].
    + apply Forall_cons. split; [left; simpl; lia|].
      eapply Forall_impl; [exact D1|]. intros p Hap. unfold apart in *. simpl in *. lia.
    + eapply Forall_impl; [exact D1|]. intros p Hap. unfold apart in *. simpl in *. lia.
  - intros x y Hxy Hy. rewrite Hlen in Hy.
    destruct (decide (l <= x <= r)%nat) as [Hx|Hx];
      destruct (decide (l <= y <= r)%nat) as [Hy'|Hy'].
    + destruct (decide (y < pi)%nat).
      { right. apply Exists_cons_hd. simpl. lia. }
      destruct (decide (pi < x)%nat).
      { right. apply Exists_cons_tl, Exists_cons_hd. simpl. lia. }
      left. destruct (decide (x = pi)) as [->|Nx]; [apply Hhigh; lia|].
      destruct (decide (y = pi)) as [->|Ny]; [apply Hlow; lia|].
      etransitivity; [apply Hlow | apply Hhigh]; lia.
    + left. destruct (rearranged_key l r a b x Hre Hx) as (x' & Hx' & ->).
      rewrite (rearranged_key_outside l r a b y Hre) by lia.
      apply (pending_border a l r R x' y Hp); lia.
    + left. destruct (rearranged_key l r a b y Hre Hy') as (y' & Hy'' & ->).
      rewrite (rearranged_key_outside l r a b x Hre) by lia.
      apply (pending_border a l r R x y' Hp); lia.
    + rewrite (rearranged_key_outside l r a b x Hre) by lia.
      rewrite (rearranged_key_outside l r a b y Hre) by lia.
      destruct (O x y Hxy Hy) as [Hle|Hex]; [left; exact Hle|].
      apply Exists_cons in Hex as [[H1 H2]|Hex]; [simpl in *; lia|].
      right. apply Exists_cons_tl, Exists_cons_tl. exact Hex.
Qed.

(** The order in which the pending ranges are listed does not matter. *)
Lemma pending_swap (a : list nat) (p q : nat * nat) (R : list (nat * nat)) :
  pending_ok v a (p :: q :: R) -> pending_ok v a (q :: p :: R).
Proof.
  intros (W & (D1 & D2 & D3) & O).
  apply Forall_cons in W as [Wp W]. apply Forall_cons in W as [Wq W].
  apply Forall_cons in D1 as [Dpq D1].
  split; [|split].
  - repeat (apply Forall_cons; split); assumption.
  - simpl. split; [|split; assumption].
    apply Forall_cons. split; [|exact D2]. unfold apart in *. lia.
  - intros x y Hxy Hy. destruct (O x y Hxy Hy) as [Hle|Hex]; [left; exact Hle|].
    right. apply Exists_cons in Hex as [H|Hex]; [apply Exists_cons_tl, Exists_cons_hd, H|].
    apply Exists_cons in Hex as [H|Hex]; [apply Exists_cons_hd, H|].
    apply Exists_cons_tl, Exists_cons_tl, Hex.
Qed.

Lemma quick_loop_spec (fuel : nat) :
  forall (a : list nat) (pl pr : nat) (cdepth : Z) (stack : list (nat * nat * Z)),
    pending_ok v a ((pl, pr) :: map fst stack) ->
    exists a' pl' pr' stack',
      Numpy.quick_loop Z.ltb 0%Z v fuel a pl pr cdepth stack = (a', pl', pr', stack') /\
      pending_ok v a' ((pl', pr') :: map fst stack') /\
      rearranged 0 (length a - 1) a a' /\
      (weight ((pl', pr') :: map fst stack') <= weight ((pl, pr) :: map fst stack))%nat.
Proof.
  induction fuel as [|fuel IH]; intros a pl pr cdepth stack Hp.
  - exists a, pl, pr, stack. split; [reflexivity|]. split; [exact Hp|].
    split; [apply rearranged_refl | lia].
  - cbn [Numpy.quick_loop]. destruct (15 <? pr - pl)%nat eqn:E.
    + apply Nat.ltb_lt in E.
      assert (Hr : (pr < length a)%nat).
      { destruct Hp as (W & _). apply Forall_cons in W as [W _]. simpl in W. lia. }
      destruct (partition_spec a pl pr E Hr) as (a1 & pi & Hrun & Hpi & Hre & Hlow & Hhigh).
      rewrite Hrun.
      assert (Hlen : length a1 = length a) by (destruct Hre as [H _]; exact H).
      pose proof (pending_split a a1 pl pr pi (map fst stack) Hp Hre Hpi Hlow Hhigh) as Hp1.
      destruct (pi - pl <? pr - pi)%nat.
      * destruct (IH a1 pl (pi - 1)%nat (cdepth - 1)%Z ((S pi, pr, (cdepth - 1)%Z) :: stack))
          as (a' & pl' & pr' & stack' & Hrun' & Hp' & Hre' & Hw); [exact Hp1|].
        exists a', pl', pr', stack'. split; [exact Hrun'|]. split; [exact Hp'|]. split.
        -- eapply rearranged_trans; [eapply rearranged_widen; [| |exact Hre]; lia|].
           rewrite <- Hlen. exact Hre'.
        -- cbn [map fst weight snd] in *. lia.
      * destruct (IH a1 (S pi) pr (cdepth - 1)%Z ((pl, (pi - 1)%nat, (cdepth - 1)%Z) :: stack))
          as (a' & pl' & pr' & stack' & Hrun' & Hp' & Hre' & Hw);
          [apply pending_swap; exact Hp1|].
        exists a', pl', pr', stack'. split; [exact Hrun'|]. split; [exact Hp'|]. split.
        -- eapply rearranged_trans; [eapply rearranged_widen; [| |exact Hre]; lia|].
           rewrite <- Hlen. exact Hre'.
        -- cbn [map fst weight snd] in *. lia.
    + exists a, pl, pr, stack. split; [reflexivity|]. split; [exact Hp|].
      split; [apply rearranged_refl | lia].
Qed.

Lemma sort_loop_spec (fuel : nat) :
  forall (a : list nat) (pl pr : nat) (cdepth : Z) (stack : list (nat * nat * Z)),
    pending_ok v a ((pl, pr) :: map fst stack) ->
    (weight ((pl, pr) :: map fst stack) <= fuel)%nat ->
    let b := Numpy.sort_loop Z.ltb 0%Z v fuel a pl pr cdepth stack in
    rearranged 0 (length a - 1) a b /\ pending_ok v b [].
Proof.
  induction fuel as [|fuel IH]; intros a pl pr cdepth stack Hp Hw b.
  - cbn [weight] in Hw. lia.
  - unfold b. cbn [Numpy.sort_loop].
    assert (Hstep : exists a1 stack1,
              (if (cdepth <? 0)%Z
               then (Numpy.heapsort Z.ltb 0%Z v a pl (pr - pl + 1), stack)
               else let '(a0, pl0, pr0, stack0) :=
                      Numpy.quick_loop Z.ltb 0%Z v (length a) a pl pr cdepth stack in
                    (Numpy.insertion_sort Z.ltb 0%Z v a0 pl0 pr0, stack0)) = (a1, stack1) /\
              pending_ok v a1 (map fst stack1) /\
              rearranged 0 (length a - 1) a a1 /\
              (weight (map fst stack1) <= fuel)%nat).
    { assert (Hr : (pl <= pr < length a)%nat).
      { destruct Hp as (W & _). apply Forall_cons in W as [W _]. exact W. }
      destruct (cdepth <? 0)%Z.
      - destruct (heapsort_spec a pl (pr - pl + 1)) as [Hre Hso]; [lia | lia |].
        replace (pl + (pr - pl + 1) - 1)%nat with pr in * by lia.
        eexists _, _. split; [reflexivity|]. split; [|split].
        + eapply pending_sorted; eassumption.
        + eapply rearranged_widen; [| |exact Hre]; lia.
        + cbn [weight fst snd] in Hw. lia.
      - destruct (quick_loop_spec (length a) a pl pr cdepth stack Hp)
          as (a1 & pl1 & pr1 & stack1 & Hrun & Hp1 & Hre1 & Hw1).
        rewrite Hrun.
        assert (Hlen : length a1 = length a) by (destruct Hre1 as [H _]; exact H).
        assert (Hr1 : (pl1 <= pr1 < length a1)%nat).
        { destruct Hp1 as (W & _). apply Forall_cons in W as [W _]. exact W. }
        destruct (insertion_sort_spec a1 pl1 pr1) as [Hre Hso]; [lia | lia |].
        eexists _, _. split; [reflexivity|]. split; [|split].
        + eapply pending_sorted; eassumption.
        + eapply rearranged_trans; [exact Hre1|].
          rewrite <- Hlen. eapply rearranged_widen; [| |exact Hre]; lia.
        + cbn [weight fst snd] in Hw, Hw1. lia. }
    destruct Hstep as (a1 & stack1 & -> & Hp1 & Hre1 & Hw1).
    assert (Hlen : length a1 = length a) by (destruct Hre1 as [H _]; exact H).
    destruct stack1 as [|[[pl1 pr1] cd1] stack1].
    + split; assumption.
    + destruct (IH a1 pl1 pr1 cd1 stack1 Hp1 Hw1) as [Hre Hfin].
      split; [|exact Hfin].
      eapply rearranged_trans; [exact Hre1|]. rewrite <- Hlen. exact Hre.
Qed.

Lemma nondecreasing_adjacent (l : list Z) :
  (forall x, (S x < length l)%nat -> (nth x l 0 <= nth (S x) l 0)%Z) ->
  nondecreasing l = true.
Proof.
  induction l as [|a [|b l] IH]; intros H; [reflexivity | reflexivity |].
  cbn [nondecreasing]. apply andb_true_intro. split.
  - apply Z.leb_le. apply (H 0%nat). simpl. lia.
  - apply IH. intros x Hx. apply (H (S x)). simpl in *. lia.
Qed.

Lemma key_nth (a : list nat) (x : nat) :
  (x < length a)%nat -> nth x (map (fun i => nth i v 0%Z) a) 0%Z = key a x.
Proof.
  intros Hx. unfold Numpy.key.
  rewrite (nth_indep _ 0%Z (nth 0%nat v 0%Z)) by (rewrite length_map; exact Hx).
  rewrite (map_nth (fun i => nth i v 0%Z) a 0%nat x). f_equal.
  rewrite list_lookup_total_alt, nth_lookup. reflexivity.
Qed.

(** numpy's [argsort(kind="quicksort")] returns every position once, in an
    order that makes the keys non-decreasing. *)
Lemma argsort_sorts_keys : sorts (Numpy.argsort Z.ltb 0%Z) v = true.
Proof.
  destruct (decide (length v = 0%nat)) as [E|E].
  { destruct v; [reflexivity | discriminate]. }
  unfold sorts, Numpy.argsort.
  set (n := length v) in *. clearbody n.
  set (depth := (2 * Z.log2 (Z.of_nat n))%Z). clearbody depth.
  assert (Hp : pending_ok v (seq 0 n)
                 ((0%nat, (n - 1)%nat) :: map fst ([] : list (nat * nat * Z)))).
  { split; [|split].
    - apply Forall_cons. split; [simpl; rewrite length_seq; lia | constructor].
    - simpl. split; [constructor | exact I].
    - intros x y Hxy Hy. right. apply Exists_cons_hd. simpl.
      rewrite length_seq in Hy. lia. }
  destruct (sort_loop_spec (S n) (seq 0 n) 0 (n - 1) depth [] Hp) as [Hre Hfin].
  { cbn [map weight fst snd]. lia. }
  set (b := Numpy.sort_loop Z.ltb 0%Z v (S n) (seq 0 n) 0 (n - 1) depth []) in *.
  rewrite length_seq in Hre.
  destruct Hre as (Hlen & _ & _ & Hback). rewrite length_seq in Hlen.
  destruct Hfin as (_ & _ & Hord).
  apply andb_true_intro. split; [apply andb_true_intro; split|].
  - apply Nat.eqb_eq. exact Hlen.
  - apply forallb_forall. intros i Hi. apply in_seq in Hi.
    destruct (Hback i ltac:(lia)) as (y & Hy & Ey).
    apply existsb_exists. exists i. split; [|apply Nat.eqb_refl].
    assert (Hseq : seq 0 n !!! i = i).
    { rewrite list_lookup_total_alt, <- nth_lookup. rewrite seq_nth by lia. reflexivity. }
    rewrite Hseq in Ey. rewrite <- Ey.
    rewrite list_lookup_total_alt, <- nth_lookup. apply nth_In. lia.
  - apply nondecreasing_adjacent. intros x Hx. rewrite length_map in Hx.
    rewrite !key_nth by lia.
    destruct (Hord x (S x) ltac:(lia) ltac:(lia)) as [Hle|Hex]; [exact Hle|].
    inversion Hex.
Qed.

End NumpySorts.

(** ** The chart's rows, sorted by time *)

Section Sort.

Context (L : library).

(** Sorting the parsed frame rearranges its rows as the sort routine says. *)
Lemma sorted_frame_parsed (times : list Z) (rs : list row) :
  length times = length rs ->
  sorts (argsort_datetime L) times = true ->
  sorted_frame L (mk_frame schema (parsed_rows times rs)) =
    Ok (mk_frame schema
          (map (fun k => nth k (parsed_rows times rs) (mk_row CNone CNone))
               (argsort_datetime L times))).
Proof.
  intros Hlen Hs. unfold sorted_frame, getitem. cbn [columns rows].
  rewrite bool_decide_eq_true_2 by constructor. cbn [String.eqb Ascii.eqb Bool.eqb and_then].
  rewrite date_time_parsed_rows by exact Hlen.
  unfold nargsort.
  rewrite filter_present, datetime_values_times, positions_present, positions_missing.
  cbn [and_then]. pose proof (sorts_in_range _ _ Hs) as Hr.
  rewrite take_at_seq by exact Hr. cbn [and_then]. rewrite app_nil_r.
  rewrite (take_at_nth _ (mk_row CNone CNone))
    by (rewrite length_parsed_rows by exact Hlen; exact Hr).
  reflexivity.
Qed.

End Sort.

Section Plot.

Context (L : library).

(** The frame the chart is drawn from, when every date-time parses and
    the rows are to be sorted: a new object holding the parsed rows in the
    order the sort routine returned. *)
Lemma plot_frame_sorted (i : interaction) (s : state) (rs : list row) (times : list Z) :
  table s = Some (mk_frame schema rs) ->
  rs <> [] ->
  sort_by_time i = true ->
  Forall2 (fun r t => parsed L (date_time r) t) rs times ->
  sorts (argsort_datetime L) times = true ->
  exists df_plot s',
    plot_frame L i s = (Ok (Some df_plot), s') /\
    page s' = page s /\
    heap s' !! df_plot =
      Some (mk_frame schema
              (map (fun k => nth k (parsed_rows times rs) (mk_row CNone CNone))
                   (argsort_datetime L times))).
Proof.
  intros HT Hrs Hsort Hp Hs.
  apply table_lookup in HT as (l & Hl & Hh).
  assert (Hlen : length times = length rs) by (symmetry; eapply Forall2_length; eauto).
  assert (E : empty (mk_frame schema rs) = false) by (destruct rs; [contradiction | reflexivity]).
  unfold plot_frame, copy, sort_values, setitem_date_time. run_script.
  rewrite Hl. simpl. rewrite Hh. simpl. rewrite lookup_insert_eq. simpl.
  rewrite E. unfold try_except. simpl. rewrite lookup_insert_eq. simpl.
  rewrite (to_datetime_parsed L rs times Hp). simpl.
  rewrite lookup_insert_eq. simpl.
  rewrite length_map, Hlen, Nat.eqb_refl. simpl.
  rewrite Hsort. simpl. rewrite lookup_insert_eq. simpl.
  rewrite zip_with_parsed.
  rewrite (sorted_frame_parsed L times rs Hlen Hs). simpl.
  eexists _, _. split; [reflexivity|]. split; [reflexivity|].
  simpl. apply lookup_insert_eq.
Qed.

(** Drawing the chart from a frame plotly accepts. *)
Lemma build_chart_run (i : interaction) (s : state) (l : loc) (rs : list row) :
  heap s !! l = Some (mk_frame schema rs) ->
  px_error L (chart_type i) (mk_frame schema rs) = None ->
  exec (build_chart L i l) s =
    added s [PlotlyChart (mk_figure (chart_type i) (markers_of i)
                            (map date_time rs) (map power rs))].
Proof.
  intros Hh Hpx. unfold build_chart, try_except, exec. run_script. rewrite Hh. simpl.
  unfold markers_of, px_line, px_scatter, px_bar, px.
  destruct (chart_type i); rewrite Hpx; reflexivity.
Qed.

End Plot.

(** C3, as the code has it: when every Date Time cell parses and "Sort by
    Date Time" is on, the chart is drawn from the table's rows (with their
    date-times parsed), rearranged into non-decreasing order of date-time,
    for every sort routine that does what numpy promises of [argsort] on
    these date-times: the positions, each once, in an order that sorts
    them.  numpy's quicksort, which pandas' default [kind] names, does so
    (the first part).  Nothing is promised on how rows with equal
    date-times are arranged. *)
Theorem chart_sorted_by_time (L : library) (i : interaction) (s : state)
    (T : DataFrame) (times : list Z) :
  sorts (Numpy.argsort Z.ltb 0%Z) times = true /\
  (table s = Some T ->
   rows T <> [] ->
   columns T = schema ->
   sort_by_time i = true ->
   Forall2 (fun r t => parsed L (date_time r) t) (rows T) times ->
   sorts (argsort_datetime L) times = true ->
   exists (df_plot : loc) (plotted : list row),
     result (plot_frame L i) s = Ok (Some df_plot) /\
     heap (exec (plot_frame L i) s) !! df_plot = Some (mk_frame schema plotted) /\
     Permutation plotted (parsed_rows times (rows T)) /\
     StronglySorted Z.le (map time_of plotted) /\
     (px_error L (chart_type i) (mk_frame schema plotted) = None ->
      page (exec (tab_plot L i) s) =
        page s ++ [PlotlyChart (mk_figure (chart_type i) (markers_of i)
                                  (map date_time plotted) (map power plotted))])).
Proof.
  split; [exact (argsort_sorts_keys times)|].
  intros HT Hrs Hc Hsort Hp Hs.
  destruct T as [cols rs]. simpl in Hrs, Hc, Hp. subst cols.
  destruct (plot_frame_sorted L i s rs times HT Hrs Hsort Hp Hs)
    as (df_plot & s' & Hrun & Hpage & Hheap).
  assert (Hlen : length times = length rs) by (symmetry; eapply Forall2_length; eauto).
  set (d := mk_row CNone CNone) in *.
  set (order := argsort_datetime L times) in *.
  set (plotted := map (fun k => nth k (parsed_rows times rs) d) order) in *.
  exists df_plot, plotted. unfold result, exec. rewrite Hrun. simpl.
  split; [reflexivity|]. split; [exact Hheap|]. split; [|split].
  - pose proof (sorts_permutation _ _ Hs) as Hperm. fold order in Hperm.
    apply (Permutation_map (fun k => nth k (parsed_rows times rs) d)) in Hperm.
    rewrite <- (length_parsed_rows times rs Hlen), map_nth_seq in Hperm.
    exact Hperm.
  - replace (map time_of plotted) with (map (fun k => nth k times 0%Z) order).
    + apply nondecreasing_sorted. unfold sorts in Hs.
      apply andb_prop in Hs as [_ Hs]. exact Hs.
    + unfold plotted. rewrite map_map. apply map_ext_in. intros k Hk.
      assert (Hk' : (k < length times)%nat).
      { pose proof (sorts_in_range _ _ Hs) as Hr.
        rewrite List.Forall_forall in Hr. apply Hr, Hk. }
      rewrite <- (time_of_parsed_rows times rs Hlen) at 1.
      change 0%Z with (time_of d). apply map_nth.
  - intros Hpx. unfold tab_plot, bind. rewrite Hrun.
    pose proof (build_chart_run L i s' df_plot plotted Hheap Hpx) as Hb.
    unfold exec in Hb. rewrite Hb. simpl. rewrite Hpage. reflexivity.
Qed.

Lemma chart_sorted_by_time_witness :
  let T := mk_frame schema
    [mk_row (CStr "2024-01-05 09:03:07") (CInt 50);
     mk_row (CStr "2024-01-05 09:03:02") (CInt 40);
     mk_row (CStr "2024-01-05 09:03:05") (CInt 45)] in
  let s := mk_state {[ 1%positive := T ]} {[ "df" := 1%positive ]} [] in
  let i := mk_interaction (mk_datetime 2024 1 5 9 3 7) 50 false false (fun d => d)
             Line true true "power_data.csv" in
  exists df_plot plotted,
    result (plot_frame Reference.lib i) s = Ok (Some df_plot) /\
    heap (exec (plot_frame Reference.lib i) s) !! df_plot = Some (mk_frame schema plotted) /\
    StronglySorted Z.le (map time_of plotted).
Proof.
  intros T s i.
  destruct (proj2 (chart_sorted_by_time Reference.lib i s T
              [1704445387000000000; 1704445382000000000; 1704445385000000000]%Z))
    as (df_plot & plotted & H1 & H2 & _ & H3 & _);
    [reflexivity | discriminate | reflexivity | reflexivity
    | cbv [T rows]; repeat (constructor; [vm_compute; reflexivity|]); constructor
    | vm_compute; reflexivity |].
  exists df_plot, plotted. auto.
Defined.

(** C3 as stated fails: the sort is not stable.  In this table of 18 rows
    all date-times parse, rows 8 and 9 (powers 8 and 9) have the same
    date-time, and the chart shows row 9 before row 8. *)
Lemma equal_times_reordered :
  let T := mk_frame schema
    [mk_row (CStr "2024-01-05 09:03:00") (CInt 0);
     mk_row (CStr "2024-01-05 09:03:01") (CInt 1);
     mk_row (CStr "2024-01-05 09:03:02") (CInt 2);
     mk_row (CStr "2024-01-05 09:03:03") (CInt 3);
     mk_row (CStr "2024-01-05 09:03:04") (CInt 4);
     mk_row (CStr "2024-01-05 09:03:05") (CInt 5);
     mk_row (CStr "2024-01-05 09:03:06") (CInt 6);
     mk_row (CStr "2024-01-05 09:03:07") (CInt 7);
     mk_row (CStr "2024-01-05 09:03:08") (CInt 8);
     mk_row (CStr "2024-01-05 09:03:08") (CInt 9);
     mk_row (CStr "2024-01-05 09:03:10") (CInt 10);
     mk_row (CStr "2024-01-05 09:03:11") (CInt 11);
     mk_row (CStr "2024-01-05 09:03:12") (CInt 12);
     mk_row (CStr "2024-01-05 09:03:13") (CInt 13);
     mk_row (CStr "2024-01-05 09:03:14") (CInt 14);
     mk_row (CStr "2024-01-05 09:03:15") (CInt 15);
     mk_row (CStr "2024-01-05 09:03:16") (CInt 16);
     mk_row (CStr "2024-01-05 09:03:17") (CInt 17)] in
  let s := mk_state {[ 1%positive := T ]} {[ "df" := 1%positive ]} [] in
  let i := mk_interaction (mk_datetime 2024 1 5 9 3 7) 50 false false (fun d => d)
             Line true true "power_data.csv" in
  forallb (fun r => bool_decide (is_Some (Reference.parse (date_time r)))) (rows T) = true /\
  option_map date_time (rows T !! 8%nat) = Some (CStr "2024-01-05 09:03:08") /\
  option_map date_time (rows T !! 9%nat) = Some (CStr "2024-01-05 09:03:08") /\
  map fig_y (charts (page (exec (tab_plot Reference.lib i) s))) =
    [[CInt 0; CInt 1; CInt 2; CInt 3; CInt 4; CInt 5; CInt 6; CInt 7; CInt 9; CInt 8; CInt 10; CInt 11; CInt 12; CInt 13; CInt 14; CInt 15; CInt 16; CInt 17]].
Proof. vm_compute. repeat split. Qed.

(** numpy's quicksort on any column of keys: the positions it returns are
    the positions [0 .. n-1], each once, and the keys read in that order
    never decrease. *)
Theorem numpy_argsort_sorted (v : list Z) :
  Permutation (Numpy.argsort Z.ltb 0%Z v) (seq 0 (length v)) /\
  StronglySorted Z.le (map (fun k => nth k v 0%Z) (Numpy.argsort Z.ltb 0%Z v)).
Proof.
  pose proof (argsort_sorts_keys v) as Hs. split.
  - exact (sorts_permutation _ _ Hs).
  - apply nondecreasing_sorted. unfold sorts in Hs.
    apply andb_prop in Hs as [_ Hs]. exact Hs.
Qed.

(** ** Up to 16 rows the sort keeps the order of equal keys *)

Section SmallTables.

Variable v : list Z.

Local Abbreviation key := (Numpy.key 0%Z v).

Lemma stable_sorted (a : list nat) (l r : nat) :
  stable_range v a l r -> sorted_range v a l r.
Proof.
  intros H x y Hx Hxy Hy. destruct (decide (x = y)) as [->|N]; [lia|].
  destruct (H x y) as [H1|[H1 _]]; lia.
Qed.

(** One insertion keeps equal keys in the order of their elements, when
    the element inserted is larger than those before it. *)
Lemma insert_one_stable (a : list nat) (pl pi : nat) :
  (pl < pi)%nat -> (pi < length a)%nat -> stable_range v a pl (pi - 1) ->
  (forall x, (pl <= x < pi)%nat -> (a !!! x < a !!! pi)%nat) ->
  exists a1 pj,
    Numpy.shift_up Z.ltb 0%Z v (length a) a (nth (a !!! pi) v 0%Z) pl pi = (a1, pj) /\
    stable_range v (<[pj := a !!! pi]> a1) pl pi.
Proof.
  intros Hl Hi Hstable Hnew.
  destruct (shift_up_spec v (nth (a !!! pi) v 0%Z) pl (length a) a pi)
    as (a1 & pj & Hrun & Hrange & Hlen & Hsame & Hshift & Hgt & Hstop); try lia.
  exists a1, pj. split; [exact Hrun|].
  set (F := <[pj := a !!! pi]> a1).
  assert (HF1 : forall x, (x < pj \/ pi < x)%nat -> F !!! x = a !!! x).
  { intros x Hx. unfold F. rewrite list_lookup_total_insert_ne by lia. apply Hsame. lia. }
  assert (HF2 : F !!! pj = a !!! pi).
  { unfold F. apply list_lookup_total_insert_eq. lia. }
  assert (HF3 : forall x, (pj < x <= pi)%nat -> F !!! x = a !!! (x - 1)%nat).
  { intros x Hx. unfold F. rewrite list_lookup_total_insert_ne by lia.
    replace x with (S (x - 1)) at 1 by lia. apply Hshift. lia. }
  assert (Kpj : key F pj = nth (a !!! pi) v 0%Z).
  { unfold Numpy.key. rewrite HF2. reflexivity. }
  assert (Klow : forall x, (x < pj)%nat -> key F x = key a x).
  { intros x Hx. unfold Numpy.key. rewrite HF1 by lia. reflexivity. }
  assert (Khigh : forall x, (pj < x <= pi)%nat -> key F x = key a (x - 1)).
  { intros x Hx. unfold Numpy.key. rewrite HF3 by lia. reflexivity. }
  intros x y Hx Hxy Hy.
  destruct (decide (y < pj)%nat) as [Hy1|Hy1].
  { rewrite !Klow, !HF1 by lia. apply Hstable; lia. }
  destruct (decide (y = pj)) as [->|Hy2].
  { rewrite Klow, Kpj, HF1, HF2 by lia.
    destruct Hstop as [->|Hstop]; [lia|].
    assert (Hle : (key a x <= key a (pj - 1))%Z) by (apply (stable_sorted _ _ _ Hstable); lia).
    destruct (decide (key a x < nth (a !!! pi) v 0)%Z) as [Hlt|Hge]; [left; exact Hlt|].
    right. split; [lia | apply Hnew; lia]. }
  rewrite (Khigh y), (HF3 y) by lia.
  destruct (decide (x < pj)%nat) as [Hx1|Hx1].
  { rewrite Klow, HF1 by lia. apply Hstable; lia. }
  destruct (decide (x = pj)) as [->|Hx2].
  { rewrite Kpj. left. apply Hgt. lia. }
  rewrite (Khigh x), (HF3 x) by lia. apply Hstable; lia.
Qed.

Lemma insertion_stable (pl : nat) (count : nat) :
  forall (a : list nat) (pi : nat),
    (pl < pi)%nat -> (pi + count <= length a)%nat -> stable_range v a pl (pi - 1) ->
    (forall x, (pi <= x < length a)%nat -> a !!! x = x) ->
    (forall x, (pl <= x < pi)%nat -> (a !!! x < pi)%nat) ->
    stable_range v (Numpy.insertion Z.ltb 0%Z v count a pl pi) pl (pi + count - 1).
Proof.
  induction count as [|count IH]; intros a pi Hl Hlen Hstable Hrest Hlow.
  - cbn [Numpy.insertion]. rewrite Nat.add_0_r. exact Hstable.
  - cbn [Numpy.insertion].
    assert (Epi : a !!! pi = pi) by (apply Hrest; lia).
    destruct (insert_one_stable a pl pi Hl ltac:(lia) Hstable) as (a1 & pj & Hrun & Hst).
    { intros x Hx. rewrite Epi. apply Hlow, Hx. }
    destruct (insert_one_spec v a pl pi Hl ltac:(lia) (stable_sorted _ _ _ Hstable))
      as (a1' & pj' & Hrun' & Hre & _).
    rewrite Hrun in Hrun'. injection Hrun' as <- <-.
    rewrite Hrun.
    set (F := <[pj := a !!! pi]> a1) in *.
    destruct Hre as (HFlen & Hout & Hfw & _).
    replace (pi + S count - 1)%nat with (S pi + count - 1)%nat by lia.
    apply IH.
    + lia.
    + rewrite HFlen. lia.
    + replace (S pi - 1)%nat with pi by lia. exact Hst.
    + intros x Hx. rewrite HFlen in Hx. rewrite Hout by lia. apply Hrest. lia.
    + intros x Hx. destruct (Hfw x ltac:(lia)) as (y & Hy & ->).
      destruct (decide (y = pi)) as [->|N]; [lia|].
      pose proof (Hlow y ltac:(lia)). lia.
Qed.

(** Up to 16 keys the whole sort is one insertion sort. *)
Lemma argsort_small :
  (length v <= 16)%nat ->
  Numpy.argsort Z.ltb 0%Z v =
    Numpy.insertion_sort Z.ltb 0%Z v (seq 0 (length v)) 0 (length v - 1).
Proof.
  intros Hn. unfold Numpy.argsort. cbn [Numpy.sort_loop].
  assert (Hd : (2 * Z.log2 (Z.of_nat (length v)) <? 0)%Z = false).
  { apply Z.ltb_ge. pose proof (Z.log2_nonneg (Z.of_nat (length v))). lia. }
  rewrite Hd.
  assert (Hq : forall fuel,
    Numpy.quick_loop Z.ltb 0%Z v fuel (seq 0 (length v)) 0 (length v - 1)
      (2 * Z.log2 (Z.of_nat (length v))) [] =
    (seq 0 (length v), 0%nat, (length v - 1)%nat, [])).
  { intros [|fuel]; [reflexivity|]. cbn [Numpy.quick_loop].
    replace (15 <? length v - 1 - 0)%nat with false; [reflexivity|].
    symmetry. apply Nat.ltb_ge. lia. }
  rewrite Hq. reflexivity.
Qed.

Lemma seq_lookup_total (n x : nat) : (x < n)%nat -> seq 0 n !!! x = x.
Proof.
  intros Hx. rewrite list_lookup_total_alt, <- nth_lookup.
  rewrite seq_nth by lia. reflexivity.
Qed.

Lemma argsort_small_stable :
  (length v <= 16)%nat ->
  stable_range v (Numpy.argsort Z.ltb 0%Z v) 0 (length v - 1).
Proof.
  intros Hn. rewrite (argsort_small Hn). unfold Numpy.insertion_sort.
  destruct (decide (length v = 0%nat)) as [E|E].
  { rewrite E. intros x y Hx Hxy Hy. simpl in Hy. lia. }
  rewrite Nat.sub_0_r.
  replace (length v - 1)%nat with (1 + (length v - 1) - 1)%nat at 2 by lia.
  apply insertion_stable.
  - lia.
  - rewrite length_seq. lia.
  - intros x y Hx Hxy Hy. lia.
  - intros x Hx. rewrite length_seq in Hx. apply seq_lookup_total. lia.
  - intros x Hx. rewrite seq_lookup_total by lia. lia.
Qed.

End SmallTables.

(** Up to 16 rows the chart keeps the table order of rows with equal
    date-times: when [sort_values] returns for the table's date-times what
    numpy's quicksort does (on so few keys a single insertion sort), every
    Date Time cell parses and "Sort by Date Time" is on, the chart's frame
    holds the parsed rows in an order [order] of their table positions along
    which the date-times never decrease and, where two are equal, the
    table positions increase. *)
Theorem chart_keeps_ties_up_to_16 (L : library) (i : interaction) (s : state)
    (T : DataFrame) (times : list Z) :
  argsort_datetime L times = Numpy.argsort Z.ltb 0%Z times ->
  table s = Some T ->
  rows T <> [] ->
  (length (rows T) <= 16)%nat ->
  columns T = schema ->
  sort_by_time i = true ->
  Forall2 (fun r t => parsed L (date_time r) t) (rows T) times ->
  exists (df_plot : loc) (order : list nat),
    result (plot_frame L i) s = Ok (Some df_plot) /\
    heap (exec (plot_frame L i) s) !! df_plot =
      Some (mk_frame schema
              (map (fun k => nth k (parsed_rows times (rows T)) (mk_row CNone CNone)) order)) /\
    Permutation order (seq 0 (length (rows T))) /\
    (forall x y, (x < y < length order)%nat ->
       (nth (order !!! x) times 0%Z < nth (order !!! y) times 0%Z)%Z \/
       (nth (order !!! x) times 0%Z = nth (order !!! y) times 0%Z /\
        (order !!! x < order !!! y)%nat)).
Proof.
  intros Hnp HT Hrs Hn Hc Hsort Hp.
  destruct T as [cols rs]. simpl in Hrs, Hn, Hc, Hp. subst cols.
  assert (Hlen : length times = length rs) by (symmetry; eapply Forall2_length; eauto).
  assert (Hs : sorts (argsort_datetime L) times = true).
  { unfold sorts. rewrite Hnp. exact (argsort_sorts_keys times). }
  destruct (plot_frame_sorted L i s rs times HT Hrs Hsort Hp Hs)
    as (df_plot & s' & Hrun & _ & Hheap).
  pose proof (sorts_permutation _ _ Hs) as Hperm.
  rewrite Hnp in Hheap, Hperm.
  exists df_plot, (Numpy.argsort Z.ltb 0%Z times).
  unfold result, exec. rewrite Hrun. cbn [fst snd rows].
  split; [reflexivity|]. split; [exact Hheap|].
  split; [rewrite <- Hlen; exact Hperm|].
  intros x y Hxy. apply Permutation_length in Hperm. rewrite length_seq in Hperm.
  apply (argsort_small_stable times ltac:(lia) x y); lia.
Qed.

Lemma chart_keeps_ties_up_to_16_witness :
  let T := mk_frame schema
    [mk_row (CStr "2024-01-05 09:03:07") (CInt 50);
     mk_row (CStr "2024-01-05 09:03:02") (CInt 40);
     mk_row (CStr "2024-01-05 09:03:07") (CInt 45)] in
  let s := mk_state {[ 1%positive := T ]} {[ "df" := 1%positive ]} [] in
  let i := mk_interaction (mk_datetime 2024 1 5 9 3 7) 50 false false (fun d => d)
             Line true true "power_data.csv" in
  map fig_y (charts (page (exec (tab_plot Reference.lib i) s))) = [[CInt 40; CInt 50; CInt 45]] /\
  exists df_plot order,
    result (plot_frame Reference.lib i) s = Ok (Some df_plot) /\
    Permutation order (seq 0 3).
Proof.
  intros T s i. split; [vm_compute; reflexivity|].
  destruct (chart_keeps_ties_up_to_16 Reference.lib i s T
              [1704445387000000000; 1704445382000000000; 1704445387000000000]%Z)
    as (df_plot & order & H1 & _ & H2 & _);
    [reflexivity | reflexivity | discriminate | simpl; lia | reflexivity | reflexivity
    | cbv [T rows]; repeat (constructor; [vm_compute; reflexivity|]); constructor |].
  exists df_plot, order. auto.
Defined.

(** Sixteen is the limit: in this table of 17 rows, rows 8 and 9 have the
    same date-time and the chart shows row 9 before row 8. *)
Example seventeen_rows_reordered :
  let T := mk_frame schema
    [mk_row (CStr "2024-01-05 09:03:00") (CInt 0);
     mk_row (CStr "2024-01-05 09:03:01") (CInt 1);
     mk_row (CStr "2024-01-05 09:03:02") (CInt 2);
     mk_row (CStr "2024-01-05 09:03:03") (CInt 3);
     mk_row (CStr "2024-01-05 09:03:04") (CInt 4);
     mk_row (CStr "2024-01-05 09:03:05") (CInt 5);
     mk_row (CStr "2024-01-05 09:03:06") (CInt 6);
     mk_row (CStr "2024-01-05 09:03:07") (CInt 7);
     mk_row (CStr "2024-01-05 09:03:08") (CInt 8);
     mk_row (CStr "2024-01-05 09:03:08") (CInt 9);
     mk_row (CStr "2024-01-05 09:03:10") (CInt 10);
     mk_row (CStr "2024-01-05 09:03:11") (CInt 11);
     mk_row (CStr "2024-01-05 09:03:12") (CInt 12);
     mk_row (CStr "2024-01-05 09:03:13") (CInt 13);
     mk_row (CStr "2024-01-05 09:03:14") (CInt 14);
     mk_row (CStr "2024-01-05 09:03:15") (CInt 15);
     mk_row (CStr "2024-01-05 09:03:16") (CInt 16)] in
  let s := mk_state {[ 1%positive := T ]} {[ "df" := 1%positive ]} [] in
  let i := mk_interaction (mk_datetime 2024 1 5 9 3 7) 50 false false (fun d => d)
             Line true true "power_data.csv" in
  map fig_y (charts (page (exec (tab_plot Reference.lib i) s))) =
    [[CInt 0; CInt 1; CInt 2; CInt 3; CInt 4; CInt 5; CInt 6; CInt 7; CInt 9; CInt 8;
      CInt 10; CInt 11; CInt 12; CInt 13; CInt 14; CInt 15; CInt 16]].
Proof. vm_compute. reflexivity. Qed.

(** ** The chart and the export handle their own failures *)

(** Run a script whose every lookup is of an object just stored: split on
    each value a collaborator may return. *)
Ltac split_scrutinee :=
  match goal with
  | |- context [match ?x with _ => _ end] =>
      lazymatch x with
      | context [match _ with _ => _ end] => fail
      | context [@lookup] => fail
      | _ => destruct x eqn:?
      end
  end.

Ltac run_all := repeat (rewrite ?lookup_insert_eq; simpl; try reflexivity; try split_scrutinee).

Section Caught.

Context (L : library).

(** With a table in the session the visualization tab ends normally,
    whatever pandas or plotly raise on the way. *)
Lemma tab_plot_succeeds (i : interaction) (s : state) (T : DataFrame) :
  table s = Some T -> result (tab_plot L i) s = Ok tt.
Proof.
  intros HT. apply table_lookup in HT as (l & Hl & Hh).
  unfold tab_plot, plot_frame, copy, build_chart, sort_values, setitem_date_time,
    try_except, px_line, px_scatter, px_bar.
  run_script. rewrite Hl. simpl. rewrite Hh. simpl.
  run_all.
Qed.

Lemma tab_export_succeeds (i : interaction) (s : state) (T : DataFrame) :
  table s = Some T -> result (tab_export L i) s = Ok tt.
Proof.
  intros HT. apply table_lookup in HT as (l & Hl & Hh).
  unfold tab_export. run_script. rewrite Hl. simpl. rewrite Hh. simpl.
  destruct (empty T); simpl; [reflexivity|]. rewrite Hh. reflexivity.
Qed.

End Caught.

(** Without the copy the assignment of the parsed column would reach the
    table: an object changed in place is changed for every reference. *)
Example assignment_changes_object_in_place :
  let T := mk_frame schema [mk_row (CStr "2024-01-05 09:03:07") (CInt 50)] in
  let s := mk_state {[ 1%positive := T ]} {[ "df" := 1%positive ]} [] in
  table (exec (setitem_date_time 1%positive [CTime 0]) s)
    = Some (mk_frame schema [mk_row (CTime 0) (CInt 50)]) /\
  table (exec (l <- copy 1%positive ;; setitem_date_time l [CTime 0]) s) = Some T.
Proof. vm_compute. split; reflexivity. Qed.

(** C6: computing a view (metrics, chart, export) leaves the Table Store
    unchanged, whether the view succeeds, handles a failure of its own or
    ends in an exception: the session entry is the same, every object that
    existed is unchanged, and so is the table.  The chart works on its own
    copy, the only object a view ever writes to, and catches what pandas
    and plotly raise: with a table in the session the chart and the export
    always end normally. *)
Theorem views_leave_store_unchanged (L : library) (i : interaction) (s : state) :
  store_unchanged_by (top_metrics L) s /\
  store_unchanged_by (tab_plot L i) s /\
  store_unchanged_by (tab_export L i) s /\
  (forall T, table s = Some T ->
     result (tab_plot L i) s = Ok tt /\ result (tab_export L i) s = Ok tt).
Proof.
  split; [|split; [|split]].
  - apply reads_unchanged, reads_top_metrics.
  - apply reads_unchanged, reads_tab_plot.
  - apply reads_unchanged, reads_tab_export.
  - intros T HT. split.
    + exact (tab_plot_succeeds L i s T HT).
    + exact (tab_export_succeeds L i s T HT).
Qed.

(** * Whole runs *)

(** ** The steps of a run, from a session that has a table *)

Lemma table_added (s : state) (es : list element) : table (added s es) = table s.
Proof. reflexivity. Qed.

Lemma init_with_table (s : state) (T : DataFrame) :
  table s = Some T -> init s = (Ok tt, s).
Proof.
  intros HT. apply table_lookup in HT as (l & Hs & _).
  unfold init. rewrite Hs. reflexivity.
Qed.

Lemma init_new (s : state) :
  session_state s !! "df" = None ->
  exists s', init s = (Ok tt, s') /\ table s' = Some empty_frame /\ page s' = page s.
Proof.
  intros Hs. unfold init. rewrite Hs. run_script.
  eexists. split; [reflexivity|]. split; [|reflexivity].
  simpl. rewrite lookup_insert_eq. simpl. apply lookup_insert_eq.
Qed.

Lemma add_run (s : state) (T : DataFrame) (now : datetime) (p : Z) :
  table s = Some T ->
  exists s',
    add now p s = (Ok tt, s') /\
    table s' = Some (concat T (mk_frame schema [mk_row (CStr (strftime now)) (CInt p)])) /\
    page s' = page s ++ [Success (strftime now) p].
Proof.
  intros HT. apply table_lookup in HT as (l & Hs & Hh).
  pose proof (allocated_not_fresh _ _ _ Hh) as Hne.
  unfold add. run_script. rewrite Hs. simpl.
  rewrite lookup_insert_ne by exact Hne. rewrite Hh. simpl.
  rewrite lookup_insert_eq. simpl.
  eexists. split; [reflexivity|]. split; [|reflexivity].
  simpl. rewrite lookup_insert_eq. simpl. apply lookup_insert_eq.
Qed.

Lemma clear_run (s : state) :
  exists s',
    clear s = (Ok tt, s') /\ table s' = Some empty_frame /\
    page s' = page s ++ [WarningCleared].
Proof.
  unfold clear. run_script.
  eexists. split; [reflexivity|]. split; [|reflexivity].
  simpl. rewrite lookup_insert_eq. simpl. apply lookup_insert_eq.
Qed.

Lemma data_editor_run (ed : DataFrame -> DataFrame) (s : state) (T : DataFrame) :
  table s = Some T ->
  exists s',
    data_editor ed s = (Ok tt, s') /\ table s' = Some (ed T) /\
    page s' = page s ++ [DataEditor T].
Proof.
  intros HT. apply table_lookup in HT as (l & Hs & Hh).
  unfold data_editor. run_script. rewrite Hs. simpl. rewrite Hh. simpl.
  eexists. split; [reflexivity|]. split; [|reflexivity].
  simpl. rewrite lookup_insert_eq. simpl. apply lookup_insert_eq.
Qed.

(** The input tab: the buttons, then the editor on what they left. *)
Lemma tab_input_run (i : interaction) (s : state) (T : DataFrame) :
  table s = Some T ->
  exists s',
    tab_input i s = (Ok tt, s') /\
    table s' = Some (edited_table i T) /\
    page s' = page s ++ button_messages i ++ [DataEditor (after_buttons i T)].
Proof.
  intros HT. unfold tab_input, edited_table, after_buttons, button_messages.
  assert (H1 : exists s1,
    (if add_clicked i then add (clock i) (power_value i) else ret tt) s = (Ok tt, s1) /\
    table s1 = Some (if add_clicked i then concat T (mk_frame schema [new_row_of i]) else T) /\
    page s1 = page s ++ (if add_clicked i then [Success (strftime (clock i)) (power_value i)] else [])).
  { destruct (add_clicked i).
    - apply add_run, HT.
    - exists s. rewrite app_nil_r. auto. }
  destruct H1 as (s1 & R1 & T1 & P1).
  erewrite bind_ok by exact R1.
  assert (H2 : exists s2,
    (if clear_clicked i then clear else ret tt) s1 = (Ok tt, s2) /\
    table s2 = Some (if clear_clicked i then empty_frame
                     else if add_clicked i then concat T (mk_frame schema [new_row_of i]) else T) /\
    page s2 = page s1 ++ (if clear_clicked i then [WarningCleared] else [])).
  { destruct (clear_clicked i).
    - apply clear_run.
    - exists s1. rewrite app_nil_r. auto. }
  destruct H2 as (s2 & R2 & T2 & P2).
  erewrite bind_ok by exact R2.
  destruct (data_editor_run (editor i) s2 _ T2) as (s3 & R3 & T3 & P3).
  exists s3. split; [exact R3|]. split; [exact T3|].
  rewrite P3, P2, P1, <- !app_assoc. reflexivity.
Qed.

Lemma tab_export_run (L : library) (i : interaction) (s : state) (T : DataFrame) :
  table s = Some T ->
  tab_export L i s = (Ok tt, added s [export_element L i T]).
Proof.
  intros HT. apply table_lookup in HT as (l & Hs & Hh).
  unfold tab_export, export_element. run_script. rewrite Hs. simpl. rewrite Hh. simpl.
  destruct (empty T); simpl; [reflexivity|]. rewrite Hh. reflexivity.
Qed.
(** ** The visualization tab, step by step *)

Lemma getitem_date_time (T : DataFrame) :
  getitem T "Date Time" =
    if bool_decide ("Date Time" ∈ columns T) then Ok (map date_time (rows T))
    else Raise KeyError.
Proof. reflexivity. Qed.

Lemma getitem_power (T : DataFrame) :
  getitem T "Power" =
    if bool_decide ("Power" ∈ columns T) then Ok (map power (rows T))
    else Raise KeyError.
Proof. reflexivity. Qed.

Lemma to_datetime_length (L : library) (col ts : list cell) :
  to_datetime L col = Ok ts -> length ts = length col.
Proof.
  intros H. apply to_datetime_ok in H. symmetry. eapply Forall2_length; eauto.
Qed.

Lemma converted_length (L : library) (T : DataFrame) (ts : list cell) :
  converted L T = Ok ts ->
  "Date Time" ∈ columns T /\ length ts = length (rows T).
Proof.
  unfold converted. rewrite getitem_date_time.
  destruct (bool_decide ("Date Time" ∈ columns T)) eqn:E; [|discriminate].
  apply bool_decide_eq_true_1 in E. simpl. intros H.
  apply to_datetime_length in H. rewrite length_map in H. auto.
Qed.

Lemma px_kinds (L : library) (i : interaction) (d : DataFrame) :
  match chart_type i with
  | Line => px_line L d (show_markers i)
  | Scatter => px_scatter L d
  | Bar => px_bar L d
  end = px L (chart_type i) (markers_of i) d.
Proof. unfold markers_of, px_line, px_scatter, px_bar. destruct (chart_type i); reflexivity. Qed.

Lemma build_chart_page (L : library) (i : interaction) (s : state) (l : loc) (d : DataFrame) :
  heap s !! l = Some d ->
  build_chart L i l s =
    (Ok tt, added s [match px L (chart_type i) (markers_of i) d with
                     | Ok fig => PlotlyChart fig
                     | Raise e => ErrorChart e
                     end]).
Proof.
  intros Hh. unfold build_chart, try_except. run_script. rewrite Hh. simpl.
  rewrite px_kinds. destruct (px L (chart_type i) (markers_of i) d); reflexivity.
Qed.

(** Lines 123-126: the conversion of the copy's Date Time column. *)
Lemma parse_step_run (L : library) (s : state) (l : loc) (T : DataFrame) :
  heap s !! l = Some T ->
  exists s',
    try_except
      (d <- deref l ;;
       col <- lift (getitem d "Date Time") ;;
       ts <- lift (to_datetime L col) ;;
       setitem_date_time l ts)
      (fun _ => emit WarningNotParsed) s = (Ok tt, s') /\
    heap s' !! l = Some (plot_copy L T) /\
    page s' = page s ++
      match converted L T with Ok _ => [] | Raise _ => [WarningNotParsed] end.
Proof.
  intros Hh. unfold plot_copy.
  destruct (converted L T) as [ts|e] eqn:Ec.
  - destruct (converted_length L T ts Ec) as [Hin Hlen].
    unfold converted in Ec.
    unfold try_except, bind, lift, deref, setitem_date_time. rewrite Hh.
    destruct (getitem T "Date Time") as [col|e]; [|discriminate]. simpl in Ec.
    rewrite Ec. unfold bind, deref. rewrite Hh, Hlen, Nat.eqb_refl.
    rewrite bool_decide_eq_true_2 by exact Hin.
    unfold store. eexists. split; [reflexivity|]. simpl.
    split; [apply lookup_insert_eq | rewrite app_nil_r; reflexivity].
  - unfold converted in Ec.
    unfold try_except, bind, lift, deref. rewrite Hh.
    destruct (getitem T "Date Time") as [col|e1]; simpl in Ec.
    + rewrite Ec. unfold emit. eexists. split; [reflexivity|]. simpl.
      split; [exact Hh | reflexivity].
    + unfold emit. eexists. split; [reflexivity|]. simpl.
      split; [exact Hh | reflexivity].
Qed.

(** Lines 138-142: the sort, when asked for, or the copy itself. *)
Lemma sort_step_run (L : library) (i : interaction) (s : state) (l : loc) (D : DataFrame) :
  heap s !! l = Some D ->
  exists l' s',
    (if sort_by_time i then
       try_except (sort_values L l) (fun _ => ret l)
     else ret l) s = (Ok l', s') /\
    heap s' !! l' =
      Some (if sort_by_time i then
              match sorted_frame L D with Ok d => d | Raise _ => D end
            else D) /\
    page s' = page s.
Proof.
  intros Hh. destruct (sort_by_time i).
  - unfold try_except, sort_values, bind, lift, deref, alloc, ret. rewrite Hh.
    destruct (sorted_frame L D) as [d|e].
    + eexists _, _. split; [reflexivity|]. simpl.
      split; [apply lookup_insert_eq | reflexivity].
    + eexists _, _. split; [reflexivity|]. split; [exact Hh | reflexivity].
  - exists l, s. split; [reflexivity|]. split; [exact Hh | reflexivity].
Qed.

(** The frame the chart is drawn from, and what the page shows before the
    chart. *)
Lemma plot_frame_run (L : library) (i : interaction) (s : state) (T : DataFrame) :
  table s = Some T ->
  empty T = false ->
  exists l s',
    plot_frame L i s = (Ok (Some l), s') /\
    heap s' !! l = Some (plotted L i T) /\
    page s' = page s ++
      match converted L T with Ok _ => [] | Raise _ => [WarningNotParsed] end.
Proof.
  intros HT E. apply table_lookup in HT as (l0 & Hs & Hh).
  unfold plot_frame.
  erewrite bind_ok by (unfold get_df; rewrite Hs; reflexivity).
  erewrite bind_ok by (unfold copy, bind, deref, alloc; rewrite Hh; reflexivity).
  set (l1 := fresh (dom (heap s))).
  set (s1 := mk_state (<[l1 := T]> (heap s)) (session_state s) (page s)).
  assert (H1 : heap s1 !! l1 = Some T) by apply lookup_insert_eq.
  erewrite bind_ok by (unfold deref; rewrite H1; reflexivity).
  rewrite E.
  destruct (parse_step_run L s1 l1 T H1) as (s2 & R2 & H2 & P2).
  erewrite bind_ok by exact R2.
  destruct (sort_step_run L i s2 l1 _ H2) as (l3 & s3 & R3 & H3 & P3).
  erewrite bind_ok by exact R3.
  exists l3, s3. split; [reflexivity|]. split; [exact H3|].
  rewrite P3, P2. reflexivity.
Qed.

(** The visualization tab on a table: it ends normally, leaves the table
    and adds the chart's elements to the page. *)
Lemma tab_plot_run (L : library) (i : interaction) (s : state) (T : DataFrame) :
  table s = Some T ->
  exists s',
    tab_plot L i s = (Ok tt, s') /\
    table s' = Some T /\
    page s' = page s ++ chart_elements L i T.
Proof.
  intros HT.
  assert (Hkeep : table (exec (tab_plot L i) s) = Some T).
  { destruct (reads_unchanged _ _ (reads_tab_plot L s i)) as (_ & _ & H). apply H, HT. }
  unfold exec in Hkeep. unfold chart_elements.
  destruct (empty T) eqn:E.
  - apply table_lookup in HT as (l0 & Hs & Hh).
    assert (R : tab_plot L i s =
      (Ok tt, mk_state (<[fresh (dom (heap s)) := T]> (heap s)) (session_state s)
                (page s ++ [InfoNothingToPlot]))).
    { unfold tab_plot, plot_frame.
      erewrite bind_ok; cycle 1.
      { erewrite bind_ok by (unfold get_df; rewrite Hs; reflexivity).
        erewrite bind_ok by (unfold copy, bind, deref, alloc; rewrite Hh; reflexivity).
        erewrite bind_ok
          by (unfold deref; simpl; rewrite lookup_insert_eq; reflexivity).
        rewrite E. reflexivity. }
      reflexivity. }
    rewrite R in Hkeep |- *. eexists. split; [reflexivity|]. split; [exact Hkeep | reflexivity].
  - destruct (plot_frame_run L i s T HT E) as (l & s1 & R1 & H1 & P1).
    unfold tab_plot in Hkeep |- *. erewrite bind_ok in Hkeep |- * by exact R1.
    cbv beta iota in Hkeep |- *.
    rewrite (build_chart_page L i s1 l _ H1) in Hkeep |- *.
    eexists. split; [reflexivity|]. split; [exact Hkeep|].
    simpl. rewrite P1, <- app_assoc. reflexivity.
Qed.
(** ** The metrics block *)

Lemma metrics_only_ret {A} (a : A) : shows_metrics_only (ret a).
Proof.
  intros s. split; [reflexivity|]. split; [reflexivity|].
  exists []. split; [symmetry; apply app_nil_r | constructor].
Qed.

Lemma metrics_only_lift {A} (o : outcome A) : shows_metrics_only (lift o).
Proof.
  intros s. split; [reflexivity|]. split; [reflexivity|].
  exists []. split; [symmetry; apply app_nil_r | constructor].
Qed.

Lemma metrics_only_deref (l : loc) : shows_metrics_only (deref l).
Proof.
  intros s. unfold exec, deref. destruct (heap s !! l);
    (split; [reflexivity|]; split; [reflexivity|];
     exists []; split; [symmetry; apply app_nil_r | constructor]).
Qed.

Lemma metrics_only_get_df : shows_metrics_only get_df.
Proof.
  intros s. unfold exec, get_df. destruct (session_state s !! "df");
    (split; [reflexivity|]; split; [reflexivity|];
     exists []; split; [symmetry; apply app_nil_r | constructor]).
Qed.

Lemma metrics_only_emit (label : string) (v : metric_value) :
  shows_metrics_only (emit (Metric label v)).
Proof.
  intros s. split; [reflexivity|]. split; [reflexivity|].
  exists [Metric label v]. split; [reflexivity|]. repeat constructor.
Qed.

Lemma metrics_only_bind {A B} (c : script A) (k : A -> script B) :
  shows_metrics_only c -> (forall a, shows_metrics_only (k a)) ->
  shows_metrics_only (bind c k).
Proof.
  intros Hc Hk s. destruct (Hc s) as (H1 & H2 & ms & H3 & H4).
  unfold exec, bind in *. destruct (c s) as [[a|e] s1]; simpl in *.
  - destruct (Hk a s1) as (K1 & K2 & ms' & K3 & K4). unfold exec in *.
    split; [congruence|]. split; [congruence|].
    exists (ms ++ ms'). split; [rewrite K3, H3, app_assoc; reflexivity|].
    apply Forall_app. split; assumption.
  - split; [exact H1|]. split; [exact H2|]. exists ms. split; assumption.
Qed.

Lemma metrics_only_try {A} (c : script A) (h : exn -> script A) :
  shows_metrics_only c -> (forall e, shows_metrics_only (h e)) ->
  shows_metrics_only (try_except c h).
Proof.
  intros Hc Hh s. destruct (Hc s) as (H1 & H2 & ms & H3 & H4).
  unfold exec, try_except in *. destruct (c s) as [[a|e] s1]; simpl in *.
  - split; [exact H1|]. split; [exact H2|]. exists ms. split; assumption.
  - destruct (Hh e s1) as (K1 & K2 & ms' & K3 & K4). unfold exec in *.
    split; [congruence|]. split; [congruence|].
    exists (ms ++ ms'). split; [rewrite K3, H3, app_assoc; reflexivity|].
    apply Forall_app. split; assumption.
Qed.

Ltac metrics_step :=
  lazymatch goal with
  | |- shows_metrics_only (bind _ _) => apply metrics_only_bind; [| intros ?]
  | |- shows_metrics_only (try_except _ _) => apply metrics_only_try; [| intros ?]
  | |- shows_metrics_only (if ?b then _ else _) => destruct b
  | |- shows_metrics_only (ret _) => apply metrics_only_ret
  | |- shows_metrics_only (lift _) => apply metrics_only_lift
  | |- shows_metrics_only (deref _) => apply metrics_only_deref
  | |- shows_metrics_only get_df => apply metrics_only_get_df
  | |- shows_metrics_only (emit (Metric _ _)) => apply metrics_only_emit
  end.

(** Lines 31-52 touch nothing but the page, and put only metrics there. *)
Lemma top_metrics_shows_metrics (L : library) : shows_metrics_only (top_metrics L).
Proof.
  unfold top_metrics, metric_total_rows, metric_latest_power,
    metric_average_power, metric_start_time.
  repeat metrics_step.
Qed.

(** What the metrics block leaves: the state it started in, with the
    metrics on the page. *)
Lemma top_metrics_state (L : library) (s : state) :
  exists o ms, top_metrics L s = (o, added s ms) /\ Forall is_metric ms.
Proof.
  destruct (top_metrics_shows_metrics L s) as (H1 & H2 & ms & H3 & H4).
  unfold exec in *. destruct (top_metrics L s) as [o s1]. simpl in *.
  exists o, ms. split; [|exact H4].
  destruct s1 as [h d p]. simpl in *. subst. reflexivity.
Qed.

Lemma average_power_run (s : state) (df : loc) (T : DataFrame) :
  heap s !! df = Some T ->
  empty T = false ->
  "Power" ∈ columns T ->
  metric_average_power df s =
    match mean (map power (rows T)) with
    | Ok m => (Ok tt, added s [Metric "Average Power" (round_metric m)])
    | Raise e => (Raise e, s)
    end.
Proof.
  intros H E Hc. unfold metric_average_power. run_script. rewrite H. simpl.
  rewrite E. simpl. rewrite getitem_power, bool_decide_eq_true_2 by exact Hc.
  simpl. destruct (mean (map power (rows T))); destruct s; reflexivity.
Qed.

Lemma schema_date_time : "Date Time" ∈ schema.
Proof. constructor. Qed.

Lemma schema_power : "Power" ∈ schema.
Proof. right. constructor. Qed.

Lemma not_empty_last (T : DataFrame) (r : row) :
  columns T = schema -> last (rows T) = Some r -> empty T = false.
Proof.
  intros Hc Hl. unfold empty. rewrite Hc.
  destruct (rows T); [discriminate | reflexivity].
Qed.

(** The metrics block on a table with rows: Total rows, then Latest Power
    unless [int] raises, then Average Power unless [mean] raises, then
    Start time. *)
Lemma top_metrics_run (L : library) (s : state) (T : DataFrame) (r : row) :
  table s = Some T ->
  columns T = schema ->
  last (rows T) = Some r ->
  top_metrics L s =
    let total := Metric "Total rows" (MInt (Z.of_nat (len T))) in
    match python_int (power r) with
    | Raise e => (Raise e, added s [total])
    | Ok n =>
        match mean (map power (rows T)) with
        | Raise e => (Raise e, added s [total; Metric "Latest Power" (MInt n)])
        | Ok m =>
            (Ok tt,
             added s [total; Metric "Latest Power" (MInt n);
                      Metric "Average Power" (round_metric m);
                      Metric "Start time"
                        (match to_datetime L (map date_time (rows T)) with
                         | Ok ts => time_metric (min_time ts)
                         | Raise _ => MText invalid_date
                         end)])
        end
    end.
Proof.
  intros HT Hc Hl. pose proof (not_empty_last T r Hc Hl) as E.
  apply table_lookup in HT as (l & Hs & Hh).
  assert (Hd : "Date Time" ∈ columns T) by (rewrite Hc; exact schema_date_time).
  assert (Hp : "Power" ∈ columns T) by (rewrite Hc; exact schema_power).
  unfold top_metrics.
  erewrite bind_ok by (unfold get_df; rewrite Hs; reflexivity).
  erewrite bind_ok by (apply total_rows_run; exact Hh).
  cbv zeta.
  destruct (python_int (power r)) as [n|e] eqn:Ep.
  - erewrite bind_ok
      by (erewrite latest_power_run by (try exact Hh; eassumption); rewrite Ep; reflexivity).
    destruct (mean (map power (rows T))) as [m|e] eqn:Em.
    + erewrite bind_ok
        by (erewrite average_power_run by (try exact Hh; eassumption); rewrite Em; reflexivity).
      erewrite start_time_run by (try exact Hh; eassumption).
      rewrite !added_added. reflexivity.
    + erewrite bind_raise
        by (erewrite average_power_run by (try exact Hh; eassumption); rewrite Em; reflexivity).
      rewrite !added_added. reflexivity.
  - erewrite bind_raise
      by (erewrite latest_power_run by (try exact Hh; eassumption); rewrite Ep; reflexivity).
    reflexivity.
Qed.

(** The metrics block on a table without rows. *)
Lemma top_metrics_empty_run (L : library) (s : state) (T : DataFrame) :
  table s = Some T ->
  rows T = [] ->
  top_metrics L s =
    (Ok tt, added s [Metric "Total rows" (MInt 0);
                     Metric "Latest Power" (MText no_data);
                     Metric "Average Power" (MText no_data)]).
Proof.
  intros HT Hrows. apply table_lookup in HT as (l & Hs & Hh).
  pose proof (empty_no_rows T Hrows) as E.
  unfold top_metrics.
  erewrite bind_ok by (unfold get_df; rewrite Hs; reflexivity).
  erewrite bind_ok by (apply total_rows_run; exact Hh).
  erewrite bind_ok by (apply latest_power_empty with (T := T); [exact Hh | exact E]).
  erewrite bind_ok by (apply average_power_empty with (T := T); [exact Hh | exact E]).
  erewrite start_time_empty by (try exact Hh; exact E).
  rewrite !added_added. unfold len. rewrite Hrows. reflexivity.
Qed.

(** ** One run, from a session that has a table *)

(** When the metrics pass, the run goes through the three tabs. *)
Lemma body_from (L : library) (i : interaction) (s s0 : state) (T : DataFrame)
    (ms : list element) :
  init s = (Ok tt, s0) ->
  table s0 = Some T ->
  top_metrics L s0 = (Ok tt, added s0 ms) ->
  exists s',
    script_body L i s = (Ok tt, s') /\
    table s' = Some (edited_table i T) /\
    page s' = page s0 ++ ms ++ button_messages i ++ [DataEditor (after_buttons i T)] ++
                chart_elements L i (edited_table i T) ++
                [export_element L i (edited_table i T)].
Proof.
  intros Hi HT Hm. unfold script_body.
  erewrite bind_ok by exact Hi.
  erewrite bind_ok by exact Hm.
  destruct (tab_input_run i (added s0 ms) T HT) as (s1 & R1 & T1 & P1).
  erewrite bind_ok by exact R1.
  destruct (tab_plot_run L i s1 _ T1) as (s2 & R2 & T2 & P2).
  erewrite bind_ok by exact R2.
  rewrite (tab_export_run L i s2 _ T2).
  eexists. split; [reflexivity|]. split; [exact T2|].
  simpl. rewrite P2, P1. simpl. rewrite <- !app_assoc. reflexivity.
Qed.

Lemma body_run (L : library) (i : interaction) (s : state) (T : DataFrame)
    (ms : list element) :
  table s = Some T ->
  top_metrics L s = (Ok tt, added s ms) ->
  exists s',
    script_body L i s = (Ok tt, s') /\
    table s' = Some (edited_table i T) /\
    page s' = page s ++ ms ++ button_messages i ++ [DataEditor (after_buttons i T)] ++
                chart_elements L i (edited_table i T) ++
                [export_element L i (edited_table i T)].
Proof.
  intros HT Hm. apply (body_from L i s s T ms); [|exact HT | exact Hm].
  apply (init_with_table _ T), HT.
Qed.

(** When the metrics raise, the run ends there. *)
Lemma body_raise (L : library) (i : interaction) (s s1 : state) (T : DataFrame) (e : exn) :
  table s = Some T ->
  top_metrics L s = (Raise e, s1) ->
  script_body L i s = (Raise e, s1).
Proof.
  intros HT Hm. unfold script_body.
  erewrite bind_ok by (apply (init_with_table _ T); exact HT).
  erewrite bind_raise by exact Hm. reflexivity.
Qed.

(** A run raises only in the metrics block. *)
Lemma body_outcome (L : library) (i : interaction) (s : state) (T : DataFrame) :
  table s = Some T ->
  fst (script_body L i s) = fst (top_metrics L s) /\
  (forall e, fst (script_body L i s) = Raise e ->
     script_body L i s = top_metrics L s).
Proof.
  intros HT. destruct (top_metrics_state L s) as (o & ms & Hm & _).
  destruct o as [[]|e].
  - destruct (body_run L i s T ms HT Hm) as (s' & R & _).
    rewrite R, Hm. split; [reflexivity | discriminate].
  - rewrite (body_raise L i s _ T e HT Hm), Hm. split; [reflexivity | reflexivity].
Qed.
(** ** What a run shows, and when it ends normally *)

Lemma shown_app (label : string) (p q : list element) :
  shown label (p ++ q) = shown label p ++ shown label q.
Proof.
  induction p as [|e p IH]; [reflexivity|].
  destruct e; simpl; try exact IH.
  destruct (String.eqb label0 label); simpl; rewrite IH; reflexivity.
Qed.

Lemma chart_elements_no_metric (L : library) (i : interaction) (T : DataFrame) :
  Forall (fun e => ~ is_metric e) (chart_elements L i T).
Proof.
  unfold chart_elements. destruct (empty T).
  - repeat constructor. intros [].
  - apply Forall_app. split.
    + destruct (converted L T); repeat constructor. intros [].
    + repeat constructor. destruct (px L _ _ _); intros [].
Qed.

Lemma button_messages_no_metric (i : interaction) :
  Forall (fun e => ~ is_metric e) (button_messages i).
Proof.
  unfold button_messages. apply Forall_app. split.
  - destruct (add_clicked i); repeat constructor. intros [].
  - destruct (clear_clicked i); repeat constructor. intros [].
Qed.

Lemma export_element_no_metric (L : library) (i : interaction) (T : DataFrame) :
  ~ is_metric (export_element L i T).
Proof. unfold export_element. destruct (empty T); intros []. Qed.

Lemma shown_no_metric (label : string) (p : list element) :
  Forall (fun e => ~ is_metric e) p -> shown label p = [].
Proof.
  induction 1 as [|e p He _ IH]; [reflexivity|].
  destruct e; simpl; try exact IH. exfalso. apply He. exact I.
Qed.

(** A new session's first run, without a click and with nothing entered in
    the editor: the table is created, three metrics show the empty-table
    values, the editor shows the empty table, and the other two tabs say
    that there is nothing to plot and nothing to save. *)
Theorem first_run_of_session (L : library) (i : interaction) (s : state) :
  session_state s !! "df" = None ->
  add_clicked i = false ->
  clear_clicked i = false ->
  rows (editor i empty_frame) = [] ->
  fst (run L i s) = Ok tt /\
  table (snd (run L i s)) = Some (editor i empty_frame) /\
  page (snd (run L i s)) =
    [Metric "Total rows" (MInt 0);
     Metric "Latest Power" (MText no_data);
     Metric "Average Power" (MText no_data);
     DataEditor empty_frame;
     InfoNothingToPlot;
     InfoNothingToSave].
Proof.
  intros Hs Ha Hc He. unfold run.
  destruct (init_new (mk_state (heap s) (session_state s) []) Hs) as (s0 & Hi & HT & Hp).
  destruct (body_from L i _ s0 empty_frame _ Hi HT
              (top_metrics_empty_run L s0 empty_frame HT eq_refl)) as (s' & R & T' & P').
  rewrite R. simpl. split; [reflexivity|].
  unfold edited_table, after_buttons, button_messages, chart_elements, export_element in *.
  rewrite Ha, Hc in *. rewrite (empty_no_rows _ He) in P'.
  split; [exact T'|]. rewrite P', Hp. reflexivity.
Qed.

Lemma first_run_of_session_witness :
  let i := mk_interaction (mk_datetime 2024 1 5 9 3 7) 50 false false (fun d => d)
             Line true true "power_data.csv" in
  table (snd (run Reference.lib i new_session)) = Some empty_frame.
Proof.
  intros i.
  apply (first_run_of_session Reference.lib i new_session); reflexivity.
Defined.

(** The input tab on any table: the Add button's row is appended first,
    the Clear button then empties the table (also when Add was pressed in
    the same run), the editor is shown what the buttons left, and the table
    the editor returns replaces the stored one. *)
Theorem input_tab_buttons_then_editor (i : interaction) (s : state) (T : DataFrame) :
  table s = Some T ->
  exists shown_table,
    result (tab_input i) s = Ok tt /\
    table (exec (tab_input i) s) = Some (editor i shown_table) /\
    page (exec (tab_input i) s) =
      page s ++
      (if add_clicked i then [Success (strftime (clock i)) (power_value i)] else []) ++
      (if clear_clicked i then [WarningCleared] else []) ++
      [DataEditor shown_table] /\
    (clear_clicked i = true -> shown_table = empty_frame) /\
    (clear_clicked i = false -> add_clicked i = true ->
       rows shown_table =
         rows T ++ [mk_row (CStr (strftime (clock i))) (CInt (power_value i))]) /\
    (clear_clicked i = false -> add_clicked i = false -> shown_table = T).
Proof.
  intros HT. destruct (tab_input_run i s T HT) as (s' & R & T' & P').
  exists (after_buttons i T). unfold result, exec. rewrite R. simpl.
  split; [reflexivity|]. split; [exact T'|].
  split; [rewrite P'; unfold button_messages; rewrite <- app_assoc; reflexivity|].
  unfold after_buttons. split; [|split].
  - intros ->. reflexivity.
  - intros -> ->. reflexivity.
  - intros -> ->. reflexivity.
Qed.

Lemma input_tab_buttons_then_editor_witness :
  let T := mk_frame schema [mk_row (CStr "2024-01-05 09:03:02") (CInt 40)] in
  let s := mk_state {[ 1%positive := T ]} {[ "df" := 1%positive ]} [] in
  let i := mk_interaction (mk_datetime 2024 1 5 9 3 7) 50 true true (fun d => d)
             Line true true "power_data.csv" in
  exists shown_table,
    table (exec (tab_input i) s) = Some (editor i shown_table) /\
    shown_table = empty_frame.
Proof.
  intros T s i.
  destruct (input_tab_buttons_then_editor i s T eq_refl)
    as (shown_table & _ & H1 & _ & H2 & _).
  exists shown_table. split; [exact H1 | apply H2; reflexivity].
Defined.
Lemma run_fresh (L : library) (i : interaction) (s : state) :
  run L i s = script_body L i (fresh_page s).
Proof. reflexivity. Qed.

Lemma last_rows_cases (T : DataFrame) : rows T = [] \/ exists r, last (rows T) = Some r.
Proof.
  destruct (rows T) as [|r0 rs] eqn:E; [left; reflexivity | right].
  destruct (last (r0 :: rs)) as [r|] eqn:El; [eauto|].
  apply last_None in El. discriminate.
Qed.

(** The metrics of a run that passes them, for a table with the two
    columns: Total rows is the row count of the table the run started
    with. *)
Lemma metrics_total_rows (L : library) (s : state) (T : DataFrame) (ms : list element) :
  table s = Some T ->
  columns T = schema ->
  top_metrics L s = (Ok tt, added s ms) ->
  shown "Total rows" ms = [MInt (Z.of_nat (len T))].
Proof.
  intros HT Hc Hm. destruct (last_rows_cases T) as [Hr|[r Hr]].
  - rewrite (top_metrics_empty_run L s T HT Hr) in Hm.
    injection Hm as Hm.
    apply app_inv_head in Hm. subst ms. unfold len. rewrite Hr. reflexivity.
  - rewrite (top_metrics_run L s T r HT Hc Hr) in Hm. cbv zeta in Hm.
    destruct (python_int (power r)); [|discriminate].
    destruct (mean (map power (rows T))); [|discriminate].
    injection Hm as Hm.
    apply app_inv_head in Hm. subst ms. reflexivity.
Qed.

(** The metrics lag one run behind the Add button: in the run that appends
    a row to a table of n rows, Total rows still shows n, the editor shows
    the n + 1 rows, and the store ends with what the editor returned for
    them.  (The metrics are computed at lines 31-52, the row is appended at
    lines 84-96.) *)
Theorem metrics_lag_behind_add (L : library) (i : interaction) (s : state) (T : DataFrame) :
  table s = Some T ->
  columns T = schema ->
  add_clicked i = true ->
  clear_clicked i = false ->
  fst (top_metrics L (fresh_page s)) = Ok tt ->
  let T' := mk_frame schema (rows T ++ [new_row_of i]) in
  fst (run L i s) = Ok tt /\
  shown "Total rows" (page (snd (run L i s))) = [MInt (Z.of_nat (len T))] /\
  In (DataEditor T') (page (snd (run L i s))) /\
  len T' = S (len T) /\
  table (snd (run L i s)) = Some (editor i T').
Proof.
  intros HT Hc Ha Hcl Hok T'.
  destruct (top_metrics_state L (fresh_page s)) as (o & ms & Hm & _).
  rewrite Hm in Hok. simpl in Hok. subst o.
  destruct (body_run L i (fresh_page s) T ms HT Hm) as (s' & R & HT' & P').
  rewrite run_fresh, R. simpl.
  assert (E : after_buttons i T = T').
  { unfold after_buttons, T', concat. rewrite Ha, Hcl, Hc. reflexivity. }
  unfold edited_table in *. rewrite E in *.
  split; [reflexivity|]. split; [|split; [|split]].
  - rewrite P'. change (page (fresh_page s)) with (@nil element). cbn [app].
    rewrite shown_app, (metrics_total_rows L (fresh_page s) T ms HT Hc Hm).
    rewrite shown_no_metric; [reflexivity|].
    apply Forall_app. split; [apply button_messages_no_metric|].
    constructor; [intros []|].
    apply Forall_app. split; [apply chart_elements_no_metric|].
    repeat constructor. apply export_element_no_metric.
  - rewrite P'. apply in_or_app. right. apply in_or_app. right.
    apply in_or_app. right. left. reflexivity.
  - unfold len, T'. simpl. rewrite length_app. simpl. lia.
  - exact HT'.
Qed.

Lemma metrics_lag_behind_add_witness :
  let T := mk_frame schema [mk_row (CStr "2024-01-05 09:03:02") (CInt 40)] in
  let s := mk_state {[ 1%positive := T ]} {[ "df" := 1%positive ]} [] in
  let i := mk_interaction (mk_datetime 2024 1 5 9 3 7) 50 true false (fun d => d)
             Line true true "power_data.csv" in
  shown "Total rows" (page (snd (run Reference.lib i s))) = [MInt 1] /\
  option_map len (table (snd (run Reference.lib i s))) = Some 2%nat.
Proof.
  intros T s i.
  destruct (metrics_lag_behind_add Reference.lib i s T)
    as (_ & H1 & _ & _ & H2); try reflexivity.
  split; [exact H1 | rewrite H2; reflexivity].
Defined.

(** The export of a run carries the edits of that same run: when the
    metrics pass, the store ends with the table the editor returned, and
    the last thing on the page is the download button with that table's CSV
    bytes, the file name typed and the type text/csv, or the note that
    there is nothing to save when the editor returned an empty table. *)
Theorem export_carries_edits_of_the_run (L : library) (i : interaction) (s : state)
    (T : DataFrame) :
  table s = Some T ->
  fst (top_metrics L (fresh_page s)) = Ok tt ->
  exists E shown_table,
    E = editor i shown_table /\
    In (DataEditor shown_table) (page (snd (run L i s))) /\
    table (snd (run L i s)) = Some E /\
    last (page (snd (run L i s))) =
      Some (if empty E then InfoNothingToSave
            else DownloadButton (encode_utf8 (to_csv L false E)) (file_name i) "text/csv").
Proof.
  intros HT Hok.
  destruct (top_metrics_state L (fresh_page s)) as (o & ms & Hm & _).
  rewrite Hm in Hok. simpl in Hok. subst o.
  destruct (body_run L i (fresh_page s) T ms HT Hm) as (s' & R & HT' & P').
  rewrite run_fresh, R. simpl.
  exists (edited_table i T), (after_buttons i T).
  split; [reflexivity|]. split; [|split; [exact HT'|]].
  - rewrite P'. apply in_or_app. right. apply in_or_app. right.
    apply in_or_app. right. left. reflexivity.
  - rewrite P', !app_assoc. unfold export_element, serialize. apply last_snoc.
Qed.

Lemma export_carries_edits_of_the_run_witness :
  let T := mk_frame schema [mk_row (CStr "2024-01-05 09:03:02") (CInt 40)] in
  let E := mk_frame schema [mk_row (CStr "2024-01-05 09:03:02") (CInt 41)] in
  let s := mk_state {[ 1%positive := T ]} {[ "df" := 1%positive ]} [] in
  let i := mk_interaction (mk_datetime 2024 1 5 9 3 7) 50 false false (fun _ => E)
             Line true true "power_data.csv" in
  exists E' shown_table,
    E' = editor i shown_table /\
    table (snd (run Reference.lib i s)) = Some E'.
Proof.
  intros T E s i.
  destruct (export_carries_edits_of_the_run Reference.lib i s T)
    as (E' & shown_table & H1 & _ & H2 & _); try reflexivity.
  exists E', shown_table. auto.
Defined.

(** A run can only end in an exception at the Latest Power and Average
    Power metrics (lines 39 and 43): for a table with the two columns it
    ends normally exactly when the table has no rows, or [int] accepts the
    last row's power and [mean] accepts the power column.  In particular a
    missing power in the last row makes it raise.  When it raises, the
    store is as it was and the page holds metrics only: no editor, no
    chart, no download button. *)
Theorem run_ends_normally_iff (L : library) (i : interaction) (s : state) (T : DataFrame) :
  table s = Some T ->
  columns T = schema ->
  (fst (run L i s) = Ok tt <->
     rows T = [] \/
     exists r n m,
       last (rows T) = Some r /\ python_int (power r) = Ok n /\
       mean (map power (rows T)) = Ok m) /\
  (forall r, last (rows T) = Some r -> isna (power r) = true ->
     exists e, fst (run L i s) = Raise e) /\
  (forall e, fst (run L i s) = Raise e ->
     heap (snd (run L i s)) = heap s /\
     session_state (snd (run L i s)) = session_state s /\
     Forall is_metric (page (snd (run L i s)))).
Proof.
  intros HT Hc. rewrite run_fresh.
  assert (HT0 : table (fresh_page s) = Some T) by exact HT.
  destruct (body_outcome L i (fresh_page s) T HT0) as [Hfst Hraise].
  split; [|split].
  - rewrite Hfst. destruct (last_rows_cases T) as [Hr|[r Hr]].
    + rewrite (top_metrics_empty_run L _ T HT0 Hr). simpl.
      split; [intros _; left; exact Hr | reflexivity].
    + rewrite (top_metrics_run L _ T r HT0 Hc Hr). cbv zeta. split.
      * intros H. right.
        destruct (python_int (power r)) as [n|e] eqn:En; [|discriminate].
        destruct (mean (map power (rows T))) as [m|e] eqn:Em; [|discriminate].
        exists r, n, m. auto.
      * intros [Hr0|(r' & n & m & Hr' & Hn & Hm)].
        -- rewrite Hr0 in Hr. discriminate.
        -- rewrite Hr in Hr'. injection Hr' as <-. rewrite Hn, Hm. reflexivity.
  - intros r Hr Hna. rewrite Hfst, (top_metrics_run L _ T r HT0 Hc Hr). cbv zeta.
    destruct (power r) as [|z|f|x|t]; try discriminate.
    + exists TypeError. reflexivity.
    + destruct f; try discriminate. exists ValueError. reflexivity.
  - intros e He. rewrite (Hraise e He).
    destruct (top_metrics_state L (fresh_page s)) as (o & ms & Hm & Hms).
    rewrite Hm. simpl. auto.
Qed.

Lemma run_ends_normally_iff_witness :
  let T := mk_frame schema [mk_row (CStr "2024-01-05 09:03:02") (CInt 40);
                            mk_row CNone CNone] in
  let s := mk_state {[ 1%positive := T ]} {[ "df" := 1%positive ]} [] in
  let i := mk_interaction (mk_datetime 2024 1 5 9 3 7) 50 false false (fun d => d)
             Line true true "power_data.csv" in
  exists e, fst (run Reference.lib i s) = Raise e.
Proof.
  intros T s i.
  destruct (run_ends_normally_iff Reference.lib i s T eq_refl eq_refl) as (_ & H & _).
  apply (H (mk_row CNone CNone)); reflexivity.
Defined.

(** Once a run has raised, every later run is that same run, whatever the
    user does: the metrics come before the editor and the Clear button, so
    the table that makes them raise can no longer be changed. *)
Theorem crash_is_permanent (L : library) (i : interaction) (s : state) (T : DataFrame)
    (e : exn) :
  table s = Some T ->
  fst (run L i s) = Raise e ->
  forall (js : list interaction) (j : interaction),
    session_runs L js (snd (run L i s)) = snd (run L i s) /\
    run L j (session_runs L js (snd (run L i s))) = run L i s.
Proof.
  intros HT He.
  assert (HT0 : table (fresh_page s) = Some T) by exact HT.
  assert (Hnext : forall j, run L j (snd (run L i s)) = run L i s).
  { intros j. rewrite !run_fresh.
    destruct (body_outcome L i (fresh_page s) T HT0) as [Hfst Hraise].
    rewrite run_fresh in He. rewrite (Hraise e He).
    destruct (top_metrics_state L (fresh_page s)) as (o & ms & Hm & _).
    rewrite Hm. simpl.
    change (fresh_page (added (fresh_page s) ms)) with (fresh_page s).
    destruct (body_outcome L j (fresh_page s) T HT0) as [Hfst' Hraise'].
    rewrite Hfst in He. rewrite He in Hfst'.
    rewrite (Hraise' e Hfst'). exact Hm. }
  assert (Hall : forall js, session_runs L js (snd (run L i s)) = snd (run L i s)).
  { induction js as [|j js IH]; [reflexivity|].
    unfold session_runs in *. cbn [fold_left]. rewrite Hnext. exact IH. }
  intros js j. split; [apply Hall|]. rewrite Hall. apply Hnext.
Qed.

Lemma crash_is_permanent_witness :
  let T := mk_frame schema [mk_row (CStr "2024-01-05 09:03:02") (CStr "abc")] in
  let s := mk_state {[ 1%positive := T ]} {[ "df" := 1%positive ]} [] in
  let i := mk_interaction (mk_datetime 2024 1 5 9 3 7) 50 false false (fun d => d)
             Line true true "power_data.csv" in
  let clear_it := mk_interaction (mk_datetime 2024 1 5 9 3 9) 50 false true (fun d => d)
             Line true true "power_data.csv" in
  fst (run Reference.lib clear_it (session_runs Reference.lib [i; clear_it]
         (snd (run Reference.lib i s)))) = Raise ValueError.
Proof.
  intros T s i clear_it.
  destruct (crash_is_permanent Reference.lib i s T ValueError eq_refl eq_refl
              [i; clear_it] clear_it) as [_ H].
  rewrite H. reflexivity.
Defined.
(** ** What the visualization tab draws *)

Lemma power_parsed_rows (times : list Z) (rs : list row) :
  length times = length rs ->
  map power (parsed_rows times rs) = map power rs.
Proof.
  revert rs. induction times as [|t ts IH]; intros [|r rs] H; try discriminate; [reflexivity|].
  cbn. f_equal. apply IH. injection H as H. exact H.
Qed.

Lemma converted_parsed (L : library) (T : DataFrame) (times : list Z) :
  columns T = schema ->
  Forall2 (fun r t => parsed L (date_time r) t) (rows T) times ->
  converted L T = Ok (map CTime times).
Proof.
  intros Hc Hp. unfold converted.
  rewrite getitem_date_time, Hc, bool_decide_eq_true_2 by exact schema_date_time.
  cbn [and_then]. apply to_datetime_parsed, Hp.
Qed.

Lemma converted_raises (L : library) (T : DataFrame) (c : cell) (e : exn) :
  In c (map date_time (rows T)) ->
  to_datetime_cell L c = Raise e ->
  exists e', converted L T = Raise e'.
Proof.
  intros Hin Hc. unfold converted. rewrite getitem_date_time.
  destruct (bool_decide ("Date Time" ∈ columns T)); [|exists KeyError; reflexivity].
  cbn [and_then]. eapply to_datetime_raises; eauto.
Qed.

(** plotly express on a frame with the two columns. *)
Lemma px_schema (L : library) (kind : chart_kind) (m : option bool) (d : DataFrame) :
  columns d = schema ->
  px L kind m d =
    match px_error L kind d with
    | Some e => Raise e
    | None => Ok (mk_figure kind m (map date_time (rows d)) (map power (rows d)))
    end.
Proof.
  intros Hc. unfold px. destruct (px_error L kind d); [reflexivity|].
  rewrite getitem_date_time, getitem_power, Hc.
  rewrite !bool_decide_eq_true_2 by (exact schema_date_time || exact schema_power).
  reflexivity.
Qed.

Lemma sorted_frame_columns (L : library) (T d : DataFrame) :
  sorted_frame L T = Ok d -> columns d = columns T.
Proof.
  unfold sorted_frame. destruct (getitem T "Date Time"); [|discriminate]. simpl.
  destruct (nargsort L a); [|discriminate]. simpl.
  destruct (take_at (rows T) a0); [|discriminate]. simpl.
  intros [= <-]. reflexivity.
Qed.

(** With "Sort by Date Time" off, the chart shows the table's rows in the
    table's order, the date-times parsed: x holds the parsed date-times and
    y the powers, row by row. *)
Theorem chart_unsorted_keeps_table_order (L : library) (i : interaction) (s : state)
    (T : DataFrame) (times : list Z) :
  table s = Some T ->
  rows T <> [] ->
  columns T = schema ->
  sort_by_time i = false ->
  Forall2 (fun r t => parsed L (date_time r) t) (rows T) times ->
  px_error L (chart_type i) (mk_frame schema (parsed_rows times (rows T))) = None ->
  result (tab_plot L i) s = Ok tt /\
  page (exec (tab_plot L i) s) =
    page s ++ [PlotlyChart (mk_figure (chart_type i) (markers_of i)
                              (map CTime times) (map power (rows T)))].
Proof.
  intros HT Hrs Hc Hsort Hp Hpx.
  destruct (tab_plot_run L i s T HT) as (s' & R & _ & P).
  unfold result, exec. rewrite R. simpl. split; [reflexivity|]. rewrite P. f_equal.
  assert (Hlen : length times = length (rows T)) by (symmetry; eapply Forall2_length; eauto).
  assert (E : empty T = false).
  { unfold empty. rewrite Hc. destruct (rows T); [contradiction | reflexivity]. }
  unfold chart_elements, plotted, plot_copy.
  rewrite E, Hsort, (converted_parsed L T times Hc Hp), Hc, zip_with_parsed.
  rewrite px_schema by reflexivity. rewrite Hpx. cbn [rows app].
  rewrite date_time_parsed_rows, power_parsed_rows by exact Hlen. reflexivity.
Qed.

Lemma chart_unsorted_keeps_table_order_witness :
  let T := mk_frame schema
    [mk_row (CStr "2024-01-05 09:03:07") (CInt 50);
     mk_row (CStr "2024-01-05 09:03:02") (CInt 40)] in
  let s := mk_state {[ 1%positive := T ]} {[ "df" := 1%positive ]} [] in
  let i := mk_interaction (mk_datetime 2024 1 5 9 3 7) 50 false false (fun d => d)
             Bar true false "power_data.csv" in
  map fig_y (charts (page (exec (tab_plot Reference.lib i) s))) = [[CInt 50; CInt 40]].
Proof.
  intros T s i.
  destruct (chart_unsorted_keeps_table_order Reference.lib i s T
              [1704445387000000000; 1704445382000000000]%Z) as [_ H];
    [reflexivity | discriminate | reflexivity | reflexivity
    | cbv [T rows]; repeat (constructor; [vm_compute; reflexivity|]); constructor
    | reflexivity |].
  rewrite H. reflexivity.
Defined.

(** When a Date Time cell does not convert, the tab warns and draws the
    chart from the table's own cells, left as they are: in the table's order
    when sorting is off or the sort raises (the exception is passed over),
    in the order [sort_values] gives the unconverted column otherwise. *)
Theorem chart_falls_back_to_text (L : library) (i : interaction) (s : state)
    (T : DataFrame) (c : cell) (e : exn) :
  table s = Some T ->
  rows T <> [] ->
  columns T = schema ->
  In c (map date_time (rows T)) ->
  to_datetime_cell L c = Raise e ->
  let drawn :=
    if sort_by_time i then
      match sorted_frame L T with Ok d => d | Raise _ => T end
    else T in
  px_error L (chart_type i) drawn = None ->
  result (tab_plot L i) s = Ok tt /\
  page (exec (tab_plot L i) s) =
    page s ++ [WarningNotParsed;
               PlotlyChart (mk_figure (chart_type i) (markers_of i)
                              (map date_time (rows drawn)) (map power (rows drawn)))].
Proof.
  intros HT Hrs Hc Hin Hraise drawn Hpx.
  destruct (tab_plot_run L i s T HT) as (s' & R & _ & P).
  unfold result, exec. rewrite R. simpl. split; [reflexivity|]. rewrite P. f_equal.
  assert (E : empty T = false).
  { unfold empty. rewrite Hc. destruct (rows T); [contradiction | reflexivity]. }
  destruct (converted_raises L T c e Hin Hraise) as [e' Hconv].
  unfold chart_elements, plotted, plot_copy. rewrite E, Hconv. fold drawn.
  assert (Hcd : columns drawn = schema).
  { unfold drawn. destruct (sort_by_time i); [|exact Hc].
    destruct (sorted_frame L T) as [d|] eqn:Es; [|exact Hc].
    rewrite (sorted_frame_columns L T d Es). exact Hc. }
  rewrite (px_schema L _ _ drawn Hcd), Hpx. reflexivity.
Qed.

Lemma chart_falls_back_to_text_witness :
  let T := mk_frame schema
    [mk_row (CStr "yesterday") (CInt 50);
     mk_row (CInt 7) (CInt 40)] in
  let s := mk_state {[ 1%positive := T ]} {[ "df" := 1%positive ]} [] in
  let i := mk_interaction (mk_datetime 2024 1 5 9 3 7) 50 false false (fun d => d)
             Line true true "power_data.csv" in
  page (exec (tab_plot Reference.lib i) s) =
    [WarningNotParsed;
     PlotlyChart (mk_figure Line (Some true) [CStr "yesterday"; CInt 7] [CInt 50; CInt 40])].
Proof.
  intros T s i.
  destruct (chart_falls_back_to_text Reference.lib i s T (CStr "yesterday") ValueError)
    as [_ H];
    [reflexivity | discriminate | reflexivity | left; reflexivity | reflexivity
    | reflexivity |].
  rewrite H. reflexivity.
Defined.

(** The visualization tab never raises and never touches the table.  On an
    empty table it shows the note that there is nothing to plot, and no
    chart.  On any other table it shows exactly one chart or, when plotly
    raises, one error in its place; before it the warning, exactly when the
    Date Time column did not convert. *)
Theorem visualization_tab_page (L : library) (i : interaction) (s : state) (T : DataFrame) :
  table s = Some T ->
  result (tab_plot L i) s = Ok tt /\
  table (exec (tab_plot L i) s) = Some T /\
  exists es,
    page (exec (tab_plot L i) s) = page s ++ es /\
    (empty T = true -> es = [InfoNothingToPlot]) /\
    (empty T = false ->
     exists drawn,
       ((es = [drawn] /\
         exists ts, and_then (getitem T "Date Time") (to_datetime L) = Ok ts) \/
        (es = [WarningNotParsed; drawn] /\
         exists e, and_then (getitem T "Date Time") (to_datetime L) = Raise e)) /\
       ((exists fig, drawn = PlotlyChart fig /\
           fig_kind fig = chart_type i /\ fig_markers fig = markers_of i) \/
        (exists e, drawn = ErrorChart e))).
Proof.
  intros HT. destruct (tab_plot_run L i s T HT) as (s' & R & HT' & P).
  unfold result, exec. rewrite R. simpl. split; [reflexivity|]. split; [exact HT'|].
  exists (chart_elements L i T). split; [exact P|]. unfold chart_elements.
  split; intros E; rewrite E; [reflexivity|].
  eexists. split.
  - fold (converted L T). destruct (converted L T) as [ts|e].
    + left. split; [reflexivity | eauto].
    + right. split; [reflexivity | eauto].
  - unfold px. destruct (px_error L _ _) as [e|]; [right; eauto|].
    destruct (getitem _ "Date Time") as [x|e]; [|right; eauto]. simpl.
    destruct (getitem _ "Power") as [y|e]; [|right; eauto]. simpl.
    left. eexists. split; [reflexivity|]. split; reflexivity.
Qed.

Lemma visualization_tab_page_witness :
  let s := mk_state {[ 1%positive := empty_frame ]} {[ "df" := 1%positive ]} [] in
  let i := mk_interaction (mk_datetime 2024 1 5 9 3 7) 50 false false (fun d => d)
             Line true true "power_data.csv" in
  result (tab_plot Reference.lib i) s = Ok tt /\
  table (exec (tab_plot Reference.lib i) s) = Some empty_frame.
Proof.
  intros s i.
  destruct (visualization_tab_page Reference.lib i s empty_frame eq_refl) as (H1 & H2 & _).
  split; assumption.
Defined.
(** ** Sessions in which the user only adds rows *)

Lemma sum_count_ints (col : list cell) :
  Forall (fun c => exists z, c = CInt z) col ->
  forall q n, exists q' n', sum_count col (Finite q) n = Ok (Finite q', n').
Proof.
  induction 1 as [|c col [z ->] _ IH]; intros q n; [simpl; eauto|].
  cbn [sum_count cell_number number_add]. apply IH.
Qed.

Lemma mean_ints (col : list cell) :
  Forall (fun c => exists z, c = CInt z) col -> exists m, mean col = Ok m.
Proof.
  intros H. unfold mean.
  destruct (sum_count_ints col H 0%Q 0) as (q & n & ->).
  destruct n; eauto.
Qed.

Lemma added_rows_powers (rs : list row) :
  Forall added_row rs -> Forall (fun c => exists z, c = CInt z) (map power rs).
Proof.
  induction 1 as [|r rs (t & p & ->) _ IH]; constructor; [eauto | exact IH].
Qed.

(** The metrics pass on a table of rows the Add button wrote. *)
Lemma top_metrics_added_rows (L : library) (s : state) (rs : list row) :
  table s = Some (mk_frame schema rs) ->
  Forall added_row rs ->
  exists ms, top_metrics L s = (Ok tt, added s ms).
Proof.
  intros HT Hrs. destruct (last_rows_cases (mk_frame schema rs)) as [Hr|[r Hr]].
  - rewrite (top_metrics_empty_run L s _ HT Hr). eauto.
  - rewrite (top_metrics_run L s _ r HT eq_refl Hr). cbv zeta.
    simpl in Hr.
    assert (Hin : In r rs).
    { clear -Hr. induction rs as [|a [|b rs] IH]; [discriminate| |].
      - injection Hr as <-. left. reflexivity.
      - right. apply IH, Hr. }
    rewrite List.Forall_forall in Hrs. destruct (Hrs r Hin) as (t & p & ->).
    cbn [power python_int rows].
    assert (Hall : Forall added_row rs) by (apply List.Forall_forall; exact Hrs).
    destruct (mean_ints _ (added_rows_powers rs Hall)) as [m ->]. eauto.
Qed.

Lemma run_only_adds (L : library) (j : interaction) (s : state) (rs : list row) :
  table s = Some (mk_frame schema rs) ->
  Forall added_row rs ->
  only_adds j ->
  fst (run L j s) = Ok tt /\
  table (snd (run L j s)) =
    Some (mk_frame schema (rs ++ map new_row_of (List.filter add_clicked [j]))).
Proof.
  intros HT Hrs [Hc He].
  assert (HT0 : table (fresh_page s) = Some (mk_frame schema rs)) by exact HT.
  destruct (top_metrics_added_rows L (fresh_page s) rs HT0 Hrs) as [ms Hm].
  destruct (body_run L j (fresh_page s) _ ms HT0 Hm) as (s' & R & HT' & _).
  rewrite run_fresh, R. simpl. split; [reflexivity|].
  rewrite HT'. unfold edited_table, after_buttons. rewrite He, Hc.
  cbn [List.filter]. destruct (add_clicked j); [reflexivity|].
  cbn [map]. rewrite app_nil_r. reflexivity.
Qed.

Lemma first_run_only_adds (L : library) (j : interaction) (s : state) :
  session_state s !! "df" = None ->
  only_adds j ->
  fst (run L j s) = Ok tt /\
  table (snd (run L j s)) =
    Some (mk_frame schema (map new_row_of (List.filter add_clicked [j]))).
Proof.
  intros Hs [Hc He]. unfold run.
  destruct (init_new (mk_state (heap s) (session_state s) []) Hs) as (s0 & Hi & HT & Hp).
  destruct (body_from L j _ s0 empty_frame _ Hi HT
              (top_metrics_empty_run L s0 empty_frame HT eq_refl)) as (s' & R & HT' & _).
  rewrite R. simpl. split; [reflexivity|].
  rewrite HT'. unfold edited_table, after_buttons. rewrite He, Hc.
  cbn [List.filter]. destruct (add_clicked j); reflexivity.
Qed.

Lemma new_rows_added (js : list interaction) :
  Forall added_row (map new_row_of js).
Proof.
  induction js as [|j js IH]; constructor; [|exact IH].
  unfold added_row, new_row_of. eauto.
Qed.

Lemma runs_only_add (L : library) (js : list interaction) :
  Forall only_adds js ->
  forall (s : state) (rs : list row),
    table s = Some (mk_frame schema rs) ->
    Forall added_row rs ->
    table (session_runs L js s) =
      Some (mk_frame schema (rs ++ map new_row_of (List.filter add_clicked js))) /\
    (forall before j after, js = before ++ j :: after ->
       fst (run L j (session_runs L before s)) = Ok tt).
Proof.
  induction 1 as [|j js Hj Hjs IH]; intros s rs HT Hrs.
  - simpl. rewrite app_nil_r. split; [exact HT|].
    intros [|? ?] ? ? ?; discriminate.
  - destruct (run_only_adds L j s rs HT Hrs Hj) as [Hok HT1].
    assert (Hrs1 : Forall added_row (rs ++ map new_row_of (List.filter add_clicked [j]))).
    { apply Forall_app. split; [exact Hrs | apply new_rows_added]. }
    destruct (IH _ _ HT1 Hrs1) as [HT2 Hoks].
    split.
    + unfold session_runs in *. cbn [fold_left]. rewrite HT2. do 2 f_equal.
      rewrite <- app_assoc, <- map_app. do 2 f_equal.
      cbn [List.filter]. destruct (add_clicked j); reflexivity.
    + intros [|b before] j' after E.
      * injection E as <- _. exact Hok.
      * injection E as <- E. unfold session_runs in *. cbn [fold_left].
        apply (Hoks before j' after E).
Qed.

(** A session in which the user only ever presses Add (or nothing) and
    edits nothing never raises, and after its runs the table holds exactly
    one row per press of Add, in the order of the presses, each with the
    clock's text and the power entered in that run. *)
Theorem add_only_session (L : library) (j0 : interaction) (js : list interaction) :
  Forall only_adds (j0 :: js) ->
  table (session_runs L (j0 :: js) new_session) =
    Some (mk_frame schema
            (map (fun j => mk_row (CStr (strftime (clock j))) (CInt (power_value j)))
                 (List.filter add_clicked (j0 :: js)))) /\
  (forall before j after, j0 :: js = before ++ j :: after ->
     fst (run L j (session_runs L before new_session)) = Ok tt).
Proof.
  intros H. inversion H as [|? ? Hj0 Hjs]; subst.
  destruct (first_run_only_adds L j0 new_session eq_refl Hj0) as [Hok HT].
  destruct (runs_only_add L js Hjs _ _ HT (new_rows_added _)) as [HT2 Hoks].
  split.
  - unfold session_runs in *. cbn [fold_left]. rewrite HT2. do 2 f_equal.
    rewrite <- map_app. fold new_row_of. f_equal.
    cbn [List.filter]. destruct (add_clicked j0); reflexivity.
  - intros [|b before] j' after E.
    + injection E as <- _. exact Hok.
    + injection E as <- E. unfold session_runs in *. cbn [fold_left].
      apply (Hoks before j' after E).
Qed.

Lemma add_only_session_witness :
  let press p sec := mk_interaction (mk_datetime 2024 1 5 9 3 sec) p true false (fun d => d)
                     Line true true "power_data.csv" in
  let look := mk_interaction (mk_datetime 2024 1 5 9 4 0) 50 false false (fun d => d)
                Scatter true true "power_data.csv" in
  table (session_runs Reference.lib [press 50%Z 7%nat; look; press 40%Z 9%nat] new_session) =
    Some (mk_frame schema [mk_row (CStr "2024-01-05 09:03:07") (CInt 50);
                           mk_row (CStr "2024-01-05 09:03:09") (CInt 40)]).
Proof.
  intros press look.
  destruct (add_only_session Reference.lib (press 50%Z 7%nat) [look; press 40%Z 9%nat]) as [H _].
  { repeat constructor. }
  rewrite H. reflexivity.
Defined.

(** ** The export loses nothing *)

Lemma read_plain_field (f : string) (c : ascii) (rest : string) :
  plain f = true -> special c = true ->
  read_plain (f ++ String c rest) = (f, String c rest).
Proof.
  intros Hf Hc. induction f as [|a f IH].
  - change (read_plain (String c rest) = (EmptyString, String c rest)).
    cbn [read_plain]. rewrite Hc. reflexivity.
  - rewrite append_cons. cbn [read_plain].
    unfold plain in Hf. cbn [list_ascii_of_string existsb] in Hf.
    apply negb_true_iff, orb_false_elim in Hf as [Ha Hf].
    rewrite Ha, IH by (unfold plain; rewrite Hf; reflexivity). reflexivity.
Qed.

Lemma read_quoted_rest_escape (f : string) (c : ascii) (rest : string) :
  Ascii.eqb c quotechar = false ->
  read_quoted_rest (escape f ++ String quotechar (String c rest)) =
    Some (f, String c rest).
Proof.
  intros Hc. induction f as [|a f IH].
  - change (read_quoted_rest (String quotechar (String c rest)) =
            Some (EmptyString, String c rest)).
    cbn [read_quoted_rest]. rewrite Ascii.eqb_refl, Hc. reflexivity.
  - cbn [escape]. destruct (Ascii.eqb a quotechar) eqn:E.
    + apply Ascii.eqb_eq in E. subst a. rewrite !append_cons.
      cbn [read_quoted_rest]. rewrite Ascii.eqb_refl, IH. reflexivity.
    + rewrite append_cons. cbn [read_quoted_rest]. rewrite E, IH. reflexivity.
Qed.

Lemma special_not_quote (a : ascii) : special a = false -> Ascii.eqb a quotechar = false.
Proof.
  unfold special. intros H. apply orb_false_elim in H as [H _].
  apply orb_false_elim in H as [_ H]. exact H.
Qed.

(** A field the writer wrote reads back as its text, when a delimiter or
    a line end follows it. *)
Lemma read_field_quote_field (f : string) (c : ascii) (rest : string) :
  special c = true -> Ascii.eqb c quotechar = false ->
  read_field (quote_field f ++ String c rest) = Some (f, String c rest).
Proof.
  intros Hc Hq. unfold quote_field.
  destruct (existsb special (list_ascii_of_string f)) eqn:E.
  - unfold quoted. rewrite append_cons. cbn [read_field]. rewrite Ascii.eqb_refl.
    rewrite append_assoc, append_cons.
    change (EmptyString ++ String c rest)%string with (String c rest).
    apply read_quoted_rest_escape, Hq.
  - assert (Hp : plain f = true) by (unfold plain; rewrite E; reflexivity).
    destruct f as [|a f].
    + change (read_field (String c rest) = Some (EmptyString, String c rest)).
      cbn [read_field]. rewrite Hq. cbn [read_plain]. rewrite Hc. reflexivity.
    + rewrite append_cons. cbn [read_field].
      cbn [list_ascii_of_string existsb] in E. apply orb_false_elim in E as [Ea _].
      rewrite (special_not_quote a Ea). rewrite <- append_cons.
      rewrite (read_plain_field _ c rest Hp Hc). reflexivity.
Qed.

Lemma read_line_row (L : library) (r : row) (rest : string) :
  read_line (row_line L r ++ rest) =
    Some (cell_text L (date_time r), cell_text L (power r), rest).
Proof.
  unfold row_line, read_line.
  rewrite append_assoc, append_cons.
  rewrite read_field_quote_field by reflexivity.
  change (Ascii.eqb delimiter delimiter) with true. cbv iota.
  rewrite append_assoc. unfold lineterminator. rewrite append_cons.
  change (EmptyString ++ rest)%string with rest.
  rewrite read_field_quote_field by reflexivity.
  reflexivity.
Qed.

Lemma concat_lines_cons (x : string) (xs : list string) :
  String.concat EmptyString (x :: xs) = (x ++ String.concat EmptyString xs)%string.
Proof.
  destruct xs as [|y ys]; cbn [String.concat]; [symmetry; apply append_nil_r | reflexivity].
Qed.

(** The lines of two tables are the same text only when the tables have
    the same number of rows and the same cell texts. *)
Lemma row_lines_inj (L : library) (rs1 rs2 : list row) :
  String.concat EmptyString (map (row_line L) rs1) =
  String.concat EmptyString (map (row_line L) rs2) ->
  map (row_texts L) rs1 = map (row_texts L) rs2.
Proof.
  revert rs2. induction rs1 as [|r1 rs1 IH]; intros [|r2 rs2] H.
  - reflexivity.
  - cbn [map] in H. rewrite concat_lines_cons in H.
    apply (f_equal read_line) in H. rewrite read_line_row in H. discriminate.
  - cbn [map] in H. rewrite concat_lines_cons in H.
    apply (f_equal read_line) in H. rewrite read_line_row in H. discriminate.
  - cbn [map] in H. rewrite !concat_lines_cons in H.
    apply (f_equal read_line) in H. rewrite !read_line_row in H.
    injection H as H1 H2 H3. cbn [map]. unfold row_texts at 1 3.
    rewrite H1, H2. f_equal. apply IH, H3.
Qed.

Lemma append_inv_head (p s t : string) : (p ++ s = p ++ t)%string -> s = t.
Proof.
  induction p as [|c p IH]; [trivial|].
  rewrite !append_cons. intros [= H]. apply IH, H.
Qed.

Lemma encode_utf8_inj (s t : string) : encode_utf8 s = encode_utf8 t -> s = t.
Proof.
  unfold encode_utf8. intros H.
  rewrite <- (string_of_list_byte_of_string s), <- (string_of_list_byte_of_string t), H.
  reflexivity.
Qed.

(** The export loses nothing a cell shows: two tables with the two columns
    whose downloads are the same bytes have the same number of rows and,
    row by row, the same cell texts.  (Quoting keeps a comma, a quote or a
    line end inside a cell apart from the ones between cells.) *)
Theorem export_is_lossless (L : library) (T1 T2 : DataFrame) :
  columns T1 = schema ->
  columns T2 = schema ->
  serialize L T1 = serialize L T2 ->
  length (rows T1) = length (rows T2) /\
  map (fun r => (cell_text L (date_time r), cell_text L (power r))) (rows T1) =
  map (fun r => (cell_text L (date_time r), cell_text L (power r))) (rows T2).
Proof.
  intros H1 H2 H. unfold serialize in H. apply encode_utf8_inj in H.
  rewrite (to_csv_lines L T1 H1), (to_csv_lines L T2 H2) in H.
  apply append_inv_head, append_inv_head in H.
  apply row_lines_inj in H. split; [|exact H].
  apply (f_equal (@length _)) in H. rewrite !length_map in H. exact H.
Qed.

Lemma export_is_lossless_witness :
  let T1 := mk_frame schema [mk_row (CStr "a,b") (CInt 50)] in
  let T2 := mk_frame schema [mk_row (CStr "a,b") (CStr "50")] in
  cell_text Reference.lib (date_time (mk_row (CStr "a,b") (CInt 50))) = "a,b" /\
  length (rows T1) = length (rows T2).
Proof.
  intros T1 T2. split; [reflexivity|].
  apply (export_is_lossless Reference.lib T1 T2); reflexivity.
Defined.

(** ** The clock's texts sort as the date-times do *)

Lemma digit_code (n : nat) : N_of_ascii (digit n) = N.of_nat (48 + n mod 10).
Proof.
  unfold digit.
  assert (H : (n mod 10 < 10)%nat) by (apply Nat.mod_upper_bound; lia).
  destruct (n mod 10)%nat as [|[|[|[|[|[|[|[|[|[|k]]]]]]]]]]; try reflexivity; lia.
Qed.

Lemma compare_digit (x y : nat) :
  Ascii.compare (digit x) (digit y) = (x mod 10 ?= y mod 10)%nat.
Proof.
  unfold Ascii.compare. rewrite !digit_code, <- Nat2N.inj_compare.
  destruct (Nat.compare_spec (x mod 10) (y mod 10)) as [E|E|E].
  - rewrite E. apply Nat.compare_refl.
  - apply Nat.compare_lt_iff. lia.
  - apply Nat.compare_gt_iff. lia.
Qed.

Lemma compare_cons (c c' : ascii) (s t : string) :
  String.compare (String c s) (String c' t) =
    then_compare (Ascii.compare c c') (String.compare s t).
Proof. cbn [String.compare]. destruct (Ascii.compare c c'); reflexivity. Qed.

Lemma then_compare_eq (c : comparison) : then_compare c Eq = c.
Proof. destruct c; reflexivity. Qed.

Ltac compare_cases :=
  repeat match goal with
  | |- context [(?a ?= ?b)%nat] => destruct (Nat.compare_spec a b)
  end; cbn [then_compare]; try reflexivity; exfalso; lia.

(** Two digits compare as the number they spell. *)
Lemma compare_pad2 (a b : nat) (s t : string) :
  (a < 100)%nat -> (b < 100)%nat ->
  String.compare (pad2 a ++ s) (pad2 b ++ t) =
    then_compare (a ?= b)%nat (String.compare s t).
Proof.
  intros Ha Hb. unfold pad2. rewrite !append_cons, !compare_cons, !compare_digit.
  change (EmptyString ++ s)%string with s. change (EmptyString ++ t)%string with t.
  pose proof (Nat.div_mod_eq a 10). pose proof (Nat.div_mod_eq b 10).
  pose proof (Nat.mod_upper_bound a 10 ltac:(lia)).
  pose proof (Nat.mod_upper_bound b 10 ltac:(lia)).
  assert (a / 10 < 10)%nat by (apply Nat.Div0.div_lt_upper_bound; lia).
  assert (b / 10 < 10)%nat by (apply Nat.Div0.div_lt_upper_bound; lia).
  rewrite (Nat.mod_small (a / 10) 10), (Nat.mod_small (b / 10) 10) by lia.
  generalize dependent (a / 10)%nat. generalize dependent (b / 10)%nat.
  generalize dependent (a mod 10)%nat. generalize dependent (b mod 10)%nat.
  intros b0 a0 b1 ? ? a1 ? ? ? ?. generalize (String.compare s t). intros X.
  compare_cases.
Qed.

(** Four digits compare as the number they spell. *)
Lemma compare_pad4 (a b : nat) (s t : string) :
  (a < 10 * 1000)%nat -> (b < 10 * 1000)%nat ->
  String.compare (pad4 a ++ s) (pad4 b ++ t) =
    then_compare (a ?= b)%nat (String.compare s t).
Proof.
  intros Ha Hb. unfold pad4, pad2.
  rewrite !append_cons, !compare_cons, !compare_digit.
  change (EmptyString ++ s)%string with s. change (EmptyString ++ t)%string with t.
  assert (D : forall n, (n < 10 * 1000)%nat ->
            exists d3 d2 d1 d0,
              ((n / 1000) mod 10 = d3 /\ (n / 100) mod 10 = d2 /\
               (n / 10) mod 10 = d1 /\ n mod 10 = d0 /\
               n = 1000 * d3 + 100 * d2 + 10 * d1 + d0 /\
               d3 < 10 /\ d2 < 10 /\ d1 < 10 /\ d0 < 10)%nat).
  { intros n Hn. eexists _, _, _, _. repeat (split; [reflexivity|]).
    pose proof (Nat.div_mod_eq n 10).
    pose proof (Nat.div_mod_eq (n / 10) 10).
    pose proof (Nat.div_mod_eq (n / 100) 10).
    assert (n / 10 / 10 = n / 100)%nat by (rewrite Nat.Div0.div_div; reflexivity).
    assert (n / 100 / 10 = n / 1000)%nat by (rewrite Nat.Div0.div_div; reflexivity).
    assert (n / 1000 < 10)%nat by (apply Nat.Div0.div_lt_upper_bound; lia).
    rewrite (Nat.mod_small (n / 1000) 10) by lia.
    pose proof (Nat.mod_upper_bound n 10 ltac:(lia)).
    pose proof (Nat.mod_upper_bound (n / 10) 10 ltac:(lia)).
    pose proof (Nat.mod_upper_bound (n / 100) 10 ltac:(lia)).
    lia. }
  destruct (D a Ha) as (a3 & a2 & a1 & a0 & -> & -> & -> & -> & Ea & ? & ? & ? & ?).
  destruct (D b Hb) as (b3 & b2 & b1 & b0 & -> & -> & -> & -> & Eb & ? & ? & ? & ?).
  clear D. subst a b. generalize (String.compare s t). intros X.
  compare_cases.
Qed.

Lemma compare_separator (c : ascii) (s t : string) :
  String.compare (String c EmptyString ++ s) (String c EmptyString ++ t) =
    String.compare s t.
Proof.
  rewrite !append_cons, compare_cons.
  change (EmptyString ++ s)%string with s. change (EmptyString ++ t)%string with t.
  unfold Ascii.compare. rewrite N.compare_refl. reflexivity.
Qed.

(** The format of line 85 puts the larger units first and pads every
    number to a fixed width, so the texts the clock writes are ordered (by
    code point, as Python orders text) exactly as the date-times are; in
    particular two date-times have the same text only when they are equal
    to the second. *)
Theorem clock_texts_sort_by_time (a b : datetime) :
  valid_datetime a ->
  valid_datetime b ->
  String.compare (strftime a) (strftime b) = datetime_compare a b /\
  (strftime a = strftime b -> a = b).
Proof.
  intros Ha Hb. split.
  - destruct Ha as (Hy & Hm & Hd & Hh & Hmi & Hs).
    destruct Hb as (Hy' & Hm' & Hd' & Hh' & Hmi' & Hs').
    unfold strftime, datetime_compare.
    rewrite compare_pad4 by lia. rewrite compare_separator.
    rewrite compare_pad2 by lia. rewrite compare_separator.
    rewrite compare_pad2 by lia. rewrite compare_separator.
    rewrite compare_pad2 by lia. rewrite compare_separator.
    rewrite compare_pad2 by lia. rewrite compare_separator.
    rewrite <- (append_nil_r (pad2 (second a))), <- (append_nil_r (pad2 (second b))).
    rewrite compare_pad2 by lia. cbn [String.compare].
    rewrite then_compare_eq. reflexivity.
  - intros E. apply (f_equal read_datetime) in E.
    rewrite !read_strftime in E by assumption. injection E as E. exact E.
Qed.

Lemma clock_texts_sort_by_time_witness :
  String.compare (strftime (mk_datetime 2024 1 5 9 3 7))
                 (strftime (mk_datetime 2024 1 5 10 0 0)) = Lt.
Proof.
  rewrite (proj1 (clock_texts_sort_by_time (mk_datetime 2024 1 5 9 3 7)
                    (mk_datetime 2024 1 5 10 0 0)
                    ltac:(unfold valid_datetime; simpl; lia)
                    ltac:(unfold valid_datetime; simpl; lia))).
  reflexivity.
Defined.

(** ** Rows without a date-time are drawn last *)

Lemma take_at_app {A} (l : list A) (a b : list nat) (xs ys : list A) :
  take_at l a = Ok xs -> take_at l b = Ok ys -> take_at l (a ++ b) = Ok (xs ++ ys).
Proof.
  revert xs. induction a as [|k a IH]; intros xs Ha Hb.
  - injection Ha as <-. exact Hb.
  - cbn [take_at app] in *. destruct (l !! k) as [x|]; [|discriminate].
    destruct (take_at l a) as [xs'|] eqn:E; [|discriminate].
    injection Ha as <-. rewrite (IH xs' eq_refl Hb). reflexivity.
Qed.

Lemma take_at_length {A} (l : list A) (idx : list nat) (xs : list A) :
  take_at l idx = Ok xs -> length xs = length idx.
Proof.
  revert xs. induction idx as [|k idx IH]; intros xs H.
  - injection H as <-. reflexivity.
  - cbn [take_at] in H. destruct (l !! k); [|discriminate].
    destruct (take_at l idx) as [xs'|]; [|discriminate].
    injection H as <-. simpl. f_equal. apply IH. reflexivity.
Qed.

Lemma take_at_lookup {A} (l : list A) (idx : list nat) (xs : list A) (d : A) (k : nat) :
  take_at l idx = Ok xs -> (k < length idx)%nat ->
  l !! nth k idx 0%nat = Some (nth k xs d).
Proof.
  revert xs k. induction idx as [|j idx IH]; intros xs k H Hk; [simpl in Hk; lia|].
  cbn [take_at] in H. destruct (l !! j) as [x|] eqn:Ej; [|discriminate].
  destruct (take_at l idx) as [xs'|] eqn:E; [|discriminate].
  injection H as <-. destruct k as [|k]; [exact Ej|].
  cbn [nth]. apply IH; [reflexivity | simpl in Hk; lia].
Qed.

(** Taking through positions that were themselves taken. *)
Lemma take_at_compose {A} (l : list A) (idx : list nat) (xs : list A) (d : A)
    (order : list nat) :
  take_at l idx = Ok xs ->
  Forall (fun k => (k < length idx)%nat) order ->
  take_at l (map (fun k => nth k idx 0%nat) order) = Ok (map (fun k => nth k xs d) order).
Proof.
  intros H. induction 1 as [|k order Hk _ IH]; [reflexivity|].
  cbn [map take_at]. rewrite (take_at_lookup l idx xs d k H Hk), IH. reflexivity.
Qed.

(** The rows at the positions of the cells that satisfy [keep] are the
    rows whose cell satisfies it, in their order. *)
Lemma take_at_positions (keep : cell -> bool) (pre rs : list row) :
  take_at (pre ++ rs) (positions_from (length pre) keep (map date_time rs)) =
    Ok (List.filter (fun r => keep (date_time r)) rs).
Proof.
  revert pre. induction rs as [|r rs IH]; intros pre; [reflexivity|].
  cbn [map positions_from List.filter].
  specialize (IH (pre ++ [r])). rewrite <- app_assoc, length_app in IH.
  cbn [length app] in IH. rewrite Nat.add_1_r in IH.
  destruct (keep (date_time r)).
  - cbn [app take_at]. rewrite lookup_app_r, Nat.sub_diag by lia. cbn [lookup list_lookup].
    rewrite IH. reflexivity.
  - exact IH.
Qed.

Lemma length_positions (keep : cell -> bool) (i : nat) (col : list cell) :
  length (positions_from i keep col) = length (List.filter keep col).
Proof.
  revert i. induction col as [|c col IH]; intros i; [reflexivity|].
  cbn [positions_from List.filter]. rewrite length_app, IH.
  destruct (keep c); reflexivity.
Qed.

Lemma filter_map_date_time (keep : cell -> bool) (rs : list row) :
  List.filter keep (map date_time rs) =
    map date_time (List.filter (fun r => keep (date_time r)) rs).
Proof.
  induction rs as [|r rs IH]; [reflexivity|].
  cbn [map List.filter]. destruct (keep (date_time r)); cbn [map]; rewrite IH; reflexivity.
Qed.

(** The date-times of the rows that have one. *)
Lemma present_times (rs : list row) :
  Forall (fun r => date_time r = CNone \/ exists u, date_time r = CTime u) rs ->
  map date_time (List.filter (fun r => negb (isna (date_time r))) rs) =
    map CTime (map time_of (List.filter (fun r => negb (isna (date_time r))) rs)).
Proof.
  induction 1 as [|r rs Hr _ IH]; [reflexivity|].
  cbn [List.filter]. destruct Hr as [E|[u E]]; rewrite E; cbn [isna negb].
  - exact IH.
  - cbn [map]. rewrite IH. unfold time_of at 2. rewrite E. reflexivity.
Qed.

Section MissingLast.

Context (L : library).

(** [sort_values] on the converted copy, when the sort routine sorts the
    date-times present: the rows that have a date-time, in non-decreasing
    order, then the rows that have none, in their own order. *)
Lemma sorted_frame_missing_last (P : list row) :
  Forall (fun r => date_time r = CNone \/ exists u, date_time r = CTime u) P ->
  sorts (argsort_datetime L)
    (map time_of (List.filter (fun r => negb (isna (date_time r))) P)) = true ->
  exists present,
    sorted_frame L (mk_frame schema P) =
      Ok (mk_frame schema (present ++ List.filter (fun r => isna (date_time r)) P)) /\
    Permutation present (List.filter (fun r => negb (isna (date_time r))) P) /\
    StronglySorted Z.le (map time_of present).
Proof.
  intros HP Hs.
  set (have := List.filter (fun r => negb (isna (date_time r))) P) in *.
  set (times := map time_of have) in *.
  set (order := argsort_datetime L times).
  set (d := mk_row CNone CNone).
  pose proof (sorts_in_range _ _ Hs) as Hr. fold order in Hr.
  pose proof (sorts_permutation _ _ Hs) as Hperm. fold order in Hperm.
  assert (Hlen : length times = length have) by apply length_map.
  exists (map (fun k => nth k have d) order). split; [|split].
  - unfold sorted_frame, getitem. cbn [columns rows].
    rewrite bool_decide_eq_true_2 by constructor.
    cbn [String.eqb Ascii.eqb Bool.eqb and_then].
    unfold nargsort.
    rewrite filter_map_date_time. fold have.
    pose proof (present_times P HP) as Ht. fold have in Ht. fold times in Ht.
    rewrite Ht.
    rewrite datetime_values_times. fold order. cbn [and_then].
    pose proof (take_at_positions (fun c => negb (isna c)) [] P) as Hhave.
    pose proof (take_at_positions isna [] P) as Hmiss.
    cbn [app length] in Hhave, Hmiss. fold have in Hhave.
    assert (Hidx : length (positions_from 0 (fun c => negb (isna c)) (map date_time P))
                   = length times).
    { rewrite <- (take_at_length _ _ _ Hhave). symmetry. exact Hlen. }
    rewrite (take_at_nth _ 0%nat) by (rewrite Hidx; exact Hr).
    cbn [and_then].
    rewrite (take_at_app _ _ _ _ _
               (take_at_compose _ _ _ d order Hhave ltac:(rewrite Hidx; exact Hr)) Hmiss).
    reflexivity.
  - apply (Permutation_map (fun k => nth k have d)) in Hperm.
    rewrite Hlen, map_nth_seq in Hperm. exact Hperm.
  - replace (map time_of (map (fun k => nth k have d) order))
      with (map (fun k => nth k times 0%Z) order).
    + apply nondecreasing_sorted. unfold sorts in Hs.
      apply andb_prop in Hs as [_ Hs]. exact Hs.
    + rewrite map_map. apply map_ext. intros k. unfold times.
      change 0%Z with (time_of d). apply map_nth.
Qed.

End MissingLast.
Lemma converted_cells (L : library) (T : DataFrame) (cs : list cell) :
  columns T = schema ->
  Forall2 (fun r c => to_datetime_cell L (date_time r) = Ok c) (rows T) cs ->
  converted L T = Ok cs /\
  Forall (fun r => date_time r = CNone \/ exists u, date_time r = CTime u)
    (zip_with (fun c r => mk_row c (power r)) cs (rows T)).
Proof.
  intros Hc H. split.
  - unfold converted.
    rewrite getitem_date_time, Hc, bool_decide_eq_true_2 by exact schema_date_time.
    cbn [and_then]. apply to_datetime_ok.
    induction H; constructor; assumption.
  - induction H as [|r c rs cs Hr _ IH]; [constructor|].
    cbn [zip_with]. constructor; [|exact IH].
    exact (to_datetime_cell_cases L _ _ Hr).
Qed.

(** With sorting on and every Date Time cell converted (a missing one,
    or a text that stands for one, to NaT), the chart shows first the rows
    that have a date-time, in non-decreasing order of it, and then the rows
    that have none, in the table's order, for every sort routine that does
    what numpy promises of [argsort] on the date-times present. *)
Theorem chart_draws_missing_dates_last (L : library) (i : interaction) (s : state)
    (T : DataFrame) (cs : list cell) :
  table s = Some T ->
  rows T <> [] ->
  columns T = schema ->
  sort_by_time i = true ->
  Forall2 (fun r c => to_datetime_cell L (date_time r) = Ok c) (rows T) cs ->
  let converted_rows := zip_with (fun c r => mk_row c (power r)) cs (rows T) in
  sorts (argsort_datetime L)
    (map time_of (List.filter (fun r => negb (isna (date_time r))) converted_rows)) = true ->
  exists present,
    let drawn := present ++ List.filter (fun r => isna (date_time r)) converted_rows in
    Permutation present
      (List.filter (fun r => negb (isna (date_time r))) converted_rows) /\
    StronglySorted Z.le (map time_of present) /\
    (px_error L (chart_type i) (mk_frame schema drawn) = None ->
     page (exec (tab_plot L i) s) =
       page s ++ [PlotlyChart (mk_figure (chart_type i) (markers_of i)
                                 (map date_time drawn) (map power drawn))]).
Proof.
  intros HT Hrs Hc Hsort Hcs P Hs.
  destruct (converted_cells L T cs Hc Hcs) as [Hconv HP]. fold P in HP.
  destruct (sorted_frame_missing_last L P HP Hs) as (present & Hsf & Hperm & Hsorted).
  exists present. split; [exact Hperm|]. split; [exact Hsorted|].
  intros Hpx.
  destruct (tab_plot_run L i s T HT) as (s' & R & _ & Hpage).
  unfold exec. rewrite R. simpl. rewrite Hpage. f_equal.
  assert (E : empty T = false).
  { unfold empty. rewrite Hc. destruct (rows T); [contradiction | reflexivity]. }
  unfold chart_elements, plotted, plot_copy.
  rewrite E, Hsort, Hconv, Hc. fold P. rewrite Hsf.
  rewrite px_schema by reflexivity. rewrite Hpx. reflexivity.
Qed.

Lemma chart_draws_missing_dates_last_witness :
  let T := mk_frame schema
    [mk_row CNone (CInt 1);
     mk_row (CStr "2024-01-05 09:03:07") (CInt 50);
     mk_row (CStr "NaT") (CInt 2);
     mk_row (CStr "2024-01-05 09:03:02") (CInt 40)] in
  let s := mk_state {[ 1%positive := T ]} {[ "df" := 1%positive ]} [] in
  let i := mk_interaction (mk_datetime 2024 1 5 9 3 7) 50 false false (fun d => d)
             Line true true "power_data.csv" in
  map fig_y (charts (page (exec (tab_plot Reference.lib i) s))) =
    [[CInt 40; CInt 50; CInt 1; CInt 2]] /\
  exists present, StronglySorted Z.le (map time_of present).
Proof.
  intros T s i. split; [vm_compute; reflexivity|].
  destruct (chart_draws_missing_dates_last Reference.lib i s T
              [CNone; CTime 1704445387000000000; CNone; CTime 1704445382000000000])
    as (present & _ & H & _);
    [reflexivity | discriminate | reflexivity | reflexivity
    | cbv [T rows]; repeat (constructor; [vm_compute; reflexivity|]); constructor
    | vm_compute; reflexivity |].
  exists present. exact H.
Defined.

(** ** Runs that only look *)

(** A run in which no button is pressed and the editor returns the table
    it was shown leaves the table as it was, whatever chart type, marker
    and sort options and file name are chosen, and whether or not the
    metrics raise. *)
Theorem rerun_keeps_table (L : library) (i : interaction) (s : state) (T : DataFrame) :
  table s = Some T ->
  add_clicked i = false ->
  clear_clicked i = false ->
  editor i T = T ->
  table (snd (run L i s)) = Some T.
Proof.
  intros HT Ha Hc He. rewrite run_fresh.
  assert (HT0 : table (fresh_page s) = Some T) by exact HT.
  destruct (top_metrics_state L (fresh_page s)) as (o & ms & Hm & _).
  destruct o as [[]|e].
  - destruct (body_run L i (fresh_page s) T ms HT0 Hm) as (s' & R & HT' & _).
    rewrite R. simpl. rewrite HT'. unfold edited_table, after_buttons.
    rewrite Ha, Hc, He. reflexivity.
  - rewrite (body_raise L i (fresh_page s) _ T e HT0 Hm). exact HT.
Qed.

Lemma rerun_keeps_table_witness :
  let T := mk_frame schema [mk_row (CStr "2024-01-05 09:03:02") (CInt 40)] in
  let s := mk_state {[ 1%positive := T ]} {[ "df" := 1%positive ]} [] in
  let i := mk_interaction (mk_datetime 2024 1 5 9 3 7) 50 false false (fun d => d)
             Bar false false "other.csv" in
  table (snd (run Reference.lib i s)) = Some T.
Proof.
  intros T s i. apply (rerun_keeps_table Reference.lib i s T); reflexivity.
Defined.
